(** * The risk-gated order pipeline of ig-sentiment-trader

    A shallow embedding of
      - login_only/risk_guards.py        (ledger roll-ups, trading window, the two guards),
      - login_only/trade_once.py         (indicators, signal, sizing, the per-instrument loop body),
      - login_only/rest_signals.py       (the second [rsi]),
      - login_only/confirm_and_enrich.py (confirmation polling and fallback matching),
      - login_only/sentiment_client.py   (the shape of the sentiment result),
    followed by the properties checked against it.

    Conventions of the embedding.
      - A Python float is a rational ([Q]).  Rounding error is outside the
        model, except in the position sizer: [snap] takes the floor, ceiling
        or nearest integer of a quotient, where one rounding can move the
        result by a whole step, so [snap] and [sized_order] compute in
        binary64, every operation rounded by [f64].  Where pandas relies on
        IEEE special values (division by zero in [rsi]) the type [fl] keeps
        [inf] and [NaN].
      - A [datetime] is an integer number of microseconds; [timedelta] too.
      - A function that may raise returns [py A]; [try/except] is a match on it.
      - Broker responses and rows about to be written are JSON-like values
        ([json]); a row read back by [csv.DictReader] is a [gmap string string].
      - Library calls whose full behaviour is not reproduced here ([float] and
        [int] on strings, [str], [json.dumps], [datetime.fromisoformat],
        [ZoneInfo]) are the fields of the class [PyRuntime]; every general
        theorem holds for every instance.  [Reference] gives one instance,
        used to evaluate the functions on concrete inputs.
      - The wall clock is an argument: one evaluation of a guard sees one
        instant [now]. *)

From Stdlib Require Import ZArith QArith Qround Qabs Qminmax Qpower Lqa Lia.
From Stdlib Require Import String Ascii List Bool DecimalString OrderedTypeEx.
From stdpp Require Import base option list strings gmap.

Local Open Scope string_scope.
Local Open Scope Z_scope.

(** ** Exceptions *)

Inductive exn : Type :=
| HTTPError (status : Z) (text : string)
| TypeError
| ValueError
| AttributeError
| IndexError
| KeyError
| ZeroDivisionError
| RuntimeError (msg : string).

Inductive py (A : Type) : Type :=
| Ret (a : A)
| Raise (e : exn).
Arguments Ret {A} a.
Arguments Raise {A} e.

#[global] Instance py_ret : MRet py := fun A a => Ret a.
#[global] Instance py_bind : MBind py :=
  fun A B f m => match m with Ret a => f a | Raise e => Raise e end.
#[global] Instance py_fmap : FMap py :=
  fun A B f m => match m with Ret a => Ret (f a) | Raise e => Raise e end.

(** [try: m  except Exception: d] *)
Definition try_except {A} (m : py A) (d : A) : A :=
  match m with Ret a => a | Raise _ => d end.

(** ** JSON-like Python values *)

#[warnings="-register-all"]
Inductive json : Type :=
| JNull
| JBool (b : bool)
| JInt (z : Z)
| JNum (q : Q)
| JStr (s : string)
| JArr (l : list json)
| JObj (kv : list (string * json)).

Definition Qnonzero (q : Q) : bool := negb (Qeq_bool q 0).

(** Python truthiness. *)
Definition truthy (j : json) : bool :=
  match j with
  | JNull => false
  | JBool b => b
  | JInt z => negb (Z.eqb z 0)
  | JNum q => Qnonzero q
  | JStr s => negb (String.eqb s "")
  | JArr l => match l with [] => false | _ => true end
  | JObj kv => match kv with [] => false | _ => true end
  end.

(** [a or b] *)
Definition jor (a b : json) : json := if truthy a then a else b.

Fixpoint assoc_get {V} (kv : list (string * V)) (k : string) : option V :=
  match kv with
  | [] => None
  | (k', v) :: rest => if String.eqb k' k then Some v else assoc_get rest k
  end.

(** [d[k] = v] on an insertion-ordered dict. *)
Fixpoint dict_set {V} (kv : list (string * V)) (k : string) (v : V) : list (string * V) :=
  match kv with
  | [] => [(k, v)]
  | (k', v') :: rest =>
      if String.eqb k' k then (k', v) :: rest else (k', v') :: dict_set rest k v
  end.

(** [{**a, **b}] and [a.update(b)] *)
Definition dict_update {V} (a b : list (string * V)) : list (string * V) :=
  fold_left (fun acc kv => dict_set acc (fst kv) (snd kv)) b a.

(** [x.get(k)]: [AttributeError] unless [x] is a dict. *)
Definition dlookup (x : json) (k : string) : py (option json) :=
  match x with
  | JObj kv => Ret (assoc_get kv k)
  | _ => Raise AttributeError
  end.

Definition dget (x : json) (k : string) : py json :=
  o ← dlookup x k; Ret (default JNull o).

Definition dget_d (x : json) (k : string) (d : json) : py json :=
  o ← dlookup x k; Ret (default d o).

(** [len(x)] *)
Definition py_len (x : json) : py Z :=
  match x with
  | JArr l => Ret (Z.of_nat (length l))
  | JObj kv => Ret (Z.of_nat (length kv))
  | JStr s => Ret (Z.of_nat (String.length s))
  | _ => Raise TypeError
  end.

Fixpoint chars (s : string) : list string :=
  match s with
  | EmptyString => []
  | String c r => String c EmptyString :: chars r
  end.

(** [for item in x] *)
Definition py_iter (x : json) : py (list json) :=
  match x with
  | JArr l => Ret l
  | JObj kv => Ret (map (fun p => JStr (fst p)) kv)
  | JStr s => Ret (map JStr (chars s))
  | _ => Raise TypeError
  end.

(** ** Strings *)

Definition upper_ascii (c : ascii) : ascii :=
  let n := nat_of_ascii c in
  if (Nat.leb 97 n && Nat.leb n 122)%bool then ascii_of_nat (n - 32) else c.

(** [s.upper()] on ASCII text. *)
Fixpoint upper (s : string) : string :=
  match s with
  | EmptyString => EmptyString
  | String c r => String (upper_ascii c) (upper r)
  end.

Fixpoint rev_string (s : string) : string :=
  match s with
  | EmptyString => EmptyString
  | String c r => rev_string r +:+ String c EmptyString
  end.

Fixpoint lstrip_Z (s : string) : string :=
  match s with
  | String "Z"%char r => lstrip_Z r
  | _ => s
  end.

(** [s.rstrip("Z")] *)
Definition rstrip_Z (s : string) : string := rev_string (lstrip_Z (rev_string s)).

(** [s.startswith(p)] *)
Definition startswith (s p : string) : bool := String.prefix p s.

Fixpoint split_colon_go (s acc : string) : list string :=
  match s with
  | EmptyString => [rev_string acc]
  | String ":"%char r => rev_string acc :: split_colon_go r EmptyString
  | String c r => split_colon_go r (String c acc)
  end.

(** [s.split(":")] *)
Definition split_colon (s : string) : list string := split_colon_go s EmptyString.

(** [s.replace("Z", "+00:00")] *)
Fixpoint replace_Z (s : string) : string :=
  match s with
  | EmptyString => EmptyString
  | String "Z"%char r => "+00:00" +:+ replace_Z r
  | String c r => String c (replace_Z r)
  end.

(** ** Numbers *)

Definition string_of_Z (z : Z) : string := NilZero.string_of_int (Z.to_int z).

Definition Qltb (a b : Q) : bool := negb (Qle_bool b a).

(** Python's [round(x)] to an integer: ties go to the even neighbour. *)
Definition round_half_even (q : Q) : Z :=
  let f := Qfloor q in
  let r := (q - inject_Z f)%Q in
  if Qltb r (1 # 2) then f
  else if Qltb (1 # 2) r then f + 1
  else if Z.even f then f else f + 1.

(** *** Binary64

    A Python float is an IEEE 754 binary64 number, and [/] and [*] on floats
    round the exact result to the nearest one, ties to the even significand.
    [f64 q] is that rounding of the rational [q]: the significand is [q]
    scaled to 53 bits (fewer below the normal range, where the exponent
    stops at -1074) and rounded to an integer.  A result of magnitude 2^1024
    or more is [inf] in Python; [f64] has no upper limit, and what the code
    does with [inf] is outside the model ([f64_finite] says that a result
    is not one). *)

Definition pow2 (e : Z) : Q := (2 ^ e)%Q.

(** The exponent of the last bit of the significand of a normal number:
    [pow2 52 <= |q| / pow2 e < pow2 53]. *)
Definition f64_normal_exponent (q : Q) : Z :=
  let e0 := Z.log2 (Z.abs (Qnum q)) - Z.log2 (Zpos (Qden q)) - 52 in
  if Qltb (Qabs q / pow2 e0) (pow2 52) then e0 - 1 else e0.

Definition f64_exponent (q : Q) : Z := Z.max (f64_normal_exponent q) (-1074).

Definition f64 (q : Q) : Q :=
  if Qeq_bool q 0 then 0%Q
  else
    let e := f64_exponent q in
    Qred (inject_Z (round_half_even (q / pow2 e)) * pow2 e).


(** [a / b] and [a * b] on floats.  An argument stands for the binary64
    number nearest to it, which is the argument itself when it is one
    already (lemma [f64_idempotent]).  A quotient by 0 raises
    ZeroDivisionError in Python: the caller tests the divisor. *)
Definition f64_div (a b : Q) : Q := f64 (f64 a / f64 b).
Definition f64_mul (a b : Q) : Q := f64 (f64 a * f64 b).

Fixpoint pad_left (n : nat) (s : string) : string :=
  if Nat.ltb (String.length s) n
  then match n with O => s | S m => "0" +:+ pad_left m s end
  else s.

(** [f"{q:.{d}f}"] *)
Definition fmt_fixed (d : nat) (q : Q) : string :=
  let scale := 10 ^ Z.of_nat d in
  let n := round_half_even (Qabs q * inject_Z scale)%Q in
  let body :=
    string_of_Z (n / scale) +:+
    (match d with O => "" | _ => "." +:+ pad_left d (string_of_Z (n mod scale)) end) in
  if Qltb q 0 then "-" +:+ body else body.

(** A pandas float: a finite value, an infinity, or NaN. *)
Inductive fl : Type :=
| Fin (q : Q)
| PInf
| NInf
| NaN.

Definition fl_of_opt (o : option Q) : fl :=
  match o with Some q => Fin q | None => NaN end.

Definition fl_isna (x : fl) : bool :=
  match x with NaN => true | _ => false end.

Definition fl_ltb (a b : fl) : bool :=
  match a, b with
  | NaN, _ | _, NaN => false
  | _, NInf => false
  | NInf, _ => true
  | PInf, _ => false
  | _, PInf => true
  | Fin x, Fin y => Qltb x y
  end.

Definition fl_leb (a b : fl) : bool :=
  match a, b with
  | NaN, _ | _, NaN => false
  | NInf, _ => true
  | _, PInf => true
  | _, NInf => false
  | PInf, _ => false
  | Fin x, Fin y => Qle_bool x y
  end.

Definition fl_add (a b : fl) : fl :=
  match a, b with
  | NaN, _ | _, NaN => NaN
  | PInf, NInf | NInf, PInf => NaN
  | PInf, _ | _, PInf => PInf
  | NInf, _ | _, NInf => NInf
  | Fin x, Fin y => Fin (x + y)
  end.

Definition fl_neg (a : fl) : fl :=
  match a with
  | Fin x => Fin (- x)
  | PInf => NInf
  | NInf => PInf
  | NaN => NaN
  end.

Definition fl_sub (a b : fl) : fl := fl_add a (fl_neg b).

(** numpy division: [x/0] is an infinity of the sign of [x], [0/0] is NaN. *)
Definition fl_div (a b : fl) : fl :=
  match a, b with
  | NaN, _ | _, NaN => NaN
  | Fin x, Fin y =>
      if Qnonzero y then Fin (x / y)
      else if Qltb 0 x then PInf else if Qltb x 0 then NInf else NaN
  | Fin _, _ => Fin 0
  | PInf, Fin y => if Qltb y 0 then NInf else PInf
  | NInf, Fin y => if Qltb y 0 then PInf else NInf
  | _, _ => NaN
  end.

Definition fmt_fl (d : nat) (x : fl) : string :=
  match x with
  | Fin q => fmt_fixed d q
  | PInf => "inf"
  | NInf => "-inf"
  | NaN => "nan"
  end.

(** ** The Python runtime *)

(** What [datetime.fromisoformat] returns: a naive wall-clock value or an
    aware instant, both in microseconds. *)
Inductive pydt : Type :=
| Naive (wall : Z)
| Aware (instant : Z).

Class PyRuntime : Type := {
  (** [float(s)] on a string; [None] when it raises. *)
  rt_float : string -> option Q;
  (** [int(s)] on a string; [None] when it raises. *)
  rt_int : string -> option Z;
  (** [str(x)] on a value that is not a string. *)
  rt_str : json -> string;
  (** [json.dumps(x, separators=(",", ":"))] *)
  rt_json_dumps : json -> string;
  (** [f"{type(e).__name__}: {e}"] *)
  rt_exn_str : exn -> string;
  (** [datetime.fromisoformat(s)]; [None] when it raises. *)
  rt_fromisoformat : string -> option pydt;
  (** [d.astimezone(timezone.utc)] as an instant (a naive [d] is read in
      the system zone). *)
  rt_to_utc : pydt -> Z;
  (** [ZoneInfo(name)]: the UTC offset in force at an instant; [None]
      when the zone is unknown. *)
  rt_zoneinfo : string -> option (Z -> Z)
}.

(** ** Time *)

Definition US_PER_SEC : Z := 1000000.
Definition US_PER_MIN : Z := 60 * US_PER_SEC.
Definition US_PER_DAY : Z := 86400 * US_PER_SEC.

(** [timedelta(minutes=m)] *)
Definition timedelta_minutes (m : Z) : Z := m * US_PER_MIN.

(** Proleptic Gregorian date of a day number counted from 1970-01-01. *)
Definition civil_from_days (days : Z) : Z * Z * Z :=
  let z := days + 719468 in
  let era := z / 146097 in
  let doe := z - era * 146097 in
  let yoe := (doe - doe / 1460 + doe / 36524 - doe / 146096) / 365 in
  let doy := doe - (365 * yoe + yoe / 4 - yoe / 100) in
  let mp := (5 * doy + 2) / 153 in
  let d := doy - (153 * mp + 2) / 5 + 1 in
  let m := if mp <? 10 then mp + 3 else mp - 9 in
  let y := yoe + era * 400 + (if m <=? 2 then 1 else 0) in
  (y, m, d).

Definition days_from_civil (y m d : Z) : Z :=
  let y' := if m <=? 2 then y - 1 else y in
  let era := y' / 400 in
  let yoe := y' - era * 400 in
  let mp := if m <=? 2 then m + 9 else m - 3 in
  let doy := (153 * mp + 2) / 5 + d - 1 in
  let doe := yoe * 365 + yoe / 4 - yoe / 100 + doy in
  era * 146097 + doe - 719468.

Definition pad2 (n : Z) : string := pad_left 2 (string_of_Z n).

(** [t.strftime("%Y-%m-%d")] for a UTC (or wall-clock) value. *)
Definition strftime_ymd (t : Z) : string :=
  let '(y, m, d) := civil_from_days (t / US_PER_DAY) in
  pad_left 4 (string_of_Z y) +:+ "-" +:+ pad2 m +:+ "-" +:+ pad2 d.

Definition fmt_offset (off : Z) : string :=
  let a := Z.abs off / US_PER_SEC in
  (if off <? 0 then "-" else "+") +:+ pad2 (a / 3600) +:+ ":" +:+ pad2 (a mod 3600 / 60)
  +:+ (if a mod 60 =? 0 then "" else ":" +:+ pad2 (a mod 60)).

(** [t.isoformat(timespec="seconds")] of an aware value shown at offset [off]. *)
Definition isoformat_seconds (t off : Z) : string :=
  let w := t + off in
  let s := w mod US_PER_DAY / US_PER_SEC in
  strftime_ymd w +:+ "T" +:+ pad2 (s / 3600) +:+ ":" +:+ pad2 (s mod 3600 / 60) +:+ ":"
  +:+ pad2 (s mod 60) +:+ fmt_offset off.

(** trade_once.py / confirm_and_enrich.py: [now_utc_iso]. *)
Definition now_utc_iso (now : Z) : string := isoformat_seconds now 0 +:+ "Z".

(** trade_once.py: [run_id_utc], [strftime("%Y%m%dT%H%M%SZ")]. *)
Definition run_id_utc (now : Z) : string :=
  let '(y, m, d) := civil_from_days (now / US_PER_DAY) in
  let s := now mod US_PER_DAY / US_PER_SEC in
  pad_left 4 (string_of_Z y) +:+ pad2 m +:+ pad2 d +:+ "T"
  +:+ pad2 (s / 3600) +:+ pad2 (s mod 3600 / 60) +:+ pad2 (s mod 60) +:+ "Z".

(** ** The ledger file *)

(** The CSV file as its records, header first; each record is its cells.
    Quoting is the [csv] module's business and is not modelled. *)
Abbreviation csv_file := (list (list string)).

(** One step of [dict(zip(fieldnames, row))], followed by [restval=None] for
    the header names a short record does not reach. *)
Fixpoint zip_row (hdr cells : list string) (d : gmap string string) : gmap string string :=
  match hdr with
  | [] => d
  | k :: hdr' =>
      match cells with
      | v :: cells' => zip_row hdr' cells' (<[k := v]> d)
      | [] => zip_row hdr' [] (delete k d)
      end
  end.

Definition is_blank (cells : list string) : bool :=
  match cells with [] => true | _ => false end.

(** [list(csv.DictReader(f))] *)
Definition csv_DictReader (f : csv_file) : list (gmap string string) :=
  match f with
  | [] => []
  | hdr :: recs =>
      map (fun cells => zip_row hdr cells ∅) (List.filter (fun c => negb (is_blank c)) recs)
  end.

(** The cell a record holds in the column [k] of the layout [fields]. *)
Fixpoint csv_get (fields cells : list string) (k : string) : option string :=
  match fields, cells with
  | f :: fs, c :: cs => if String.eqb f k then Some c else csv_get fs cs k
  | _, _ => None
  end.

(** [(r.get(k) or "")] *)
Definition get_or_empty (r : gmap string string) (k : string) : string :=
  default "" (r !! k).

Section RiskGuards.
Context {rt : PyRuntime}.

(** *** risk_guards.py: csv helpers *)

(** [None] is a missing file. *)
Definition _read_csv_rows (log : option csv_file) : list (gmap string string) :=
  match log with
  | None => []
  | Some f => csv_DictReader f
  end.

Definition _today_yyyy_mm_dd_utc (now : Z) : string := strftime_ymd now.

Definition _parse_ts (ts : string) : option Z :=
  if String.eqb ts "" then None
  else rt_to_utc <$> rt_fromisoformat (rstrip_Z ts).

(** *** risk_guards.py: rollups from log *)

Definition orders_today (log : option csv_file) (now : Z) : list (gmap string string) :=
  List.filter (fun r => startswith (get_or_empty r "ts_utc") (_today_yyyy_mm_dd_utc now))
              (_read_csv_rows log).

Definition orders_today_for_instrument (log : option csv_file) (now : Z) (name : string)
  : list (gmap string string) :=
  List.filter (fun r => String.eqb (get_or_empty r "name") name) (orders_today log now).

(** [(r.get("event") or "").upper() in ("ORDER_SENT","ORDER_DRY")] *)
Definition is_order_event (r : gmap string string) : bool :=
  let e := upper (get_or_empty r "event") in
  (String.eqb e "ORDER_SENT" || String.eqb e "ORDER_DRY")%bool.

Definition count_orders_today_total (log : option csv_file) (now : Z) : Z :=
  Z.of_nat (length (List.filter is_order_event (orders_today log now))).

Definition count_orders_today_instrument (log : option csv_file) (now : Z) (name : string) : Z :=
  Z.of_nat (length (List.filter is_order_event (orders_today_for_instrument log now name))).

Fixpoint insert_desc (x : Z) (l : list Z) : list Z :=
  match l with
  | [] => [x]
  | y :: l' => if x <? y then y :: insert_desc x l' else x :: l
  end.

Definition sort_desc (l : list Z) : list Z := foldr insert_desc [] l.

Definition is_some {A} (o : option A) : bool :=
  match o with Some _ => true | None => false end.

(** [sorted(xs, reverse=True)] on values that are datetimes or [None]:
    with two or more elements every element takes part in a comparison,
    and comparing [None] raises [TypeError]. *)
Definition sorted_reverse (l : list (option Z)) : py (list (option Z)) :=
  match l with
  | [] | [_] => Ret l
  | _ => if forallb is_some l
         then Ret (map Some (sort_desc (omap id l)))
         else Raise TypeError
  end.

Definition last_order_time_instrument (log : option csv_file) (now : Z) (name : string)
  : py (option Z) :=
  let recs := List.filter is_order_event (orders_today_for_instrument log now name) in
  let with_ts := List.filter (fun r => is_some (r !! "ts_utc") &&
                                       negb (String.eqb (get_or_empty r "ts_utc") ""))%bool recs in
  times ← sorted_reverse (map (fun r => _parse_ts (get_or_empty r "ts_utc")) with_ts);
  Ret (match times with t :: _ => t | [] => None end).

(** One turn of the loop of [today_committed_risk_gbp]:
    [total += float(r.get("eff_risk_gbp") or 0.0)] under [try/except: pass]. *)
Definition add_risk (total : Q) (r : gmap string string) : Q :=
  if is_order_event r then
    let s := get_or_empty r "eff_risk_gbp" in
    if String.eqb s "" then (total + 0)%Q
    else match rt_float s with
         | Some x => (total + x)%Q
         | None => total
         end
  else total.

Definition today_committed_risk_gbp (log : option csv_file) (now : Z) : Q :=
  fold_left add_risk (orders_today log now) 0%Q.

End RiskGuards.

(** *** risk_guards.py: configuration *)

(** [cfg["risk_guards"]["trading_hours"]] when it is a non-empty dict; the
    zone, start and end after their defaults ("Europe/London", "00:00",
    "23:59"). *)
Record TradingHours : Type := {
  th_enabled : bool;
  th_timezone : string;
  th_start : string;
  th_end : string
}.

(** The values the guards read from [cfg["risk_guards"]], after the
    coercions the guards apply ([int(x or 0)], [float(x or 0.0)],
    truthiness of [enabled]). *)
Record RiskGuardConfig : Type := {
  rg_enabled : bool;
  rg_max_trades_per_run : Z;
  rg_max_concurrent_positions : Z;
  rg_trading_hours : option TradingHours;
  rg_max_trades_per_day : Z;
  rg_cooldown_min : Z;
  rg_daily_risk_budget_gbp : Q;
  rg_daily_loss_limit_gbp : Q;
  rg_count_dry_as_trade : bool
}.

Definition json_of_opt (o : option Q) : json :=
  match o with Some q => JNum q | None => JNull end.

Definition py_max (a b : Q) : Q := if Qltb a b then b else a.

Definition tolerance : Q := 1 # 1000000000.

Record GuardResult : Type := {
  ok : bool;
  reason : string;
  meta : list (string * json)
}.

Section Guards.
Context {rt : PyRuntime}.

(** [float(x)] *)
Definition py_float (x : json) : py Q :=
  match x with
  | JInt z => Ret (inject_Z z)
  | JNum q => Ret q
  | JBool b => Ret (if b then 1 else 0)%Q
  | JStr s => match rt_float s with Some q => Ret q | None => Raise ValueError end
  | _ => Raise TypeError
  end.

(** *** risk_guards.py: balance baseline for daily loss limit *)

(** [me] is what [ig.me()] returned or raised. *)
Definition _current_balance_gbp (me : py json) : option Q :=
  try_except
    (m ← me;
     info ← dget m "accountInfo";
     bal ← dget (jor info (JObj [])) "balance";
     match bal with
     | JNull => Ret None
     | _ => Some <$> py_float bal
     end)
    None.

(** The baseline file of the day: absent, unreadable, or a JSON value. *)
Definition baseline_file : Type := option (option json).

Definition ensure_daily_baseline_and_loss (me : py json) (bf : baseline_file)
  : option Q * option Q * option Q :=
  match _current_balance_gbp me with
  | None => (None, None, None)
  | Some cur =>
      let baseline :=
        match bf with
        | None => cur
        | Some content =>
            try_except
              (match content with
               | None => Raise ValueError
               | Some obj => v ← dget obj "baseline_balance_gbp"; py_float v
               end)
              cur
        end in
      (Some baseline, Some cur, Some (py_max 0 (baseline - cur)%Q))
  end.

(** The file as [ensure_daily_baseline_and_loss] leaves it. *)
Definition baseline_after (me : py json) (bf : baseline_file) (created_utc : string)
  : baseline_file :=
  match _current_balance_gbp me, bf with
  | Some cur, None =>
      Some (Some (JObj [("baseline_balance_gbp", JNum cur); ("created_utc", JStr created_utc)]))
  | _, _ => bf
  end.

(** *** risk_guards.py: trading window *)

(** [h, m = map(int, s.split(":"))] *)
Definition parse_hhmm (s : string) : py (Z * Z) :=
  match split_colon s with
  | [a; b] =>
      match rt_int a with
      | None => Raise ValueError
      | Some h => match rt_int b with
                  | None => Raise ValueError
                  | Some m => Ret (h, m)
                  end
      end
  | _ => Raise ValueError
  end.

(** [datetime(d.year, d.month, d.day, h, m, tzinfo=tz)] as a wall-clock
    value, [day] being the day number of [d]. *)
Definition datetime_on (day h m : Z) : py Z :=
  if ((0 <=? h) && (h <? 24) && (0 <=? m) && (m <? 60))%bool
  then Ret (day * US_PER_DAY + (h * 60 + m) * US_PER_MIN)
  else Raise ValueError.

(** [try: tz = ZoneInfo(tzname)  except Exception: tz = timezone.utc], as
    the offset of that zone at an instant. *)
Definition zone_or_utc (tzname : string) (t : Z) : Z :=
  match rt_zoneinfo tzname with
  | Some f => f t
  | None => 0
  end.

(** [start_dt], [local] and [end_dt] carry the same [tzinfo] object, so
    Python compares their wall-clock values. *)
Definition in_trading_window (cfg : RiskGuardConfig) (now_utc : Z)
  : py (bool * list (string * json)) :=
  match rg_trading_hours cfg with
  | None => Ret (true, [("trading_hours_enabled", JBool false)])
  | Some th =>
      if negb (th_enabled th) then Ret (true, [("trading_hours_enabled", JBool false)])
      else
        let tzname := th_timezone th in
        let start := th_start th in
        let end_ := th_end th in
        let off := zone_or_utc tzname now_utc in
        let local := now_utc + off in
        let local_date := local / US_PER_DAY in
        '(s_hour, s_min) ← parse_hhmm start;
        '(e_hour, e_min) ← parse_hhmm end_;
        start_dt ← datetime_on local_date s_hour s_min;
        end_dt ← datetime_on local_date e_hour e_min;
        let ok := if start_dt <=? end_dt
                  then ((start_dt <=? local) && (local <=? end_dt))%bool
                  else ((start_dt <=? local) || (local <=? end_dt))%bool in
        Ret (ok, [("trading_hours_enabled", JBool true);
                  ("timezone", JStr tzname); ("start", JStr start); ("end", JStr end_);
                  ("now_local", JStr (isoformat_seconds now_utc off))])
  end.

(** *** risk_guards.py: guard API *)

(** [positions] is what [ig.positions()] returned or raised. *)
Definition open_positions_count (positions : py json) : Z :=
  try_except
    (data ← positions;
     a ← dget data "positions";
     b ← dget data "response";
     py_len (jor (jor a b) (JArr [])))
    0.

Definition guard_preflight (positions : py json) (cfg : RiskGuardConfig)
    (run_trade_count : Z) : GuardResult :=
  let meta := [] in
  if negb (rg_enabled cfg) then Build_GuardResult true "RG_DISABLED" meta
  else
    let mtr := rg_max_trades_per_run cfg in
    let meta := dict_set meta "max_trades_per_run" (JInt mtr) in
    let meta := dict_set meta "run_trade_count" (JInt run_trade_count) in
    if (negb (mtr =? 0) && (mtr <=? run_trade_count))%bool
    then Build_GuardResult false "BLOCK_MAX_TRADES_PER_RUN" meta
    else
      let mcp := rg_max_concurrent_positions cfg in
      let meta := dict_set meta "max_concurrent_positions" (JInt mcp) in
      if negb (mcp =? 0) then
        let open_n := open_positions_count positions in
        let meta := dict_set meta "open_positions" (JInt open_n) in
        if mcp <=? open_n
        then Build_GuardResult false "BLOCK_MAX_CONCURRENT_POSITIONS" meta
        else Build_GuardResult true "RG_OK" meta
      else Build_GuardResult true "RG_OK" meta.

(** The tail of [guard_postsize]: D) daily loss limit. *)
Definition guard_loss_limit (me : py json) (bf : baseline_file) (cfg : RiskGuardConfig)
    (meta : list (string * json)) : GuardResult :=
  let dll := rg_daily_loss_limit_gbp cfg in
  let meta := dict_set meta "daily_loss_limit_gbp" (JNum dll) in
  if Qltb 0 dll then
    let '(baseline, current, loss) := ensure_daily_baseline_and_loss me bf in
    let meta := dict_set meta "pnl_baseline_gbp" (json_of_opt baseline) in
    let meta := dict_set meta "current_balance_gbp" (json_of_opt current) in
    let meta := dict_set meta "realized_loss_gbp" (json_of_opt loss) in
    match loss, baseline with
    | Some l, Some _ =>
        if Qle_bool (dll - tolerance) l
        then Build_GuardResult false "BLOCK_DAILY_LOSS_LIMIT" meta
        else Build_GuardResult true "RG2_OK" meta
    | _, _ => Build_GuardResult true "RG2_OK" meta
    end
  else Build_GuardResult true "RG2_OK" meta.

(** C) daily risk budget, then D). *)
Definition guard_risk_budget (me : py json) (bf : baseline_file) (cfg : RiskGuardConfig)
    (log : option csv_file) (now : Z) (planned_eff_risk_gbp : Q)
    (meta : list (string * json)) : GuardResult :=
  let budget := rg_daily_risk_budget_gbp cfg in
  let meta := dict_set meta "daily_risk_budget_gbp" (JNum budget) in
  if Qltb 0 budget then
    let committed := today_committed_risk_gbp log now in
    let meta := dict_set meta "today_committed_risk_gbp" (JNum committed) in
    if Qltb (budget + tolerance) (committed + py_max 0 planned_eff_risk_gbp)
    then Build_GuardResult false "BLOCK_DAILY_RISK_BUDGET" meta
    else guard_loss_limit me bf cfg meta
  else guard_loss_limit me bf cfg meta.

(** B, second half) cooldown, then C). *)
Definition guard_cooldown (me : py json) (bf : baseline_file) (cfg : RiskGuardConfig)
    (log : option csv_file) (now : Z) (instrument_name : string) (planned_eff_risk_gbp : Q)
    (meta : list (string * json)) : py GuardResult :=
  let cooldown_min := rg_cooldown_min cfg in
  if 0 <? cooldown_min then
    last_ts ← last_order_time_instrument log now instrument_name;
    let meta := dict_set meta "cooldown_min" (JInt cooldown_min) in
    let meta := dict_set meta "last_order_ts"
                  (JStr (match last_ts with
                         | Some t => isoformat_seconds t 0
                         | None => ""
                         end)) in
    match last_ts with
    | Some t =>
        if now <? t + timedelta_minutes cooldown_min
        then Ret (Build_GuardResult false "BLOCK_COOLDOWN_INSTRUMENT" meta)
        else Ret (guard_risk_budget me bf cfg log now planned_eff_risk_gbp meta)
    | None => Ret (guard_risk_budget me bf cfg log now planned_eff_risk_gbp meta)
    end
  else Ret (guard_risk_budget me bf cfg log now planned_eff_risk_gbp meta).

(** [me] and [bf] are what [ig.me()] and the baseline file hold when the
    loss-limit check reads them. *)
Definition guard_postsize (me : py json) (bf : baseline_file) (cfg : RiskGuardConfig)
    (log : option csv_file) (now : Z) (instrument_name : string)
    (planned_eff_risk_gbp : Q) : py GuardResult :=
  let meta := [("instrument", JStr instrument_name);
               ("planned_eff_risk_gbp", JNum planned_eff_risk_gbp)] in
  if negb (rg_enabled cfg) then Ret (Build_GuardResult true "RG_DISABLED" meta)
  else
    '(ok_window, wmeta) ← in_trading_window cfg now;
    let meta := dict_update meta wmeta in
    if negb ok_window then Ret (Build_GuardResult false "BLOCK_TRADING_WINDOW" meta)
    else
      let max_tpd := rg_max_trades_per_day cfg in
      if negb (max_tpd =? 0) then
        let count_i := count_orders_today_instrument log now instrument_name in
        let meta := dict_set meta "max_trades_per_day" (JInt max_tpd) in
        let meta := dict_set meta "orders_today_instrument" (JInt count_i) in
        if max_tpd <=? count_i
        then Ret (Build_GuardResult false "BLOCK_MAX_TRADES_PER_DAY_INSTRUMENT" meta)
        else guard_cooldown me bf cfg log now instrument_name planned_eff_risk_gbp meta
      else guard_cooldown me bf cfg log now instrument_name planned_eff_risk_gbp meta.

End Guards.

(** ** trade_once.py: indicators *)

(** A pandas float column whose entries are finite or NaN: [None] is NaN. *)
Abbreviation series := (list (option Q)).

Definition Qsum (l : list Q) : Q := fold_left Qplus l 0%Q.

(** The entries a window of width [n] ending at position [i] covers. *)
Definition window {A} (n i : nat) (s : list A) : list A :=
  drop (i + 1 - n) (take (i + 1) s).

(** [s.rolling(n, min_periods=n).mean()]: the mean of the observations in
    the window when there are at least [n] of them. *)
Definition rolling_mean (n : nat) (s : series) : series :=
  map (fun i =>
         let obs := omap id (window n i s) in
         if Nat.leb n (length obs) && Nat.ltb 0 (length obs)
         then Some (Qsum obs / inject_Z (Z.of_nat (length obs)))%Q
         else None)
      (seq 0 (length s)).

(** [s.diff()] *)
Definition diff (s : series) : series :=
  match s with
  | [] => []
  | _ :: t => None :: zip_with (fun cur prev =>
                                  match cur, prev with
                                  | Some a, Some b => Some (a - b)%Q
                                  | _, _ => None
                                  end) t s
  end.

(** [d.clip(lower=0)] *)
Definition clip_lower0 (d : series) : series := map (fmap (fun x => py_max 0 x)) d.

(** [-d.clip(upper=0)] *)
Definition neg_clip_upper0 (d : series) : series :=
  map (fmap (fun x => - (if Qltb 0 x then 0 else x))%Q) d.

Definition sma (s : series) (n : nat) : series := rolling_mean n s.

(** [100 - (100 / (1 + up / dn))], element by element. *)
Definition rsi_of (up dn : option Q) : fl :=
  let rs := fl_div (fl_of_opt up) (fl_of_opt dn) in
  fl_sub (Fin 100) (fl_div (Fin 100) (fl_add (Fin 1) rs)).

Definition rsi_up (s : series) (n : nat) : series := rolling_mean n (clip_lower0 (diff s)).
Definition rsi_dn (s : series) (n : nat) : series := rolling_mean n (neg_clip_upper0 (diff s)).

Definition rsi (s : series) (n : nat) : list fl :=
  zip_with rsi_of (rsi_up s n) (rsi_dn s n).

(** ** rest_signals.py: indicators *)

Module rest_signals.

(** The running state of pandas' [ewm(...).mean()] loop. *)
Record ewm_state : Type := {
  weighted : option Q;
  old_wt : Q;
  nobs : nat
}.

(** One turn of the loop for [adjust=False, ignore_na=False]. *)
Definition ewm_step (alpha : Q) (st : ewm_state) (cur : option Q) : ewm_state :=
  let nobs' := (nobs st + (if is_some cur then 1 else 0))%nat in
  match weighted st with
  | Some w =>
      let ow := (old_wt st * (1 - alpha))%Q in
      match cur with
      | Some c =>
          let w' := if Qeq_bool w c then w
                    else ((ow * w + alpha * c) / (ow + alpha))%Q in
          {| weighted := Some w'; old_wt := 1; nobs := nobs' |}
      | None => {| weighted := Some w; old_wt := ow; nobs := nobs' |}
      end
  | None => {| weighted := cur; old_wt := old_wt st; nobs := nobs' |}
  end.

Definition ewm_out (minp : nat) (st : ewm_state) : option Q :=
  if Nat.leb minp (nobs st) then weighted st else None.

Fixpoint ewm_go (alpha : Q) (minp : nat) (st : ewm_state) (s : series) : series :=
  match s with
  | [] => []
  | cur :: t =>
      let st' := ewm_step alpha st cur in
      ewm_out minp st' :: ewm_go alpha minp st' t
  end.

(** [s.ewm(alpha=alpha, adjust=False, min_periods=minp).mean()] *)
Definition ewm_mean (alpha : Q) (minp : nat) (s : series) : series :=
  match s with
  | [] => []
  | x :: t =>
      let st := {| weighted := x; old_wt := 1; nobs := if is_some x then 1 else 0 |} in
      ewm_out (Nat.max minp 1) st :: ewm_go alpha (Nat.max minp 1) st t
  end.

Definition sma (s : series) (window : nat) : series := rolling_mean window s.

Definition rsi (s : series) (period : nat) : list fl :=
  let delta := diff s in
  let alpha := (1 / inject_Z (Z.of_nat period))%Q in
  let up := ewm_mean alpha period (clip_lower0 delta) in
  let down := ewm_mean alpha period (neg_clip_upper0 delta) in
  zip_with rsi_of up down.

End rest_signals.

(** ** trade_once.py: logging fields, helpers, signal and sizing *)

Definition LOG_FIELDS : list string := [
  "ts_utc";"run_id";"env";"live";"name";"epic";"resolution";"candle_count";"warmup_bars";
  "signal";"close";"sma20";"rsi14";
  "sentiment_label";"sentiment_score";"sentiment_reason";
  "rg_reason";"rg_meta_json";"rg2_reason";"rg2_meta_json";
  "risk_gbp";"stop_points";"limit_points";"value_per_point";"size_raw";"size_final";
  "eff_risk_gbp";"currency";
  "event";"status";"dealReference";"error";"payload_json"
].

(** One row of the bar DataFrame after the indicator columns are added. *)
Record BarRow : Type := {
  close : fl;
  sma20 : fl;
  rsi14 : fl
}.

(** What [place_order] returns. *)
Inductive order_out : Type :=
| DryRun (payload : json)
| Placed (payload resp : json)
| Rejected (payload : json) (status : Z) (text : string).

Section TradeOnce.
Context {rt : PyRuntime}.

(** What the [csv] writer puts in a cell. *)
Definition csv_cell (v : json) : string :=
  match v with
  | JNull => ""
  | JStr s => s
  | _ => rt_str v
  end.

Definition is_dict_or_list (v : json) : bool :=
  match v with JObj _ | JArr _ => true | _ => false end.

Definition dump_key (row : list (string * json)) (k : string) : list (string * json) :=
  match assoc_get row k with
  | Some v => if is_dict_or_list v then dict_set row k (JStr (rt_json_dumps v)) else row
  | None => row
  end.

(** [{k: row.get(k, "") for k in fields}] as the writer lays it out. *)
Definition csv_record (fields : list string) (row : list (string * json)) : list string :=
  map (fun k => csv_cell (default (JStr "") (assoc_get row k))) fields.

Definition ensure_log (log : option csv_file) : csv_file :=
  match log with
  | None => [LOG_FIELDS]
  | Some f => f
  end.

Definition write_log (log : option csv_file) (row : list (string * json)) : csv_file :=
  let row := fold_left dump_key ["payload_json"; "rg_meta_json"; "rg2_meta_json"] row in
  ensure_log log ++ [csv_record LOG_FIELDS row].

(** [k = value / step] is a float; [ceil], [round] and [floor] give an
    [int], which [*] converts back to a float before multiplying. *)
Definition snap (value step : Q) (mode : string) : Q :=
  if Qle_bool (f64 step) 0 then f64 value
  else
    let k := f64_div value step in
    if String.eqb mode "up" then f64_mul (inject_Z (Qceiling k)) step
    else if String.eqb mode "nearest" then f64_mul (inject_Z (round_half_even k)) step
    else f64_mul (inject_Z (Qfloor k)) step.

Definition value_per_point (market : json) : py Q :=
  instr ← dget market "instrument";
  cs ← dget (jor instr (JObj [])) "contractSize";
  Ret (try_except (py_float cs) 0%Q).

(** [market.get("dealingRules") or (market.get("instrument") or {}).get("dealingRules") or {}] *)
Definition dealing_rules (market : json) : py json :=
  a ← dget market "dealingRules";
  if truthy a then Ret a
  else
    instr ← dget market "instrument";
    b ← dget (jor instr (JObj [])) "dealingRules";
    Ret (jor b (JObj [])).

Definition min_size_and_step (market : json) : py (Q * Q) :=
  rules ← dealing_rules market;
  m ← dget rules "minDealSize";
  let mds := jor m (JObj []) in
  v ← dget mds "value";
  min_sz ← py_float (jor v (JNum 1));
  st ← dget mds "step";
  step ← py_float (jor st (jor v (JNum 1)));
  Ret (min_sz, step).

Definition min_stop_points (market : json) : py Q :=
  rules ← dealing_rules market;
  a ← dget rules "minStopOrLimitDistance";
  msl ← (if truthy a then Ret a
         else b ← dget rules "minStopDistance"; Ret (jor b (JObj [])));
  Ret (try_except (v ← dget msl "value"; py_float (jor v (JNum 0))) 0%Q).

(** [cur[0]] *)
Definition first_item (cur : json) : py json :=
  match cur with
  | JArr (x :: _) => Ret x
  | JArr [] => Raise IndexError
  | JStr (String c _) => Ret (JStr (String c EmptyString))
  | JStr EmptyString => Raise IndexError
  | JObj _ => Raise KeyError
  | _ => Raise TypeError
  end.

Definition currency_code (market : json) : py json :=
  instr ← dget market "instrument";
  a ← dget (jor instr (JObj [])) "currencies";
  cur ← (if truthy a then Ret a
         else mk ← dget market "market";
              b ← dget (jor mk (JObj [])) "currencies";
              Ret (jor b (JArr [])));
  if truthy cur then x ← first_item cur; dget x "code"
  else Ret (JStr "GBP").

Definition simple_signal (df : list BarRow) (rsi_buy_min rsi_sell_max : Q) (warmup_bars : Z)
  : py string :=
  if Z.of_nat (length df) <? warmup_bars then Ret "HOLD"
  else
    match last df with
    | None => Raise IndexError
    | Some row =>
        if (fl_isna (sma20 row) || fl_isna (rsi14 row))%bool then Ret "HOLD"
        else if (fl_ltb (sma20 row) (close row) && fl_leb (Fin rsi_buy_min) (rsi14 row))%bool
        then Ret "BUY"
        else if (fl_ltb (close row) (sma20 row) && fl_leb (rsi14 row) (Fin rsi_sell_max))%bool
        then Ret "SELL"
        else Ret "HOLD"
    end.

(** The quotient [risk_gbp / (...)] raises ZeroDivisionError when the
    product, of two factors above 0, has underflowed to 0. *)
Definition sized_order (market : json) (risk_gbp stop_pts : Q) (round_mode : string)
  : py (Q * Q) :=
  vpp ← value_per_point market;
  if Qle_bool (f64 vpp) 0
  then Raise (RuntimeError "Cannot determine value-per-point from market.contractSize")
  else
    let denom := f64_mul (py_max (f64 stop_pts) (f64 tolerance)) vpp in
    if Qeq_bool denom 0 then Raise ZeroDivisionError
    else
      let raw := f64_div risk_gbp denom in
      '(min_sz, step) ← min_size_and_step market;
      let size := snap raw step round_mode in
      let size := if Qltb size (f64 min_sz) then f64 min_sz else size in
      Ret (size, raw).

(** The [payload] dict of [place_order]. *)
Definition order_payload (epic direction : string) (size stop_dist limit_dist : Q)
    (currency : json) : json :=
  JObj [
    ("epic", JStr epic);
    ("expiry", JStr "-");
    ("direction", JStr direction);
    ("size", JNum size);
    ("orderType", JStr "MARKET");
    ("timeInForce", JStr "FILL_OR_KILL");
    ("guaranteedStop", JBool false);
    ("forceOpen", JBool true);
    ("currencyCode", currency);
    ("stopDistance", JNum stop_dist);
    ("limitDistance", JNum limit_dist)
  ].

(** [place_position] is [ig.place_position]: what the broker answers to a
    payload.  Only [requests.HTTPError] is caught. *)
Definition place_order (place_position : json -> py json) (epic direction : string)
    (size stop_dist limit_dist : Q) (currency : json) (live : bool) : py order_out :=
  let payload := order_payload epic direction size stop_dist limit_dist currency in
  if negb live then Ret (DryRun payload)
  else
    match place_position payload with
    | Ret resp => Ret (Placed payload resp)
    | Raise (HTTPError status text) => Ret (Rejected payload status text)
    | Raise e => Raise e
    end.

End TradeOnce.

(** ** trade_once.py: the body of the watchlist loop of [run_loop] *)

(** The values [run_loop] reads from [cfg] before the loop, with [rid],
    [env] and [live_flag]. *)
Record RunParams : Type := {
  reso : string;
  rr : Q;
  risk_gbp : Q;
  warmup : Z;
  sig_rsi_buy : Z;
  sig_rsi_sell : Z;
  rid : string;
  env : string;
  live_flag : bool;
  s_enabled : bool;
  s_thr : Q;
  s_logexp : bool
}.

(** A watchlist entry after [name], [epic] and [stop_pts] are read. *)
Record Item : Type := {
  item_name : string;
  item_epic : string;
  item_stop_points : Q
}.

(** What the outside world answers during one turn of the loop. *)
Record ItemWorld : Type := {
  (** the clock when [base_row] is built *)
  w_now : Z;
  (** [ig.positions()] inside the pre-flight guard *)
  w_positions : py json;
  (** [ig.markets_by_epic(epic)] *)
  w_market : py json;
  (** the [close] column of [prices_df_from_json(ig.prices(...))] *)
  w_closes : py series;
  (** [get_sentiment_for_price_action(...)]; [JNull] is [None] *)
  w_sentiment : json;
  (** the clock, [ig.me()] and the baseline file during the post-size guard *)
  w_guard_now : Z;
  w_me : py json;
  w_baseline : baseline_file;
  (** [ig.place_position] *)
  w_place_position : json -> py json
}.

Record Outcome : Type := {
  instrument : string;
  signal : string;
  sentiment : string;
  rg_pre : string;
  rg_post : string;
  action : string;
  detail : string
}.

Record RunState : Type := {
  st_log : option csv_file;
  run_trade_count : Z;
  outcomes : list Outcome
}.

Section RunLoop.
Context {rt : PyRuntime}.

Definition base_row_of (p : RunParams) (w : ItemWorld) (item : Item) : list (string * json) :=
  [("ts_utc", JStr (now_utc_iso (w_now w)));
   ("run_id", JStr (rid p)); ("env", JStr (env p)); ("live", JBool (live_flag p));
   ("name", JStr (item_name item)); ("epic", JStr (item_epic item));
   ("resolution", JStr (reso p));
   ("warmup_bars", JInt (warmup p)); ("risk_gbp", JNum (risk_gbp p));
   ("stop_points", JNum (item_stop_points item));
   ("limit_points", JNum (rr p * item_stop_points item)%Q)].

(** [df["sma20"] = sma(df["close"], 20); df["rsi14"] = rsi(df["close"], 14)] *)
Definition with_indicators (closes : series) : list BarRow :=
  zip_with (fun c sr => Build_BarRow (fl_of_opt c) (fl_of_opt (fst sr)) (snd sr))
           closes (zip (sma closes 20) (rsi closes 14)).

(** The fields every row written after sizing carries. *)
Definition sizing_fields (vpp raw_size size eff_risk : Q) : list (string * json) :=
  [("value_per_point", JNum vpp);
   ("size_raw", JStr (fmt_fixed 6 raw_size));
   ("size_final", JNum size);
   ("eff_risk_gbp", JStr (fmt_fixed 2 eff_risk))].

(** From "---- Sizing" to the end of the loop body. *)
Definition size_and_place (p : RunParams) (cfg : RiskGuardConfig) (w : ItemWorld)
    (st : RunState) (log : option csv_file) (row : list (string * json))
    (name epic sig sent_txt : string) (mk curr : json) (vpp stop_pts limit_pts : Q)
  : py RunState :=
  let done log' o n :=
    {| st_log := Some log'; run_trade_count := n; outcomes := outcomes st ++ [o] |} in
  match sized_order mk (risk_gbp p) stop_pts "down" with
  | Raise (RuntimeError msg) =>
      Ret (done (write_log log (dict_update row
                   [("event", JStr "ERROR"); ("status", JStr "size_error");
                    ("error", JStr msg)]))
                (Build_Outcome name sig sent_txt "OK" "OK" "ERROR" ("size_error " +:+ msg))
                (run_trade_count st))
  | Raise e => Raise e
  | Ret (size, raw_size) =>
      let eff_risk := (size * vpp * stop_pts)%Q in
      rg2 ← guard_postsize (w_me w) (w_baseline w) cfg log (w_guard_now w) name eff_risk;
      let sized := sizing_fields vpp raw_size size eff_risk in
      let det := "size=" +:+ rt_str (JNum size) +:+ ", eff_risk_gbp=" +:+ fmt_fixed 2 eff_risk in
      if negb (ok rg2) then
        Ret (done (write_log log (dict_update row
                     ([("event", JStr "NO_ORDER"); ("status", JStr "risk_guard_post");
                       ("rg2_reason", JStr (reason rg2)); ("rg2_meta_json", JObj (meta rg2))]
                      ++ sized)))
                  (Build_Outcome name sig sent_txt "OK" (reason rg2) "NO_ORDER"
                                 "post-size guard blocked")
                  (run_trade_count st))
      else
        out ← place_order (w_place_position w) epic sig size stop_pts limit_pts curr (live_flag p);
        match out with
        | DryRun payload =>
            Ret (done (write_log log (dict_update row
                         ([("event", JStr "ORDER_DRY"); ("status", JStr "ok")] ++ sized ++
                          [("currency", curr); ("payload_json", payload)])))
                      (Build_Outcome name sig sent_txt "OK" "OK" "ORDER_DRY" det)
                      (if rg_count_dry_as_trade cfg
                       then run_trade_count st + 1 else run_trade_count st))
        | Placed payload resp =>
            ref ← dget_d resp "dealReference" (JStr "");
            Ret (done (write_log log (dict_update row
                         ([("event", JStr "ORDER_SENT"); ("status", JStr "ok")] ++ sized ++
                          [("currency", curr); ("dealReference", ref);
                           ("payload_json", payload)])))
                      (Build_Outcome name sig sent_txt "OK" "OK" "ORDER_SENT" det)
                      (run_trade_count st + 1))
        | Rejected payload status text =>
            Ret (done (write_log log (dict_update row
                         ([("event", JStr "ORDER_FAIL"); ("status", JInt status)] ++ sized ++
                          [("currency", curr); ("error", JStr text);
                           ("payload_json", payload)])))
                      (Build_Outcome name sig sent_txt "OK" "OK" "ORDER_FAIL"
                                     ("http " +:+ string_of_Z status))
                      (run_trade_count st))
        end
  end.

(** The sentiment gate, then [size_and_place]. *)
Definition sentiment_gate (p : RunParams) (cfg : RiskGuardConfig) (w : ItemWorld)
    (st : RunState) (log : option csv_file) (row : list (string * json))
    (name epic sig : string) (mk curr : json) (vpp stop_pts limit_pts : Q)
  : py RunState :=
  let done log' o :=
    {| st_log := Some log'; run_trade_count := run_trade_count st;
       outcomes := outcomes st ++ [o] |} in
  let sent_meta := [("sentiment_label", JStr ""); ("sentiment_score", JStr "");
                    ("sentiment_reason", JStr "")] in
  if (s_enabled p && (String.eqb sig "BUY" || String.eqb sig "SELL"))%bool then
    let sent := w_sentiment w in
    if negb (truthy sent) then
      Ret (done (write_log log (dict_update (dict_update row sent_meta)
                   [("event", JStr "NO_ORDER"); ("status", JStr "sentiment_unavailable")]))
                (Build_Outcome name sig "UNAVAILABLE" "OK" "OK" "NO_ORDER"
                               "sentiment unavailable"))
    else
      label ← dget_d sent "label" (JStr "");
      sc ← dget_d sent "score" (JNum 0);
      score ← py_float sc;
      expl ← (if s_logexp p then dget_d sent "explanation" (JStr "") else Ret (JStr ""));
      let sent_meta := [("sentiment_label", label);
                        ("sentiment_score", JStr (fmt_fixed 2 score));
                        ("sentiment_reason", expl)] in
      if Qltb score (s_thr p) then
        Ret (done (write_log log (dict_update (dict_update row sent_meta)
                     [("event", JStr "NO_ORDER"); ("status", JStr "sentiment_block")]))
                  (Build_Outcome name sig ("BLOCK " +:+ fmt_fixed 2 score) "OK" "OK" "NO_ORDER"
                                 "sentiment below threshold"))
      else
        size_and_place p cfg w st log (dict_update row sent_meta) name epic sig
                       ("PASS " +:+ fmt_fixed 2 score) mk curr vpp stop_pts limit_pts
  else
    size_and_place p cfg w st log (dict_update row sent_meta) name epic sig "N/A"
                   mk curr vpp stop_pts limit_pts.

(** Lines 358-362: a configured stop below the market minimum is raised to
    it and the limit distance recomputed. *)
Definition effective_stop (rr stop_pts min_stop : Q) : Q * Q :=
  if Qltb stop_pts min_stop then (min_stop, (rr * min_stop)%Q)
  else (stop_pts, (rr * stop_pts)%Q).

(** One turn of [for item in cfg.get("watchlist", [])]. [Raise] is an
    exception the loop does not catch. *)
Definition run_item (p : RunParams) (cfg : RiskGuardConfig) (w : ItemWorld)
    (item : Item) (st : RunState) : py RunState :=
  let name := item_name item in
  let epic := item_epic item in
  let base_row := base_row_of p w item in
  let log := st_log st in
  let done log' o :=
    {| st_log := Some log'; run_trade_count := run_trade_count st;
       outcomes := outcomes st ++ [o] |} in
  let http_error status text what :=
    done (write_log log (dict_update base_row
            [("event", JStr "ERROR"); ("status", JInt status); ("error", JStr text);
             ("candle_count", JInt 0)]))
         (Build_Outcome name "HOLD" "N/A" "OK" "OK" "ERROR" (what +:+ string_of_Z status)) in
  let rg1 := guard_preflight (w_positions w) cfg (run_trade_count st) in
  if negb (ok rg1) then
    Ret (done (write_log log (dict_update base_row
                 [("event", JStr "NO_ORDER"); ("status", JStr "risk_guard_pre");
                  ("rg_reason", JStr (reason rg1)); ("rg_meta_json", JObj (meta rg1))]))
              (Build_Outcome name "HOLD" "N/A" (reason rg1) "OK" "NO_ORDER"
                             "pre-flight guard blocked"))
  else
    match w_market w with
    | Raise (HTTPError status text) => Ret (http_error status text "market fetch ")
    | Raise e => Raise e
    | Ret mk =>
        vpp ← value_per_point mk;
        min_stop ← min_stop_points mk;
        _ ← min_size_and_step mk;
        curr ← currency_code mk;
        let '(stop_pts, limit_pts) := effective_stop (rr p) (item_stop_points item) min_stop in
        match w_closes w with
        | Raise (HTTPError status text) => Ret (http_error status text "prices ")
        | Raise e => Raise e
        | Ret closes =>
            let df := with_indicators closes in
            match last df with
            | None =>
                Ret (done (write_log log (dict_update base_row
                             [("event", JStr "ERROR"); ("status", JStr "no_candles");
                              ("candle_count", JInt 0)]))
                          (Build_Outcome name "HOLD" "N/A" "OK" "OK" "ERROR" "no candles"))
            | Some bar =>
                sig ← simple_signal df (inject_Z (sig_rsi_buy p)) (inject_Z (sig_rsi_sell p))
                                    (warmup p);
                let n := JInt (Z.of_nat (length df)) in
                let log1 := Some (write_log log (dict_update base_row
                   [("event", JStr "SIGNAL"); ("status", JStr "ok"); ("candle_count", n);
                    ("signal", JStr sig); ("close", JStr (fmt_fl 5 (close bar)));
                    ("sma20", JStr (if fl_isna (sma20 bar) then "" else fmt_fl 5 (sma20 bar)));
                    ("rsi14", JStr (if fl_isna (rsi14 bar) then "" else fmt_fl 2 (rsi14 bar)));
                    ("value_per_point", JNum vpp)])) in
                let row := dict_update base_row [("candle_count", n); ("signal", JStr sig)] in
                if String.eqb sig "HOLD" then
                  Ret {| st_log := Some (write_log log1 (dict_update row
                                    [("event", JStr "NO_ORDER"); ("status", JStr "hold")]));
                         run_trade_count := run_trade_count st;
                         outcomes := outcomes st ++
                           [Build_Outcome name sig "N/A" "OK" "OK" "NO_ORDER" "signal HOLD"] |}
                else
                  sentiment_gate p cfg w st log1 row name epic sig mk curr vpp stop_pts limit_pts
            end
        end
    end.

(** [run_loop] from the first watchlist item on; [ws] holds what the world
    answers for each item in turn. *)
Fixpoint run_items (p : RunParams) (cfg : RiskGuardConfig)
    (items : list (Item * ItemWorld)) (st : RunState) : py RunState :=
  match items with
  | [] => Ret st
  | (item, w) :: rest => st' ← run_item p cfg w item st; run_items p cfg rest st'
  end.

End RunLoop.

(** ** confirm_and_enrich.py *)

Module confirm_and_enrich.

Definition LOG_FIELDS : list string := [
  "ts_utc";"run_id";"env";"live";"name";"epic";"resolution";"candle_count";"warmup_bars";
  "signal";"close";"sma20";"rsi14";"risk_gbp";"stop_points";"limit_points";"value_per_point";
  "size_raw";"size_final";"eff_risk_gbp";"currency";"event";"status";"dealReference";"error";
  "payload_json"
].

(** An element of the list [load_positions] builds. *)
Record position : Type := {
  pos_dealId : json;
  pos_epic : json;
  pos_direction : string;
  pos_size : option Q;
  pos_level : option Q;
  pos_stopLevel : option Q;
  pos_limitLevel : option Q;
  pos_created : json;
  pos_name : json
}.

(** The dict itself, as it is handed to [json.dumps]. *)
Definition position_dict (p : position) : json :=
  JObj [("dealId", pos_dealId p); ("epic", pos_epic p); ("direction", JStr (pos_direction p));
        ("size", json_of_opt (pos_size p)); ("level", json_of_opt (pos_level p));
        ("stopLevel", json_of_opt (pos_stopLevel p));
        ("limitLevel", json_of_opt (pos_limitLevel p));
        ("created", pos_created p); ("name", pos_name p)].

Definition json_of_ostr (o : option string) : json :=
  match o with Some s => JStr s | None => JNull end.

(** [datetime.min.replace(tzinfo=timezone.utc)] *)
Definition datetime_min_utc : pydt := Aware (days_from_civil 1 1 1 * US_PER_DAY).

(** What the outside world answers while the reconciler runs. *)
Record World : Type := {
  (** the clock when the [i]-th row's [base] is built *)
  e_now : nat -> Z;
  (** [ig.confirms(deal_ref)]: the answer to the [k]-th call made for the
      [i]-th row *)
  e_confirms : nat -> string -> nat -> py json;
  (** [ig.positions()] *)
  e_positions : py json;
  (** [creds.IG_ACC_TYPE] *)
  e_env : string
}.

Section Reconciler.
Context {rt : PyRuntime}.

Definition read_log_rows (log : option csv_file) : list (gmap string string) :=
  match log with
  | None => []
  | Some f => csv_DictReader f
  end.

(** [open(path, "a")] creates a missing file; no header is written. *)
Definition write_log_row (log : option csv_file) (row : list (string * json)) : csv_file :=
  let row := match assoc_get row "payload_json" with
             | Some pj => if is_dict_or_list pj
                          then dict_set row "payload_json" (JStr (rt_json_dumps pj)) else row
             | None => row
             end in
  default [] log ++ [csv_record LOG_FIELDS row].

Definition is_sent_row (r : gmap string string) : bool :=
  match r !! "event" with Some e => String.eqb e "ORDER_SENT" | None => false end.

Definition str_max (a b : string) : string :=
  match String.compare a b with Lt => b | _ => a end.

(** [sorted(ids)[-1] if ids else None] *)
Definition latest_run_id (rows : list (gmap string string)) : option string :=
  let ids := omap (fun r => if is_sent_row r then
                              match r !! "run_id" with
                              | Some i => if String.eqb i "" then None else Some i
                              | None => None
                              end
                            else None) rows in
  match ids with
  | [] => None
  | i :: rest => Some (fold_left str_max rest i)
  end.

Definition fnum (x : json) : option Q :=
  match py_float x with Ret q => Some q | Raise _ => None end.

Definition is_confirmation (data : json) : bool :=
  match data with
  | JObj kv => (truthy (default JNull (assoc_get kv "dealId"))
                || truthy (default JNull (assoc_get kv "dealStatus")))%bool
  | _ => false
  end.

(** The loop of [try_confirm], [k] calls already made. *)
Fixpoint try_confirm_from (confirms : nat -> py json) (attempts k : nat) (last : json)
  : bool * json :=
  match attempts with
  | O => (false, jor last (JObj [("error", JStr "confirm_failed")]))
  | S n =>
      match confirms k with
      | Ret data =>
          if is_confirmation data then (true, data)
          else try_confirm_from confirms n (S k)
                 (JObj [("error", JStr "unexpected_response"); ("raw", data)])
      | Raise e =>
          try_confirm_from confirms n (S k) (JObj [("error", JStr (rt_exn_str e))])
      end
  end.

Definition try_confirm (confirms : nat -> py json) (attempts : nat) : bool * json :=
  try_confirm_from confirms attempts 0 JNull.

(** [(x or "").upper()] *)
Definition py_upper (x : json) : py string :=
  match jor x (JStr "") with
  | JStr s => Ret (upper s)
  | _ => Raise AttributeError
  end.

Definition load_position (item : json) : py position :=
  pos ← dget_d item "position" (JObj []);
  mkt ← dget_d item "market" (JObj []);
  dealId ← dget pos "dealId";
  e1 ← dget pos "epic";
  epic ← (if truthy e1 then Ret e1 else dget mkt "epic");
  d ← dget pos "direction";
  direction ← py_upper d;
  size ← dget pos "size";
  level ← dget pos "level";
  stopLevel ← dget pos "stopLevel";
  limitLevel ← dget pos "limitLevel";
  c1 ← dget pos "createdDateUTC";
  c2 ← dget pos "createdDate";
  n1 ← dget mkt "instrumentName";
  n2 ← dget mkt "name";
  Ret {| pos_dealId := dealId; pos_epic := epic; pos_direction := direction;
         pos_size := fnum size; pos_level := fnum level; pos_stopLevel := fnum stopLevel;
         pos_limitLevel := fnum limitLevel; pos_created := jor c1 c2; pos_name := jor n1 n2 |}.

Fixpoint load_items (items : list json) : py (list position) :=
  match items with
  | [] => Ret []
  | item :: rest => p ← load_position item; ps ← load_items rest; Ret (p :: ps)
  end.

Definition load_positions (positions : py json) : py (list position) :=
  js ← positions;
  arr ← dget_d js "positions" (JArr []);
  items ← py_iter arr;
  load_items items.

(** [p.get("epic") == epic], [epic] being [r.get("epic")]. *)
Definition epic_eq (pe : json) (epic : option string) : bool :=
  match pe, epic with
  | JStr a, Some b => String.eqb a b
  | JNull, None => true
  | _, _ => false
  end.

(** Stable insertion: [x] stood before every element of [l]. *)
Fixpoint insert_by {A} (before : A -> A -> bool) (x : A) (l : list A) : list A :=
  match l with
  | [] => [x]
  | y :: l' => if before y x then y :: insert_by before x l' else x :: l
  end.

(** A stable sort; [before y x] says [y] must come strictly first. *)
Definition stable_sort {A} (before : A -> A -> bool) (l : list A) : list A :=
  foldr (insert_by before) [] l.

(** The key [ts] of [pick_match]. *)
Definition ts (p : position) : pydt :=
  match pos_created p with
  | JStr s =>
      if String.eqb s "" then datetime_min_utc
      else default datetime_min_utc (rt_fromisoformat (replace_Z s))
  | _ => datetime_min_utc
  end.

(** [(p.get("size") or 0)] *)
Definition size_or0 (p : position) : Q :=
  match pos_size p with
  | Some q => if Qnonzero q then q else 0%Q
  | None => 0%Q
  end.

Definition is_aware (d : pydt) : bool :=
  match d with Aware _ => true | Naive _ => false end.

Definition dt_value (d : pydt) : Z :=
  match d with Aware t => t | Naive t => t end.

Definition pick_match (positions : list position) (epic : option string)
    (direction : string) (size_hint : option Q) : py (option position) :=
  let cands := List.filter (fun p => epic_eq (pos_epic p) epic &&
                                     String.eqb (pos_direction p) direction)%bool positions in
  match cands with
  | [] => Ret None
  | _ =>
      match size_hint with
      | Some hint =>
          let key p := Qabs (size_or0 p - hint)%Q in
          Ret (head (stable_sort (fun y x => Qltb (key y) (key x)) cands))
      | None =>
          (* comparing an aware with a naive datetime raises TypeError *)
          if (Nat.ltb 1 (length cands)
              && negb (forallb (fun p => is_aware (ts p)) cands
                       || forallb (fun p => negb (is_aware (ts p))) cands))%bool
          then Raise TypeError
          else Ret (head (stable_sort (fun y x => dt_value (ts x) <? dt_value (ts y)) cands))
      end
  end.

(** The state the loop of [main] carries: the log file and [positions_cache]. *)
Record LoopState : Type := {
  ls_log : option csv_file;
  positions_cache : option (list position)
}.

(** One turn of [for r in sent], [r] being the [i]-th row of [sent]. *)
Definition reconcile_row (w : World) (run_id : string) (i : nat)
    (r : gmap string string) (st : LoopState) : py LoopState :=
  let epic := r !! "epic" in
  let direction := upper (get_or_empty r "signal") in
  let deal_ref := get_or_empty r "dealReference" in
  let size_hint := match r !! "size_final" with
                   | Some s => rt_float s
                   | None => None
                   end in
  let '(ok, data) := try_confirm (e_confirms w i deal_ref) 6 in
  let base := [("ts_utc", JStr (now_utc_iso (e_now w i))); ("run_id", JStr run_id);
               ("env", JStr (e_env w)); ("live", JBool true);
               ("name", json_of_ostr (r !! "name")); ("epic", json_of_ostr epic);
               ("resolution", json_of_ostr (r !! "resolution"));
               ("warmup_bars", json_of_ostr (r !! "warmup_bars"));
               ("risk_gbp", json_of_ostr (r !! "risk_gbp"));
               ("stop_points", json_of_ostr (r !! "stop_points"));
               ("limit_points", json_of_ostr (r !! "limit_points"));
               ("signal", JStr direction); ("dealReference", JStr deal_ref)] in
  if ok then
    status ← dget data "dealStatus";
    dealId ← dget data "dealId";
    ref ← dget data "dealReference";
    reason ← dget data "reason";
    level ← dget data "level";
    size ← dget data "size";
    stopLevel ← dget data "stopLevel";
    limitLevel ← dget data "limitLevel";
    Ret {| ls_log := Some (write_log_row (ls_log st) (dict_update base
             [("event", JStr "CONFIRM_OK"); ("status", jor status (JStr "ok"));
              ("payload_json", JObj [("dealId", dealId);
                                     ("dealReference", jor ref (JStr deal_ref));
                                     ("reason", reason); ("level", level); ("size", size);
                                     ("stopLevel", stopLevel); ("limitLevel", limitLevel);
                                     ("raw", data)])]));
           positions_cache := positions_cache st |}
  else
    cache ← match positions_cache st with
            | Some ps => Ret ps
            | None => load_positions (e_positions w)
            end;
    m ← pick_match cache epic direction size_hint;
    match m with
    | Some p =>
        Ret {| ls_log := Some (write_log_row (ls_log st) (dict_update base
                 [("event", JStr "CONFIRM_FALLBACK_OK"); ("status", JStr "from_positions");
                  ("payload_json", position_dict p)]));
               positions_cache := Some cache |}
    | None =>
        err ← dget data "error";
        Ret {| ls_log := Some (write_log_row (ls_log st) (dict_update base
                 [("event", JStr "CONFIRM_FAIL"); ("status", JStr "not_found");
                  ("error", jor err (JStr "confirm_failed"));
                  ("payload_json", JObj [("confirm_error", data)])]));
               positions_cache := Some cache |}
    end.

Fixpoint reconcile_from (w : World) (run_id : string) (i : nat)
    (sent : list (gmap string string)) (st : LoopState) : py LoopState :=
  match sent with
  | [] => Ret st
  | r :: rest => st' ← reconcile_row w run_id i r st; reconcile_from w run_id (S i) rest st'
  end.

(** [main] after the arguments are parsed: [run_id_arg] is [--run-id];
    the result is the log file as [main] leaves it. *)
Definition main (w : World) (run_id_arg : option string) (log : option csv_file)
  : py (option csv_file) :=
  let rows := read_log_rows log in
  match rows with
  | [] => Ret log
  | _ =>
      let arg := match run_id_arg with
                 | Some a => if String.eqb a "" then None else Some a
                 | None => None
                 end in
      match (match arg with Some a => Some a | None => latest_run_id rows end) with
      | None => Ret log
      | Some run_id =>
          let sent := List.filter (fun r => is_sent_row r &&
                                     match r !! "run_id" with
                                     | Some i => String.eqb i run_id
                                     | None => false
                                     end)%bool rows in
          st ← reconcile_from w run_id 0 sent {| ls_log := log; positions_cache := None |};
          Ret (ls_log st)
      end
  end.

End Reconciler.

End confirm_and_enrich.

(** ** A reference runtime

    One instance of [PyRuntime], covering the text the pipeline itself
    writes: decimal numbers, [YYYY-MM-DDTHH:MM:SS] timestamps with an
    optional [+HH:MM] offset, fixed-offset zones.  The system zone is UTC. *)

Module Reference.

Definition digit_of (c : ascii) : option Z :=
  let n := nat_of_ascii c in
  if (Nat.leb 48 n && Nat.leb n 57)%bool then Some (Z.of_nat (n - 48)) else None.

Fixpoint digits_go (s : string) (acc : Z) : option Z :=
  match s with
  | EmptyString => Some acc
  | String c r => match digit_of c with
                  | Some d => digits_go r (10 * acc + d)
                  | None => None
                  end
  end.

(** A non-empty run of decimal digits. *)
Definition digits (s : string) : option Z :=
  match s with
  | EmptyString => None
  | _ => digits_go s 0
  end.

Definition signed {A} (parse : string -> option A) (neg : A -> A) (s : string) : option A :=
  match s with
  | String "-"%char r => neg <$> parse r
  | String "+"%char r => parse r
  | _ => parse s
  end.

Definition int_of_string (s : string) : option Z := signed digits Z.opp s.

Fixpoint split_dot (s : string) (acc : string) : string * option string :=
  match s with
  | EmptyString => (rev_string acc, None)
  | String "."%char r => (rev_string acc, Some r)
  | String c r => split_dot r (String c acc)
  end.

Definition unsigned_decimal (s : string) : option Q :=
  match split_dot s EmptyString with
  | (ip, None) => inject_Z <$> digits ip
  | (ip, Some fp) =>
      match ip, fp with
      | EmptyString, EmptyString => None
      | _, _ =>
          i ← digits_go ip 0;
          f ← digits_go fp 0;
          let scale := 10 ^ Z.of_nat (String.length fp) in
          Some (Qred (Qmake (i * scale + f) (Z.to_pos scale)))
      end
  end.

Definition float_of_string (s : string) : option Q := signed unsigned_decimal Qopp s.

Definition quote : string := String (ascii_of_nat 34) EmptyString.

(** A float with a short decimal expansion prints exactly; others print
    with 17 fractional digits. *)
Fixpoint float_digits (fuel d : nat) (q : Q) : string :=
  if Qeq_bool (inject_Z (Qfloor (q * inject_Z (10 ^ Z.of_nat d)))) (q * inject_Z (10 ^ Z.of_nat d))
  then fmt_fixed d q
  else match fuel with
       | O => fmt_fixed d q
       | S n => float_digits n (S d) q
       end.

Definition str_of (v : json) : string :=
  match v with
  | JNull => "None"
  | JBool true => "True"
  | JBool false => "False"
  | JInt z => string_of_Z z
  | JNum q => float_digits 16 1 q
  | JStr s => s
  | JArr _ => "[...]"
  | JObj _ => "{...}"
  end.

Fixpoint join (sep : string) (l : list string) : string :=
  match l with
  | [] => ""
  | [x] => x
  | x :: rest => x +:+ sep +:+ join sep rest
  end.

(** Compact JSON text; strings are written without escapes. *)
Fixpoint json_dumps (v : json) : string :=
  match v with
  | JNull => "null"
  | JBool true => "true"
  | JBool false => "false"
  | JInt z => string_of_Z z
  | JNum q => float_digits 16 1 q
  | JStr s => quote +:+ s +:+ quote
  | JArr l => "[" +:+ join "," (map json_dumps l) +:+ "]"
  | JObj kv =>
      "{" +:+ join "," (map (fun p => quote +:+ fst p +:+ quote +:+ ":" +:+ json_dumps (snd p)) kv)
      +:+ "}"
  end.

Definition exn_str (e : exn) : string :=
  match e with
  | HTTPError status text => "HTTPError: " +:+ string_of_Z status +:+ " " +:+ text
  | TypeError => "TypeError: "
  | ValueError => "ValueError: "
  | AttributeError => "AttributeError: "
  | IndexError => "IndexError: "
  | KeyError => "KeyError: "
  | ZeroDivisionError => "ZeroDivisionError: float division by zero"
  | RuntimeError msg => "RuntimeError: " +:+ msg
  end.

Definition sub (s : string) (i n : nat) : string := substring i n s.

Definition parse_offset (s : string) : option Z :=
  if (Nat.eqb (String.length s) 6 && String.eqb (sub s 3 1) ":")%bool then
    h ← digits (sub s 1 2);
    m ← digits (sub s 4 2);
    let v := (h * 60 + m) * US_PER_MIN in
    if String.eqb (sub s 0 1) "+" then Some v
    else if String.eqb (sub s 0 1) "-" then Some (- v)
    else None
  else None.

Definition fromisoformat (s : string) : option pydt :=
  if (Nat.leb 19 (String.length s)
      && String.eqb (sub s 4 1) "-" && String.eqb (sub s 7 1) "-"
      && (String.eqb (sub s 10 1) "T" || String.eqb (sub s 10 1) " ")
      && String.eqb (sub s 13 1) ":" && String.eqb (sub s 16 1) ":")%bool then
    y ← digits (sub s 0 4);
    mo ← digits (sub s 5 2);
    d ← digits (sub s 8 2);
    h ← digits (sub s 11 2);
    mi ← digits (sub s 14 2);
    se ← digits (sub s 17 2);
    if ((1 <=? y) && (1 <=? mo) && (mo <=? 12) && (1 <=? d) && (d <=? 31)
        && (h <? 24) && (mi <? 60) && (se <? 60))%bool then
      let wall := days_from_civil y mo d * US_PER_DAY + ((h * 60 + mi) * 60 + se) * US_PER_SEC in
      if Nat.eqb (String.length s) 19 then Some (Naive wall)
      else off ← parse_offset (sub s 19 (String.length s - 19)); Some (Aware (wall - off))
    else None
  else None.

Definition to_utc (d : pydt) : Z :=
  match d with Aware t => t | Naive t => t end.

(** [UTC], and the fixed-offset zones [Etc/GMT-1] (one hour east) and
    [Etc/GMT+5] (five hours west). *)
Definition zoneinfo (name : string) : option (Z -> Z) :=
  if String.eqb name "UTC" then Some (fun _ => 0)
  else if String.eqb name "Etc/GMT-1" then Some (fun _ => 60 * US_PER_MIN)
  else if String.eqb name "Etc/GMT+5" then Some (fun _ => - (300 * US_PER_MIN))
  else None.

#[export] Instance runtime : PyRuntime := {|
  rt_float := float_of_string;
  rt_int := int_of_string;
  rt_str := str_of;
  rt_json_dumps := json_dumps;
  rt_exn_str := exn_str;
  rt_fromisoformat := fromisoformat;
  rt_to_utc := to_utc;
  rt_zoneinfo := zoneinfo
|}.

End Reference.


(** ** Vocabulary of the statements *)

(** The time of day of a wall-clock value, in microseconds after midnight. *)
Definition time_of_day (t : Z) : Z := t mod US_PER_DAY.

(** [h:m] as microseconds after midnight. *)
Definition clock_time (h m : Z) : Z := (h * 60 + m) * US_PER_MIN.

(** [now_utc.astimezone(tz)] as a wall-clock value. *)
Definition local_wall {rt : PyRuntime} (tzname : string) (now_utc : Z) : Z :=
  now_utc + zone_or_utc tzname now_utc.

(** Today's order-class rows of an instrument, as the roll-ups select them. *)
Definition order_rows_today (log : option csv_file) (now : Z) (name : string)
  : list (gmap string string) :=
  List.filter is_order_event (orders_today_for_instrument log now name).

(** The effective risk a row contributes to the committed total. *)
Definition row_risk {rt : PyRuntime} (r : gmap string string) : Q :=
  let s := get_or_empty r "eff_risk_gbp" in
  if String.eqb s "" then 0%Q else default 0%Q (rt_float s).

(** The per-instrument daily cap does not block. *)
Definition cap_passes (cfg : RiskGuardConfig) (log : option csv_file) (now : Z)
    (name : string) : Prop :=
  rg_max_trades_per_day cfg = 0 \/
  count_orders_today_instrument log now name < rg_max_trades_per_day cfg.

(** The cooldown check does not block. *)
Definition cooldown_passes {rt : PyRuntime} (cfg : RiskGuardConfig) (log : option csv_file)
    (now : Z) (name : string) : Prop :=
  rg_cooldown_min cfg <= 0 \/
  last_order_time_instrument log now name = Ret None \/
  exists t, last_order_time_instrument log now name = Ret (Some t) /\
            t + timedelta_minutes (rg_cooldown_min cfg) <= now.

(** [guard_postsize] blocks with the reason [why]. *)
Definition blocks_with {rt : PyRuntime} (why : string) (me : py json) (bf : baseline_file)
    (cfg : RiskGuardConfig) (log : option csv_file) (now : Z) (name : string)
    (planned : Q) : Prop :=
  exists m, guard_postsize me bf cfg log now name planned
            = Ret {| ok := false; reason := why; meta := m |}.

(** The daily-risk-budget rule in the words of the specification: block iff
    committed + planned exceeds the budget, with the tolerance. *)
Definition budget_rule_as_stated {rt : PyRuntime} (me : py json) (bf : baseline_file)
    (cfg : RiskGuardConfig) (log : option csv_file) (now : Z) (name : string)
    (planned : Q) : Prop :=
  blocks_with "BLOCK_DAILY_RISK_BUDGET" me bf cfg log now name planned <->
  (rg_daily_risk_budget_gbp cfg + tolerance < today_committed_risk_gbp log now + planned)%Q.

(** The time of the latest order-class row of an instrument, whatever its
    day: the specification's "last order time for the instrument". *)
Definition latest_order_time_any_day {rt : PyRuntime} (log : option csv_file) (name : string)
  : option Z :=
  let rows := List.filter (fun r => String.eqb (get_or_empty r "name") name && is_order_event r)%bool
                          (_read_csv_rows log) in
  match omap (fun r => _parse_ts (get_or_empty r "ts_utc")) rows with
  | [] => None
  | t :: rest => Some (fold_left Z.max rest t)
  end.

(** The cooldown rule in the words of the specification. *)
Definition cooldown_rule_as_stated {rt : PyRuntime} (me : py json) (bf : baseline_file)
    (cfg : RiskGuardConfig) (log : option csv_file) (now : Z) (name : string)
    (planned : Q) : Prop :=
  blocks_with "BLOCK_COOLDOWN_INSTRUMENT" me bf cfg log now name planned <->
  exists t, latest_order_time_any_day log name = Some t /\
            now < t + timedelta_minutes (rg_cooldown_min cfg).

(** The observations (non-NaN entries) in the window of width [n] ending at
    position [i]. *)
Definition observations (n i : nat) (s : series) : list Q := omap id (window n i s).

(** The rsi14 rule for a zero average of down-moves, in the words of the
    specification: the value is 100. *)
Definition zero_down_rule_as_stated (s : series) (i : nat) : Prop :=
  forall d, rsi_dn s 14 !! i = Some (Some d) -> (d == 0)%Q ->
            exists q, rsi s 14 !! i = Some (Fin q) /\ (q == 100)%Q.

(** The cell of a ledger record written by [write_log]. *)
Definition cell (rec : list string) (k : string) : option string := csv_get LOG_FIELDS rec k.


(** A record written after sizing with stop distance [stop] and limit
    distance [limit]: it shows the size, the raw size and the effective
    risk [size * vpp * stop], and an order record shows the payload. *)
Definition sized_record {rt : PyRuntime} (risk : Q) (mk : json) (vpp stop limit : Q)
    (epic : string) (rec : list string) : Prop :=
  exists size raw,
    sized_order mk risk stop "down" = Ret (size, raw) /\
    cell rec "value_per_point" = Some (rt_str (JNum vpp)) /\
    cell rec "size_raw" = Some (fmt_fixed 6 raw) /\
    cell rec "size_final" = Some (rt_str (JNum size)) /\
    cell rec "eff_risk_gbp" = Some (fmt_fixed 2 (size * vpp * stop)) /\
    ((cell rec "event" = Some "NO_ORDER" /\ cell rec "status" = Some "risk_guard_post") \/
     ((cell rec "event" = Some "ORDER_DRY" \/ cell rec "event" = Some "ORDER_SENT" \/
       cell rec "event" = Some "ORDER_FAIL") /\
      exists sig curr,
        cell rec "payload_json"
        = Some (rt_json_dumps (order_payload epic sig size stop limit curr)))).




(** ** Vocabulary of the ledger *)

(** The ledger is missing, or starts with the header [ensure_log] writes. *)
Definition ledger_headed (log : option csv_file) : Prop :=
  match log with
  | None => True
  | Some f => head f = Some LOG_FIELDS
  end.

(** The columns [write_log] serialises with [json.dumps]. *)
Definition json_column (k : string) : bool :=
  existsb (String.eqb k) ["payload_json"; "rg_meta_json"; "rg2_meta_json"].

(** The text of column [k] in the record of [row], column by column. *)
Definition logged_cell {rt : PyRuntime} (row : list (string * json)) (k : string) : string :=
  let v := default (JStr "") (assoc_get row k) in
  if (json_column k && is_dict_or_list v)%bool then rt_json_dumps v else csv_cell v.

(** ** Vocabulary of the verdicts of the post-size guard *)

(** The daily-risk-budget check does not block. *)
Definition budget_passes {rt : PyRuntime} (cfg : RiskGuardConfig) (log : option csv_file)
    (now : Z) (planned : Q) : Prop :=
  (rg_daily_risk_budget_gbp cfg <= 0)%Q \/
  (today_committed_risk_gbp log now + py_max 0 planned
   <= rg_daily_risk_budget_gbp cfg + tolerance)%Q.

(** The realized loss is known and reaches the daily loss limit. *)
Definition loss_limit_hit {rt : PyRuntime} (me : py json) (bf : baseline_file)
    (cfg : RiskGuardConfig) : Prop :=
  (0 < rg_daily_loss_limit_gbp cfg)%Q /\
  exists b c l : Q,
    ensure_daily_baseline_and_loss me bf = (Some b, Some c, Some l) /\
    (rg_daily_loss_limit_gbp cfg - tolerance <= l)%Q.

(** Why [guard_postsize] answered [g]: the checks in the order the code
    makes them, each block with the condition that caused it. *)
Definition verdict_cause {rt : PyRuntime} (me : py json) (bf : baseline_file)
    (cfg : RiskGuardConfig) (log : option csv_file) (now : Z) (name : string)
    (planned : Q) (g : GuardResult) : Prop :=
  (ok g = true /\ reason g = "RG_DISABLED" /\ rg_enabled cfg = false) \/
  (rg_enabled cfg = true /\
   ((ok g = false /\ reason g = "BLOCK_TRADING_WINDOW" /\
     fst <$> in_trading_window cfg now = Ret false) \/
    (fst <$> in_trading_window cfg now = Ret true /\
     ((ok g = false /\ reason g = "BLOCK_MAX_TRADES_PER_DAY_INSTRUMENT" /\
       rg_max_trades_per_day cfg <> 0 /\
       rg_max_trades_per_day cfg <= count_orders_today_instrument log now name) \/
      (cap_passes cfg log now name /\
       ((ok g = false /\ reason g = "BLOCK_COOLDOWN_INSTRUMENT" /\
         0 < rg_cooldown_min cfg /\
         exists t, last_order_time_instrument log now name = Ret (Some t) /\
                   now < t + timedelta_minutes (rg_cooldown_min cfg)) \/
        (cooldown_passes cfg log now name /\
         ((ok g = false /\ reason g = "BLOCK_DAILY_RISK_BUDGET" /\
           (0 < rg_daily_risk_budget_gbp cfg)%Q /\
           (rg_daily_risk_budget_gbp cfg + tolerance
            < today_committed_risk_gbp log now + py_max 0 planned)%Q) \/
          (budget_passes cfg log now planned /\
           ((ok g = false /\ reason g = "BLOCK_DAILY_LOSS_LIMIT" /\
             loss_limit_hit me bf cfg) \/
            (ok g = true /\ reason g = "RG2_OK" /\ ~ loss_limit_hit me bf cfg))))))))))).

(** ** Vocabulary of a turn of the watchlist loop *)

(** The outcome [o] records a turn that got as far as [place_order]. *)
Definition reached_placement (o : Outcome) : Prop :=
  action o = "ORDER_DRY" \/ action o = "ORDER_SENT" \/ action o = "ORDER_FAIL".

(** What the turn that ended with the outcome [o] did to the summary and
    to the count of trades of the run. *)
Definition turn_effect (p : RunParams) (cfg : RiskGuardConfig) (st st' : RunState)
    (o : Outcome) : Prop :=
  outcomes st' = (outcomes st ++ [o])%list /\
  (((action o = "NO_ORDER" \/ action o = "ERROR" \/ action o = "ORDER_FAIL") /\
    run_trade_count st' = run_trade_count st) \/
   (action o = "ORDER_DRY" /\ live_flag p = false /\
    run_trade_count st'
    = if rg_count_dry_as_trade cfg then run_trade_count st + 1 else run_trade_count st) \/
   (action o = "ORDER_SENT" /\ live_flag p = true /\
    run_trade_count st' = run_trade_count st + 1)).

(** A sentiment result is there and its score is not below the threshold. *)
Definition sentiment_passes {rt : PyRuntime} (p : RunParams) (w : ItemWorld) : Prop :=
  truthy (w_sentiment w) = true /\
  exists (sc : json) (score : Q),
    dget_d (w_sentiment w) "score" (JNum 0) = Ret sc /\
    py_float sc = Ret score /\ (s_thr p <= score)%Q.

(** The post-size guard, asked about the instrument with the ledger [log]
    and the planned risk [planned], allowed. *)
Definition postsize_allowed {rt : PyRuntime} (cfg : RiskGuardConfig) (w : ItemWorld)
    (name : string) (log : option csv_file) (planned : Q) : Prop :=
  exists g : GuardResult,
    guard_postsize (w_me w) (w_baseline w) cfg log (w_guard_now w) name planned = Ret g /\
    ok g = true.

(** The sizing of the turn: the market was fetched, [vpp] is its point
    value, [stop] the stop distance of the item raised to the minimum of the
    market, and [size] the size [sized_order] gives for that stop. *)
Definition order_sized {rt : PyRuntime} (p : RunParams) (w : ItemWorld) (item : Item)
    (vpp stop size : Q) : Prop :=
  exists (mk : json) (min_stop limit raw : Q),
    w_market w = Ret mk /\
    value_per_point mk = Ret vpp /\
    min_stop_points mk = Ret min_stop /\
    effective_stop (rr p) (item_stop_points item) min_stop = (stop, limit) /\
    sized_order mk (risk_gbp p) stop "down" = Ret (size, raw).

(** Every gate before [place_order] was passed, in the turn that takes the
    state [st] to [st']: the post-size guard read the ledger as it stood
    after the SIGNAL record of the turn, before the record of the order,
    and was asked about the risk size * pointValue * stop of the sizing. *)
Definition gates_passed {rt : PyRuntime} (p : RunParams) (cfg : RiskGuardConfig)
    (w : ItemWorld) (item : Item) (st st' : RunState) (o : Outcome) : Prop :=
  ok (guard_preflight (w_positions w) cfg (run_trade_count st)) = true /\
  (signal o = "BUY" \/ signal o = "SELL") /\
  (s_enabled p = true -> sentiment_passes p w) /\
  exists (vpp stop size : Q) (signal_rec order_rec : list string),
    order_sized p w item vpp stop size /\
    st_log st' = Some (ensure_log (st_log st) ++ [signal_rec; order_rec])%list /\
    cell signal_rec "event" = Some "SIGNAL" /\
    postsize_allowed cfg w (item_name item)
      (Some (ensure_log (st_log st) ++ [signal_rec])%list) (size * vpp * stop).

(** The world [w] with [ig.place_position] answering as [broker]. *)
Definition with_broker (w : ItemWorld) (broker : json -> py json) : ItemWorld :=
  {| w_now := w_now w; w_positions := w_positions w; w_market := w_market w;
     w_closes := w_closes w; w_sentiment := w_sentiment w; w_guard_now := w_guard_now w;
     w_me := w_me w; w_baseline := w_baseline w; w_place_position := broker |}.

(** ** Vocabulary of the indicators *)

(** An observation that is not negative, when there is one. *)
Definition obs_nonneg (o : option Q) : Prop := forall c, o = Some c -> (0 <= c)%Q.

(** The state of the exponentially weighted mean holds no negative value. *)
Definition ewm_nonneg (st : rest_signals.ewm_state) : Prop :=
  (forall w, rest_signals.weighted st = Some w -> 0 <= w)%Q /\
  (0 <= rest_signals.old_wt st)%Q.

(** ** Vocabulary of the reconciler *)

(** An open position is a candidate for a sent order of [epic] and
    [direction]. *)
Definition is_candidate (epic : option string) (direction : string)
    (p : confirm_and_enrich.position) : bool :=
  (confirm_and_enrich.epic_eq (confirm_and_enrich.pos_epic p) epic
   && String.eqb (confirm_and_enrich.pos_direction p) direction)%bool.

(** [a <= b] in the order [sorted] puts strings in. *)
Definition str_le (a b : string) : Prop := String.compare a b <> Gt.

(** The run id of an ORDER_SENT row, when it has one that is not empty. *)
Definition sent_run_id (r : gmap string string) : option string :=
  if confirm_and_enrich.is_sent_row r then
    match r !! "run_id" with
    | Some i => if String.eqb i "" then None else Some i
    | None => None
    end
  else None.

(** ** sentiment_client.py *)

Definition lower_ascii (c : ascii) : ascii :=
  let n := nat_of_ascii c in
  if (Nat.leb 65 n && Nat.leb n 90)%bool then ascii_of_nat (n + 32) else c.

(** [s.lower()] on ASCII text.  A letter outside ASCII stays as it is; no
    such letter lowers to a letter of the three labels. *)
Fixpoint lower (s : string) : string :=
  match s with
  | EmptyString => EmptyString
  | String c r => String (lower_ascii c) (lower r)
  end.

(** [min(a, b)] *)
Definition py_min (a b : Q) : Q := if Qltb b a then b else a.

Section Sentiment.
Context {rt : PyRuntime}.

(** [str(x)] *)
Definition py_str (x : json) : string :=
  match x with
  | JStr s => s
  | _ => rt_str x
  end.

(** From [data = json.loads(content)] to the [return] inside [try]; the
    score is a finite number. *)
Definition sentiment_of_data (data : json) : py json :=
  l ← dget_d data "label" (JStr "neutral");
  let label := lower (py_str l) in
  let label := if (String.eqb label "bullish" || String.eqb label "bearish"
                   || String.eqb label "neutral")%bool
               then label else "neutral" in
  s ← dget_d data "score" (JNum 0);
  score ← py_float s;
  let score := py_max 0 (py_min 1 score) in
  e ← dget_d data "explanation" (JStr "");
  let expl := String.substring 0 400 (py_str e) in
  Ret (JObj [("label", JStr label); ("score", JNum score); ("explanation", JStr expl)]).

(** [get_sentiment_for_price_action]: [api_key] is [OPENAI_API_KEY] in the
    environment, [reply] what the request and [json.loads] of the content
    of its first choice gave or raised.  [JNull] is [None]. *)
Definition get_sentiment_for_price_action (api_key : option string) (reply : py json) : json :=
  match api_key with
  | None => JNull
  | Some key =>
      if String.eqb key "" then JNull
      else try_except (data ← reply; sentiment_of_data data) JNull
  end.

End Sentiment.

(** A result of [get_sentiment_for_price_action] that is not [None]. *)
Definition sentiment_result (r : json) : Prop :=
  exists (label expl : string) (score : Q),
    r = JObj [("label", JStr label); ("score", JNum score); ("explanation", JStr expl)] /\
    (label = "bullish" \/ label = "bearish" \/ label = "neutral") /\
    (0 <= score <= 1)%Q /\
    (String.length expl <= 400)%nat.

(** ** Sample inputs *)

(** Fifteen equal closes. *)
Definition flat15 : series := repeat (Some 100%Q) 15.

(** A fall of fifty points, then twenty-one bars rising by one point. *)
Definition drop_then_rise : series :=
  Some 100%Q :: map (fun k => Some (inject_Z (50 + Z.of_nat k))) (seq 0 21).

(** Guards with a cap of three concurrent positions and five trades a run. *)
Definition cfg_cap3 : RiskGuardConfig :=
  {| rg_enabled := true; rg_max_trades_per_run := 5; rg_max_concurrent_positions := 3;
     rg_trading_hours := None; rg_max_trades_per_day := 0; rg_cooldown_min := 0;
     rg_daily_risk_budget_gbp := 0; rg_daily_loss_limit_gbp := 0;
     rg_count_dry_as_trade := true |}.

(** A 22:00-06:00 window in the zone [tz]. *)
Definition night_window (tz : string) : RiskGuardConfig :=
  {| rg_enabled := true; rg_max_trades_per_run := 0; rg_max_concurrent_positions := 0;
     rg_trading_hours := Some {| th_enabled := true; th_timezone := tz;
                                 th_start := "22:00"; th_end := "06:00" |};
     rg_max_trades_per_day := 0; rg_cooldown_min := 0;
     rg_daily_risk_budget_gbp := 0; rg_daily_loss_limit_gbp := 0;
     rg_count_dry_as_trade := true |}.

(** 2025-08-12T10:00:00Z *)
Definition t_10h : Z := 1754992800000000.

(** 2025-08-12T22:30:00Z, which is 23:30 one hour east of Greenwich. *)
Definition t_2230 : Z := 1755037800000000.

(** Twenty-one bars: twenty at 100, then the last one at [c]. *)
Definition bars_ending (c s r : Q) : list BarRow :=
  repeat (Build_BarRow (Fin 100) NaN NaN) 20 ++ [Build_BarRow (Fin c) (Fin s) (Fin r)].

(** A ledger record with the columns the roll-ups read. *)
Definition ledger_row (ts name event eff : string) : list string :=
  csv_record (rt := Reference.runtime) LOG_FIELDS
    [("ts_utc", JStr ts); ("name", JStr name); ("event", JStr event);
     ("eff_risk_gbp", JStr eff)].

(** One order sent at 2025-08-12T10:00:00Z with effective risk 80. *)
Definition ledger_80 : option csv_file :=
  Some [LOG_FIELDS; ledger_row (now_utc_iso t_10h) "FTSE 100" "ORDER_SENT" "80.00"].

Definition guards_with (budget : Q) (cooldown : Z) : RiskGuardConfig :=
  {| rg_enabled := true; rg_max_trades_per_run := 0; rg_max_concurrent_positions := 0;
     rg_trading_hours := None; rg_max_trades_per_day := 0; rg_cooldown_min := cooldown;
     rg_daily_risk_budget_gbp := budget; rg_daily_loss_limit_gbp := 0;
     rg_count_dry_as_trade := true |}.

(** 2025-08-11T23:55:00Z and, ten minutes later, 2025-08-12T00:05:00Z. *)
Definition t_2355 : Z := t_10h - 605 * US_PER_MIN.
Definition t_0005 : Z := t_10h - 595 * US_PER_MIN.

(** One order sent five minutes before midnight. *)
Definition ledger_late : option csv_file :=
  Some [LOG_FIELDS; ledger_row (now_utc_iso t_2355) "FTSE 100" "ORDER_SENT" "10.00"].

Definition no_balance : py json := Raise (HTTPError 500 "").

(** Market details of an index CFD: 10 per point, minimum deal size 0.5
    (which is also the step), minimum stop distance [min_stop]. *)
Definition ftse (min_stop : json) : json :=
  JObj [("instrument",
         JObj [("contractSize", JStr "10");
               ("currencies", JArr [JObj [("code", JStr "GBP")]])]);
        ("dealingRules",
         JObj [("minDealSize", JObj [("unit", JStr "POINTS"); ("value", JNum (1 # 2))]);
               ("minStopOrLimitDistance",
                JObj [("unit", JStr "POINTS"); ("value", min_stop)])])].

(** Twenty-five closes rising by one point a bar. *)
Definition rising : series := map (fun k => Some (inject_Z (7000 + Z.of_nat k))) (seq 0 25).

Definition params : RunParams :=
  {| reso := "MINUTE_5"; rr := 2; risk_gbp := 50; warmup := 20;
     sig_rsi_buy := 55; sig_rsi_sell := 45; rid := "20250812T100000Z"; env := "DEMO";
     live_flag := false; s_enabled := false; s_thr := 15 # 100; s_logexp := true |}.

Definition ftse_item : Item :=
  {| item_name := "FTSE 100"; item_epic := "IX.D.FTSE.CFD.IP"; item_stop_points := 60 |}.

(** A dry run at 2025-08-12T10:00:00Z with no open positions. *)
Definition world (min_stop : json) : ItemWorld :=
  {| w_now := t_10h;
     w_positions := Ret (JObj [("positions", JArr [])]);
     w_market := Ret (ftse min_stop);
     w_closes := Ret rising;
     w_sentiment := JNull;
     w_guard_now := t_10h;
     w_me := no_balance;
     w_baseline := None;
     w_place_position := fun _ => Raise (HTTPError 500 "") |}.

Definition fresh : RunState := {| st_log := None; run_trade_count := 0; outcomes := [] |}.

(** A ledger holding one ORDER_SENT record of the run 20250812T100000Z. *)
Definition ledger_sent : option csv_file :=
  Some [LOG_FIELDS;
        csv_record (rt := Reference.runtime) LOG_FIELDS
          [("ts_utc", JStr (now_utc_iso t_10h)); ("run_id", JStr "20250812T100000Z");
           ("env", JStr "DEMO"); ("live", JBool true); ("name", JStr "FTSE 100");
           ("epic", JStr "IX.D.FTSE.CFD.IP"); ("resolution", JStr "MINUTE_5");
           ("signal", JStr "BUY"); ("size_final", JNum (1 # 2));
           ("eff_risk_gbp", JStr "300.00"); ("event", JStr "ORDER_SENT");
           ("status", JStr "ok"); ("dealReference", JStr "REF123")]].

(** The one open position: a long FTSE position with deal id DIAAAAB1. *)
Definition open_ftse : json :=
  JObj [("position", JObj [("dealId", JStr "DIAAAAB1"); ("direction", JStr "BUY");
                           ("size", JNum (1 # 2)); ("level", JNum 7024);
                           ("createdDateUTC", JStr "2025-08-12T10:00:01")]);
        ("market", JObj [("epic", JStr "IX.D.FTSE.CFD.IP");
                         ("instrumentName", JStr "FTSE 100")])].

(** The broker never confirms the deal reference and reports one position. *)
Definition unconfirmed : confirm_and_enrich.World :=
  {| confirm_and_enrich.e_now := fun _ => t_10h + US_PER_MIN;
     confirm_and_enrich.e_confirms := fun _ _ _ => Raise (HTTPError 404 "not found");
     confirm_and_enrich.e_positions := Ret (JObj [("positions", JArr [open_ftse])]);
     confirm_and_enrich.e_env := "DEMO" |}.

(** The ORDER_SENT row of [ledger_sent] as [csv.DictReader] yields it. *)
Definition sent_row : gmap string string :=
  match csv_DictReader (default [] ledger_sent) with
  | r :: _ => r
  | [] => ∅
  end.

(** [open_ftse] as [load_positions] reads it. *)
Definition ftse_position : confirm_and_enrich.position :=
  {| confirm_and_enrich.pos_dealId := JStr "DIAAAAB1";
     confirm_and_enrich.pos_epic := JStr "IX.D.FTSE.CFD.IP";
     confirm_and_enrich.pos_direction := "BUY";
     confirm_and_enrich.pos_size := Some (1 # 2);
     confirm_and_enrich.pos_level := Some 7024%Q;
     confirm_and_enrich.pos_stopLevel := None;
     confirm_and_enrich.pos_limitLevel := None;
     confirm_and_enrich.pos_created := JStr "2025-08-12T10:00:01";
     confirm_and_enrich.pos_name := JStr "FTSE 100" |}.

(** The row of an order of [name] at the instant [t], as [run_loop] hands
    it to [write_log]: the columns the roll-ups read. *)
Definition order_row (t : Z) (name ev eff : string) : list (string * json) :=
  [("ts_utc", JStr (now_utc_iso t)); ("name", JStr name); ("event", JStr ev);
   ("eff_risk_gbp", JStr eff)].

(** A session whose account shows the balance [b]. *)
Definition account (b : Q) : py json :=
  Ret (JObj [("accountInfo", JObj [("balance", JNum b)])]).

(** Guards with a daily cap of [cap] orders an instrument and a daily loss
    limit of [dll]. *)
Definition guards_day (cap : Z) (dll : Q) : RiskGuardConfig :=
  {| rg_enabled := true; rg_max_trades_per_run := 0; rg_max_concurrent_positions := 0;
     rg_trading_hours := None; rg_max_trades_per_day := cap; rg_cooldown_min := 0;
     rg_daily_risk_budget_gbp := 0; rg_daily_loss_limit_gbp := dll;
     rg_count_dry_as_trade := true |}.

(** A window from [start] to [end_] in UTC. *)
Definition utc_window (start end_ : string) : RiskGuardConfig :=
  {| rg_enabled := true; rg_max_trades_per_run := 0; rg_max_concurrent_positions := 0;
     rg_trading_hours := Some {| th_enabled := true; th_timezone := "UTC";
                                 th_start := start; th_end := end_ |};
     rg_max_trades_per_day := 0; rg_cooldown_min := 0;
     rg_daily_risk_budget_gbp := 0; rg_daily_loss_limit_gbp := 0;
     rg_count_dry_as_trade := true |}.

(** The state after one dry turn on the FTSE item from [fresh]. *)
Definition dry_turn : RunState :=
  match run_item (rt := Reference.runtime) params (guards_with 0 0) (world (JNum 0))
                 ftse_item fresh with
  | Ret s => s
  | Raise _ => fresh
  end.

(** The outcome of that turn. *)
Definition dry_outcome : Outcome :=
  default (Build_Outcome "" "" "" "" "" "" "") (last (outcomes dry_turn)).

(** A watchlist naming the FTSE item twice. *)
Definition watch_twice : list (Item * ItemWorld) :=
  [(ftse_item, world (JNum 0)); (ftse_item, world (JNum 0))].

(** The state after a dry run over [watch_twice] with a cap of one trade a
    run. *)
Definition guards_run1 : RiskGuardConfig :=
  {| rg_enabled := true; rg_max_trades_per_run := 1; rg_max_concurrent_positions := 0;
     rg_trading_hours := None; rg_max_trades_per_day := 0; rg_cooldown_min := 0;
     rg_daily_risk_budget_gbp := 0; rg_daily_loss_limit_gbp := 0;
     rg_count_dry_as_trade := true |}.

Definition capped_run : RunState :=
  match run_items (rt := Reference.runtime) params guards_run1 watch_twice fresh with
  | Ret s => s
  | Raise _ => fresh
  end.

(** The rsi14 of [drop_then_rise] at its sixteenth bar. *)
Definition rsi_at_15 : fl := default NaN (rsi drop_then_rise 14 !! 15%nat).

(** The sma20 of [rising] at its last bar. *)
Definition rising_sma20 : Q :=
  match sma rising 20 !! 24%nat with
  | Some (Some m) => m
  | _ => 0%Q
  end.

(** A market that shows no contract size. *)
Definition bare_world : ItemWorld :=
  {| w_now := t_10h;
     w_positions := Ret (JObj [("positions", JArr [])]);
     w_market := Ret (JObj [("instrument", JObj [("name", JStr "FTSE 100")])]);
     w_closes := Ret rising;
     w_sentiment := JNull;
     w_guard_now := t_10h;
     w_me := no_balance;
     w_baseline := None;
     w_place_position := fun _ => Raise (HTTPError 500 "") |}.

Definition bare_turn : RunState :=
  match run_item (rt := Reference.runtime) params (guards_with 0 0) bare_world
                 ftse_item fresh with
  | Ret s => s
  | Raise _ => fresh
  end.

Definition bare_outcome : Outcome :=
  default (Build_Outcome "" "" "" "" "" "" "") (last (outcomes bare_turn)).

(** A broker that confirms the deal on the third call. *)
Definition confirms_third (k : nat) : py json :=
  if Nat.ltb k 2 then Raise (HTTPError 404 "not found")
  else Ret (JObj [("dealId", JStr "DIAAAAB1"); ("dealStatus", JStr "ACCEPTED")]).

(** The ledger [ledger_sent] after the reconciler ran in the world
    [unconfirmed]. *)
Definition reconciled : option csv_file :=
  match confirm_and_enrich.main (rt := Reference.runtime) unconfirmed None ledger_sent with
  | Ret l => l
  | Raise _ => None
  end.

(** A reply of the model with a label in capitals and a score above 1. *)
Definition loud_reply : py json :=
  Ret (JObj [("label", JStr "BULLISH"); ("score", JNum (3 # 2));
             ("explanation", JStr "Price above SMA20.")]).

(** * Properties *)

(** ** Comparisons on rationals and pandas floats *)

Lemma Qltb_lt (a b : Q) : Qltb a b = true <-> (a < b)%Q.
Proof.
  unfold Qltb. rewrite negb_true_iff. split.
  - intros Hf. apply Qnot_le_lt. intros Hle. apply Qle_bool_iff in Hle. congruence.
  - intros Hlt. destruct (Qle_bool b a) eqn:E; [|reflexivity].
    apply Qle_bool_iff in E. exfalso. apply (Qlt_not_le _ _ Hlt E).
Qed.

Lemma Qltb_ge (a b : Q) : Qltb a b = false <-> (b <= a)%Q.
Proof.
  unfold Qltb. rewrite negb_false_iff. apply Qle_bool_iff.
Qed.

Lemma fl_ltb_asym (a b : fl) : fl_ltb a b = true -> fl_ltb b a = false.
Proof.
  destruct a, b; simpl; try congruence.
  intros Hab. apply Qltb_lt in Hab. apply Qltb_ge. lra.
Qed.

Lemma fl_ltb_nan_l (b : fl) : fl_ltb NaN b = false.
Proof. reflexivity. Qed.

Lemma fl_ltb_nan_r (a : fl) : fl_ltb a NaN = false.
Proof. destruct a; reflexivity. Qed.

Lemma fl_leb_nan_l (b : fl) : fl_leb NaN b = false.
Proof. reflexivity. Qed.

Lemma fl_leb_nan_r (a : fl) : fl_leb a NaN = false.
Proof. destruct a; reflexivity. Qed.

Lemma fl_isna_true (x : fl) : fl_isna x = true -> x = NaN.
Proof. destruct x; simpl; congruence. Qed.

(** ** The pre-flight guard *)

(** C9.  With the guards enabled, a positive cap on concurrent positions and
    the per-run trade count below its cap (or no such cap), a broker
    positions query that raises is counted as zero open positions and
    [guard_preflight] allows with reason [RG_OK]. *)
Theorem C9_preflight_fails_open (cfg : RiskGuardConfig) (e : exn) (run_trade_count : Z) :
  rg_enabled cfg = true ->
  0 < rg_max_concurrent_positions cfg ->
  rg_max_trades_per_run cfg = 0 \/ run_trade_count < rg_max_trades_per_run cfg ->
  open_positions_count (Raise e) = 0 /\
  ok (guard_preflight (Raise e) cfg run_trade_count) = true /\
  reason (guard_preflight (Raise e) cfg run_trade_count) = "RG_OK" /\
  assoc_get (meta (guard_preflight (Raise e) cfg run_trade_count)) "open_positions"
    = Some (JInt 0).
Proof.
  intros Hen Hcap Hrun.
  split; [reflexivity|].
  unfold guard_preflight. rewrite Hen. cbn [negb].
  assert (Hper : (negb (rg_max_trades_per_run cfg =? 0)
                  && (rg_max_trades_per_run cfg <=? run_trade_count))%bool = false).
  { destruct Hrun as [Hz | Hlt].
    - rewrite Hz. reflexivity.
    - apply andb_false_iff. right. apply Z.leb_gt. exact Hlt. }
  rewrite Hper.
  assert (Hnz : (rg_max_concurrent_positions cfg =? 0) = false) by (apply Z.eqb_neq; lia).
  rewrite Hnz. cbn [negb].
  change (open_positions_count (Raise e)) with 0.
  assert (Hle : (rg_max_concurrent_positions cfg <=? 0) = false) by (apply Z.leb_gt; lia).
  rewrite Hle. cbn. repeat split; reflexivity.
Qed.

Lemma C9_witness :
  ok (guard_preflight (Raise (HTTPError 503 "unavailable")) cfg_cap3 2) = true.
Proof.
  apply (C9_preflight_fails_open cfg_cap3 (HTTPError 503 "unavailable") 2).
  - reflexivity.
  - simpl; lia.
  - right; simpl; lia.
Defined.

(** ** The trading window *)

Lemma datetime_on_valid (day h m : Z) :
  0 <= h < 24 -> 0 <= m < 60 -> datetime_on day h m = Ret (day * US_PER_DAY + clock_time h m).
Proof.
  intros Hh Hm. unfold datetime_on.
  replace ((0 <=? h) && (h <? 24) && (0 <=? m) && (m <? 60))%bool with true; [reflexivity|].
  symmetry. repeat (apply andb_true_iff; split);
    first [apply Z.leb_le | apply Z.ltb_lt]; lia.
Qed.

Lemma leb_shift (a x y : Z) : (a + x <=? a + y) = (x <=? y).
Proof.
  destruct (Z.leb_spec x y); [apply Z.leb_le | apply Z.leb_gt]; lia.
Qed.

Lemma window_wrapped {rt : PyRuntime} (cfg : RiskGuardConfig) (th : TradingHours) (now sh sm eh em : Z) :
  rg_trading_hours cfg = Some th ->
  th_enabled th = true ->
  parse_hhmm (th_start th) = Ret (sh, sm) ->
  parse_hhmm (th_end th) = Ret (eh, em) ->
  0 <= sh < 24 -> 0 <= sm < 60 -> 0 <= eh < 24 -> 0 <= em < 60 ->
  clock_time eh em < clock_time sh sm ->
  exists wmeta,
    in_trading_window cfg now =
      Ret ((clock_time sh sm <=? time_of_day (local_wall (th_timezone th) now))
           || (time_of_day (local_wall (th_timezone th) now) <=? clock_time eh em), wmeta)%bool.
Proof.
  intros Hth Hen Hs He Hsh Hsm Heh Hem Hwrap.
  unfold in_trading_window. rewrite Hth, Hen. cbn [negb].
  rewrite Hs. cbn [mbind py_bind]. rewrite He. cbn [mbind py_bind].
  rewrite (datetime_on_valid _ sh sm Hsh Hsm). cbn [mbind py_bind].
  rewrite (datetime_on_valid _ eh em Heh Hem). cbn [mbind py_bind].
  fold (local_wall (th_timezone th) now).
  set (local := local_wall (th_timezone th) now).
  set (day := local / US_PER_DAY).
  assert (Hlocal : local = day * US_PER_DAY + time_of_day local).
  { unfold day, time_of_day. rewrite Z.mul_comm. apply Z.div_mod. discriminate. }
  replace (day * US_PER_DAY + clock_time sh sm <=? day * US_PER_DAY + clock_time eh em)
    with false by (symmetry; apply Z.leb_gt; lia).
  eexists. f_equal. f_equal.
  rewrite Hlocal at 1 2. rewrite !leb_shift. reflexivity.
Qed.

(** C5.  With the trading-hours check enabled and the end time earlier than
    the start time, [in_trading_window] answers for the local wall-clock
    time of [now]: inside iff its time of day is at or after the start or at
    or before the end; outside, the post-size guard blocks with
    [BLOCK_TRADING_WINDOW].  For 22:00-06:00, 23:30 local is inside and 12:00
    local is outside, in every zone. *)
Theorem C5_trading_window_wraps_midnight :
  (forall (rt : PyRuntime) (cfg : RiskGuardConfig) (th : TradingHours) (now sh sm eh em : Z),
      rg_enabled cfg = true ->
      rg_trading_hours cfg = Some th ->
      th_enabled th = true ->
      parse_hhmm (th_start th) = Ret (sh, sm) ->
      parse_hhmm (th_end th) = Ret (eh, em) ->
      0 <= sh < 24 -> 0 <= sm < 60 -> 0 <= eh < 24 -> 0 <= em < 60 ->
      clock_time eh em < clock_time sh sm ->
      exists (inside : bool) (wmeta : list (string * json)),
        in_trading_window cfg now = Ret (inside, wmeta) /\
        (inside = true <->
           clock_time sh sm <= time_of_day (local_wall (th_timezone th) now) \/
           time_of_day (local_wall (th_timezone th) now) <= clock_time eh em) /\
        (inside = false ->
           forall me bf log name planned,
           exists g, guard_postsize me bf cfg log now name planned = Ret g /\
                     ok g = false /\ reason g = "BLOCK_TRADING_WINDOW"))
  /\
  (forall (rt : PyRuntime) (tz : string) (now : Z),
      rt_int "22" = Some 22 -> rt_int "00" = Some 0 -> rt_int "06" = Some 6 ->
      (time_of_day (local_wall tz now) = clock_time 23 30 ->
       fst <$> in_trading_window (night_window tz) now = Ret true) /\
      (time_of_day (local_wall tz now) = clock_time 12 0 ->
       fst <$> in_trading_window (night_window tz) now = Ret false)).
Proof.
  split.
  - intros rt cfg th now sh sm eh em Hrg Hth Hen Hs He Hsh Hsm Heh Hem Hwrap.
    destruct (window_wrapped cfg th now sh sm eh em Hth Hen Hs He Hsh Hsm Heh Hem Hwrap)
      as [wmeta Hw].
    eexists _, wmeta. split; [exact Hw|]. split.
    + rewrite orb_true_iff, !Z.leb_le. reflexivity.
    + intros Hout me bf log name planned.
      unfold guard_postsize. rewrite Hrg. cbn [negb]. rewrite Hw. cbn [mbind py_bind].
      rewrite Hout. cbn [negb]. eexists. split; [reflexivity|]. split; reflexivity.
  - intros rt tz now H22 H00 H06.
    assert (Hs : parse_hhmm "22:00" = Ret (22, 0)).
    { unfold parse_hhmm. change (split_colon "22:00") with ["22"; "00"].
      cbv iota. rewrite H22, H00. reflexivity. }
    assert (He : parse_hhmm "06:00" = Ret (6, 0)).
    { unfold parse_hhmm. change (split_colon "06:00") with ["06"; "00"].
      cbv iota. rewrite H06, H00. reflexivity. }
    destruct (window_wrapped (night_window tz) _ now 22 0 6 0 eq_refl eq_refl Hs He)
      as [wmeta Hw]; try lia; [reflexivity|].
    cbn [th_timezone] in Hw.
    split; intros Htod; rewrite Hw, Htod; reflexivity.
Qed.

Lemma C5_witness :
  fst <$> in_trading_window (rt := Reference.runtime) (night_window "Etc/GMT-1") t_2230
    = Ret true.
Proof.
  apply (proj2 C5_trading_window_wraps_midnight Reference.runtime "Etc/GMT-1" t_2230);
    reflexivity.
Defined.

(** ** The signal *)

(** C8.  [simple_signal] returns HOLD on fewer than [warmup_bars] rows;
    otherwise, on the last row, BUY iff close > sma20 and rsi14 >= the buy
    threshold, SELL iff close < sma20 and rsi14 <= the sell threshold, and
    HOLD in every other case.  The comparisons are those of pandas floats,
    false on NaN. *)
Theorem C8_simple_signal (df : list BarRow) (rsi_buy_min rsi_sell_max : Q) (warmup_bars : Z) :
  (Z.of_nat (length df) < warmup_bars ->
   simple_signal df rsi_buy_min rsi_sell_max warmup_bars = Ret "HOLD") /\
  (forall row : BarRow,
      warmup_bars <= Z.of_nat (length df) ->
      last df = Some row ->
      let buy := (fl_ltb (sma20 row) (close row) && fl_leb (Fin rsi_buy_min) (rsi14 row))%bool in
      let sell := (fl_ltb (close row) (sma20 row) && fl_leb (rsi14 row) (Fin rsi_sell_max))%bool in
      (simple_signal df rsi_buy_min rsi_sell_max warmup_bars = Ret "BUY" <-> buy = true) /\
      (simple_signal df rsi_buy_min rsi_sell_max warmup_bars = Ret "SELL" <-> sell = true) /\
      (buy = false -> sell = false ->
       simple_signal df rsi_buy_min rsi_sell_max warmup_bars = Ret "HOLD")).
Proof.
  split.
  - intros Hshort. unfold simple_signal.
    apply Z.ltb_lt in Hshort. rewrite Hshort. reflexivity.
  - intros row Hlong Hlast buy sell. unfold simple_signal.
    replace (Z.of_nat (length df) <? warmup_bars) with false
      by (symmetry; apply Z.ltb_ge; exact Hlong).
    rewrite Hlast.
    destruct (fl_isna (sma20 row) || fl_isna (rsi14 row))%bool eqn:Hna.
    + assert (Hb : buy = false).
      { unfold buy. apply orb_true_iff in Hna. destruct Hna as [Hn | Hn];
          apply fl_isna_true in Hn; rewrite Hn.
        - reflexivity.
        - rewrite fl_leb_nan_r. apply andb_false_r. }
      assert (Hs : sell = false).
      { unfold sell. apply orb_true_iff in Hna. destruct Hna as [Hn | Hn];
          apply fl_isna_true in Hn; rewrite Hn.
        - rewrite fl_ltb_nan_r. reflexivity.
        - apply andb_false_r. }
      rewrite Hb, Hs. repeat split; intros; congruence.
    + fold buy. destruct buy eqn:Hb.
      * assert (Hs : sell = false).
        { unfold sell. apply andb_true_iff in Hb. destruct Hb as [Hlt _].
          rewrite (fl_ltb_asym _ _ Hlt). reflexivity. }
        rewrite Hs. repeat split; intros; congruence.
      * fold sell. destruct sell; repeat split; intros; congruence.
Qed.

Lemma C8_witness :
  simple_signal (bars_ending 5500 5490 58) 55 45 20 = Ret "BUY".
Proof.
  apply (proj2 (C8_simple_signal (bars_ending 5500 5490 58) 55 45 20)
               (Build_BarRow (Fin 5500) (Fin 5490) (Fin 58))).
  - vm_compute. discriminate.
  - reflexivity.
  - reflexivity.
Defined.

(** ** The post-size guard *)

Section PostSize.
Context {rt : PyRuntime}.
Variables (me : py json) (bf : baseline_file) (cfg : RiskGuardConfig).
Variables (log : option csv_file) (now : Z) (name : string) (planned : Q).

Lemma postsize_reaches_cooldown (wmeta : list (string * json)) :
  rg_enabled cfg = true ->
  in_trading_window cfg now = Ret (true, wmeta) ->
  cap_passes cfg log now name ->
  exists m, guard_postsize me bf cfg log now name planned
            = guard_cooldown me bf cfg log now name planned m.
Proof.
  intros Hen Hwin Hcap. unfold guard_postsize.
  rewrite Hen, Hwin. cbn [negb mbind py_bind].
  destruct (rg_max_trades_per_day cfg =? 0) eqn:Hz; cbn [negb].
  - eexists; reflexivity.
  - destruct Hcap as [H0 | Hlt]; [apply Z.eqb_neq in Hz; contradiction|].
    replace (rg_max_trades_per_day cfg <=? count_orders_today_instrument log now name)
      with false by (symmetry; apply Z.leb_gt; exact Hlt).
    eexists; reflexivity.
Qed.

Lemma loss_limit_reason (m : list (string * json)) :
  reason (guard_loss_limit me bf cfg m) = "BLOCK_DAILY_LOSS_LIMIT" \/
  reason (guard_loss_limit me bf cfg m) = "RG2_OK".
Proof.
  unfold guard_loss_limit.
  destruct (Qltb 0 (rg_daily_loss_limit_gbp cfg)); [|right; reflexivity].
  destruct (ensure_daily_baseline_and_loss me bf) as [[baseline current] loss].
  destruct loss as [l|]; [|right; reflexivity].
  destruct baseline; [|right; reflexivity].
  destruct (Qle_bool _ l); [left | right]; reflexivity.
Qed.

Lemma risk_budget_blocks_iff (m : list (string * json)) :
  reason (guard_risk_budget me bf cfg log now planned m) = "BLOCK_DAILY_RISK_BUDGET" <->
  (0 < rg_daily_risk_budget_gbp cfg)%Q /\
  (rg_daily_risk_budget_gbp cfg + tolerance
   < today_committed_risk_gbp log now + py_max 0 planned)%Q.
Proof.
  unfold guard_risk_budget.
  destruct (Qltb 0 (rg_daily_risk_budget_gbp cfg)) eqn:Hb.
  - apply Qltb_lt in Hb.
    destruct (Qltb (rg_daily_risk_budget_gbp cfg + tolerance) _) eqn:Hover.
    + apply Qltb_lt in Hover. cbn [reason]. split; [intros _; split; assumption | reflexivity].
    + apply Qltb_ge in Hover. split.
      * intros Hr. destruct (loss_limit_reason
          (dict_set (dict_set m "daily_risk_budget_gbp" (JNum (rg_daily_risk_budget_gbp cfg)))
                    "today_committed_risk_gbp" (JNum (today_committed_risk_gbp log now))))
          as [E | E]; rewrite E in Hr; discriminate.
      * intros [_ Hlt]. exfalso. apply (Qlt_not_le _ _ Hlt Hover).
  - apply Qltb_ge in Hb. split.
    + intros Hr. destruct (loss_limit_reason
        (dict_set m "daily_risk_budget_gbp" (JNum (rg_daily_risk_budget_gbp cfg))))
        as [E | E]; rewrite E in Hr; discriminate.
    + intros [Hpos _]. exfalso. apply (Qlt_not_le _ _ Hpos Hb).
Qed.

Lemma risk_budget_not_ok (m : list (string * json)) :
  reason (guard_risk_budget me bf cfg log now planned m) = "BLOCK_DAILY_RISK_BUDGET" ->
  ok (guard_risk_budget me bf cfg log now planned m) = false.
Proof.
  unfold guard_risk_budget.
  destruct (Qltb 0 (rg_daily_risk_budget_gbp cfg)).
  - destruct (Qltb (rg_daily_risk_budget_gbp cfg + tolerance) _); [reflexivity|].
    intros Hr. destruct (loss_limit_reason
      (dict_set (dict_set m "daily_risk_budget_gbp" (JNum (rg_daily_risk_budget_gbp cfg)))
                "today_committed_risk_gbp" (JNum (today_committed_risk_gbp log now))))
      as [E | E]; rewrite E in Hr; discriminate.
  - intros Hr. destruct (loss_limit_reason
      (dict_set m "daily_risk_budget_gbp" (JNum (rg_daily_risk_budget_gbp cfg))))
      as [E | E]; rewrite E in Hr; discriminate.
Qed.

Lemma risk_budget_reason_not_cooldown (m : list (string * json)) :
  reason (guard_risk_budget me bf cfg log now planned m) <> "BLOCK_COOLDOWN_INSTRUMENT".
Proof.
  unfold guard_risk_budget.
  destruct (Qltb 0 (rg_daily_risk_budget_gbp cfg)).
  - destruct (Qltb (rg_daily_risk_budget_gbp cfg + tolerance) _); [discriminate|].
    destruct (loss_limit_reason
      (dict_set (dict_set m "daily_risk_budget_gbp" (JNum (rg_daily_risk_budget_gbp cfg)))
                "today_committed_risk_gbp" (JNum (today_committed_risk_gbp log now))))
      as [E | E]; rewrite E; discriminate.
  - destruct (loss_limit_reason
      (dict_set m "daily_risk_budget_gbp" (JNum (rg_daily_risk_budget_gbp cfg))))
      as [E | E]; rewrite E; discriminate.
Qed.

Lemma cooldown_passed (m : list (string * json)) :
  cooldown_passes cfg log now name ->
  exists m', guard_cooldown me bf cfg log now name planned m
             = Ret (guard_risk_budget me bf cfg log now planned m').
Proof.
  intros Hpass. unfold guard_cooldown.
  destruct (0 <? rg_cooldown_min cfg) eqn:Hc; [|eexists; reflexivity].
  apply Z.ltb_lt in Hc.
  destruct Hpass as [Hoff | [Hnone | [t [Ht Hlate]]]]; [lia | |].
  - rewrite Hnone. cbn [mbind py_bind]. eexists; reflexivity.
  - rewrite Ht. cbn [mbind py_bind].
    replace (now <? t + timedelta_minutes (rg_cooldown_min cfg)) with false
      by (symmetry; apply Z.ltb_ge; exact Hlate).
    eexists; reflexivity.
Qed.

Lemma cooldown_blocks_iff (m : list (string * json)) :
  0 < rg_cooldown_min cfg ->
  (exists m', guard_cooldown me bf cfg log now name planned m
              = Ret {| ok := false; reason := "BLOCK_COOLDOWN_INSTRUMENT"; meta := m' |}) <->
  exists t, last_order_time_instrument log now name = Ret (Some t) /\
            now < t + timedelta_minutes (rg_cooldown_min cfg).
Proof.
  intros Hc. unfold guard_cooldown.
  replace (0 <? rg_cooldown_min cfg) with true by (symmetry; apply Z.ltb_lt; exact Hc).
  destruct (last_order_time_instrument log now name) as [[t|]|e]; cbn [mbind py_bind].
  - destruct (now <? t + timedelta_minutes (rg_cooldown_min cfg)) eqn:Hlt.
    + apply Z.ltb_lt in Hlt. split.
      * intros _. exists t. split; [reflexivity | exact Hlt].
      * intros _. eexists; reflexivity.
    + apply Z.ltb_ge in Hlt. split.
      * intros [m' Hm']. injection Hm' as Hm'.
        exfalso. eapply risk_budget_reason_not_cooldown. rewrite Hm'. reflexivity.
      * intros [t' [Ht' Hnow]]. injection Ht' as ->. lia.
  - split.
    + intros [m' Hm']. injection Hm' as Hm'.
      exfalso. eapply risk_budget_reason_not_cooldown. rewrite Hm'. reflexivity.
    + intros [t' [Ht' _]]. discriminate.
  - split.
    + intros [m' Hm']. discriminate.
    + intros [t' [Ht' _]]. discriminate.
Qed.

End PostSize.

(** *** The committed risk is a sum over today's order-class rows *)

Lemma Qsum_from (l : list Q) (a : Q) : (fold_left Qplus l a == a + Qsum l)%Q.
Proof.
  unfold Qsum. revert a. induction l as [|x l IH]; intros a; simpl.
  - lra.
  - rewrite (IH (a + x)%Q), (IH (0 + x)%Q). lra.
Qed.

Lemma Qsum_cons (x : Q) (l : list Q) : (Qsum (x :: l) == x + Qsum l)%Q.
Proof. unfold Qsum at 1. simpl. rewrite Qsum_from. lra. Qed.

Lemma add_risk_row {rt : PyRuntime} (total : Q) (r : gmap string string) :
  (add_risk total r == total + (if is_order_event r then row_risk r else 0))%Q.
Proof.
  unfold add_risk, row_risk. destruct (is_order_event r); [|lra].
  destruct (String.eqb (get_or_empty r "eff_risk_gbp") ""); [lra|].
  destruct (rt_float (get_or_empty r "eff_risk_gbp")); simpl; lra.
Qed.

Lemma committed_from {rt : PyRuntime} (rows : list (gmap string string)) (acc : Q) :
  (fold_left add_risk rows acc
   == acc + Qsum (map row_risk (List.filter is_order_event rows)))%Q.
Proof.
  revert acc. induction rows as [|r rows IH]; intros acc; simpl.
  - unfold Qsum. simpl. lra.
  - rewrite IH, add_risk_row. destruct (is_order_event r); simpl.
    + rewrite Qsum_cons. lra.
    + lra.
Qed.

Lemma committed_is_sum {rt : PyRuntime} (log : option csv_file) (now : Z) :
  (today_committed_risk_gbp log now
   == Qsum (map row_risk (List.filter is_order_event (orders_today log now))))%Q.
Proof. unfold today_committed_risk_gbp. rewrite committed_from. lra. Qed.

(** *** The last order time is the latest of today's *)

Lemma insert_desc_head (x : Z) (l : list Z) :
  head (insert_desc x l) = Some (match head l with Some y => Z.max x y | None => x end).
Proof.
  destruct l as [|y l]; simpl; [reflexivity|].
  destruct (Z.ltb_spec x y); simpl; f_equal; lia.
Qed.

Lemma sort_desc_head (l : list Z) (t : Z) :
  head (sort_desc l) = Some t -> In t l /\ forall x, In x l -> x <= t.
Proof.
  revert t. induction l as [|a l IH]; intros t; simpl; [discriminate|].
  change (foldr insert_desc [] l) with (sort_desc l).
  rewrite insert_desc_head.
  destruct (head (sort_desc l)) as [y|] eqn:Hy.
  - intros [= <-]. destruct (IH y eq_refl) as [Hin Hmax]. split.
    + destruct (Z.max_spec a y) as [[_ ->] | [_ ->]]; [right; exact Hin | left; reflexivity].
    + intros x [-> | Hx]; [lia | specialize (Hmax x Hx); lia].
  - intros [= <-]. destruct l as [|b l].
    + split; [left; reflexivity | intros x [-> | []]; lia].
    + exfalso. clear IH. simpl in Hy.
      change (foldr insert_desc [] l) with (sort_desc l) in Hy.
      rewrite insert_desc_head in Hy. destruct (head (sort_desc l)); discriminate.
Qed.

Lemma In_omap_id {A} (l : list (option A)) (x : A) : In x (omap id l) <-> In (Some x) l.
Proof.
  induction l as [|[a|] l IH]; simpl; unfold id.
  - reflexivity.
  - rewrite IH. split.
    + intros [E | E]; [left; rewrite E; reflexivity | right; exact E].
    + intros [E | E]; [left; injection E; trivial | right; exact E].
  - rewrite IH. split; [intros E; right; exact E | intros [E | E]; [discriminate | exact E]].
Qed.

Lemma sorted_reverse_head (l times : list (option Z)) (t : Z) :
  sorted_reverse l = Ret times ->
  match times with x :: _ => x | [] => None end = Some t ->
  In (Some t) l /\ forall t', In (Some t') l -> t' <= t.
Proof.
  unfold sorted_reverse. destruct l as [|x [|y l]].
  - intros [= <-]; discriminate.
  - intros [= <-] ->. split; [left; reflexivity|].
    intros t' [[= ->] | []]. lia.
  - destruct (forallb is_some (x :: y :: l)); [|discriminate].
    intros Heq Hhd.
    assert (Ht : times = map Some (sort_desc (omap id (x :: y :: l)))) by congruence.
    subst times.
    destruct (sort_desc (omap id (x :: y :: l))) as [|z zs] eqn:Hsd;
      cbn [map] in Hhd; [discriminate|]. injection Hhd as ->.
    assert (Hh : head (sort_desc (omap id (x :: y :: l))) = Some t)
      by (rewrite Hsd; reflexivity).
    apply sort_desc_head in Hh. destruct Hh as [Hin Hmax]. split.
    + apply In_omap_id. exact Hin.
    + intros t' Ht'. apply Hmax. apply In_omap_id. exact Ht'.
Qed.

Lemma parse_ts_nonempty {rt : PyRuntime} (s : string) (t : Z) :
  _parse_ts s = Some t -> String.eqb s "" = false.
Proof. unfold _parse_ts. destruct (String.eqb s ""); [discriminate | reflexivity]. Qed.

Lemma get_or_empty_nonempty (r : gmap string string) (k : string) :
  String.eqb (get_or_empty r k) "" = false -> is_some (r !! k) = true.
Proof. unfold get_or_empty. destruct (r !! k); [reflexivity | simpl; discriminate]. Qed.

Lemma last_order_time_is_latest {rt : PyRuntime} (log : option csv_file) (now : Z)
    (name : string) (t : Z) :
  last_order_time_instrument log now name = Ret (Some t) ->
  (exists r, In r (order_rows_today log now name) /\
             _parse_ts (get_or_empty r "ts_utc") = Some t) /\
  (forall r t', In r (order_rows_today log now name) ->
                _parse_ts (get_or_empty r "ts_utc") = Some t' -> t' <= t).
Proof.
  unfold last_order_time_instrument. fold (order_rows_today log now name).
  set (rows := order_rows_today log now name).
  set (with_ts := List.filter _ rows).
  destruct (sorted_reverse (map _ with_ts)) as [times|e] eqn:Hs; cbn [mbind py_bind];
    [|discriminate].
  intros [= Hhd].
  destruct (sorted_reverse_head _ _ t Hs Hhd) as [Hin Hmax]. split.
  - apply in_map_iff in Hin. destruct Hin as [r [Hr Hin]].
    exists r. split; [|exact Hr].
    unfold with_ts in Hin. apply filter_In in Hin. tauto.
  - intros r t' Hr Ht'. apply Hmax. apply in_map_iff. exists r. split; [exact Ht'|].
    unfold with_ts. apply filter_In. split; [exact Hr|].
    pose proof (parse_ts_nonempty _ _ Ht') as Hne.
    rewrite Hne, (get_or_empty_nonempty _ _ Hne). reflexivity.
Qed.

Lemma blocks_via_risk_budget {rt : PyRuntime} (why : string) (me : py json)
    (bf : baseline_file) (cfg : RiskGuardConfig) (log : option csv_file) (now : Z)
    (name : string) (planned : Q) (m : list (string * json)) :
  guard_postsize me bf cfg log now name planned
    = Ret (guard_risk_budget me bf cfg log now planned m) ->
  blocks_with why me bf cfg log now name planned ->
  reason (guard_risk_budget me bf cfg log now planned m) = why.
Proof.
  intros Heq [m' Hm']. rewrite Heq in Hm'. injection Hm' as Hm'. rewrite Hm'. reflexivity.
Qed.

(** C1 (amended).  With the guards enabled and the trading-hours,
    per-instrument-cap and cooldown checks passing, [guard_postsize] blocks
    with [BLOCK_DAILY_RISK_BUDGET] iff the configured budget is positive and
    today's committed risk plus [max(0, planned)] exceeds the budget by more
    than 1e-9; the committed risk is the sum of the effective risk of
    today's order-class rows.  With budget 100, committed 80 and planned 25
    it blocks with that reason. *)
Theorem C1_daily_risk_budget :
  (forall (rt : PyRuntime) (me : py json) (bf : baseline_file) (cfg : RiskGuardConfig)
          (log : option csv_file) (now : Z) (name : string) (planned : Q)
          (wmeta : list (string * json)),
      rg_enabled cfg = true ->
      in_trading_window cfg now = Ret (true, wmeta) ->
      cap_passes cfg log now name ->
      cooldown_passes cfg log now name ->
      (blocks_with "BLOCK_DAILY_RISK_BUDGET" me bf cfg log now name planned <->
       (0 < rg_daily_risk_budget_gbp cfg)%Q /\
       (rg_daily_risk_budget_gbp cfg + tolerance
        < today_committed_risk_gbp log now + py_max 0 planned)%Q) /\
      (today_committed_risk_gbp log now
       == Qsum (map row_risk (List.filter is_order_event (orders_today log now))))%Q)
  /\
  ((today_committed_risk_gbp (rt := Reference.runtime) ledger_80 (t_10h + 10 * US_PER_MIN)
    == 80)%Q /\
   blocks_with (rt := Reference.runtime) "BLOCK_DAILY_RISK_BUDGET" no_balance None
     (guards_with 100 0) ledger_80 (t_10h + 10 * US_PER_MIN) "FTSE 100" 25).
Proof.
  split.
  - intros rt me bf cfg log now name planned wmeta Hen Hwin Hcap Hcool.
    split; [|apply committed_is_sum].
    destruct (postsize_reaches_cooldown me bf cfg log now name planned wmeta Hen Hwin Hcap)
      as [m Hm].
    destruct (cooldown_passed me bf cfg log now name planned m Hcool) as [m' Hm'].
    rewrite Hm' in Hm. rewrite <- (risk_budget_blocks_iff me bf cfg log now planned m').
    split.
    + apply blocks_via_risk_budget. exact Hm.
    + intros Hr. unfold blocks_with. rewrite Hm.
      pose proof (risk_budget_not_ok me bf cfg log now planned m' Hr) as Hok.
      destruct (guard_risk_budget me bf cfg log now planned m') as [o r mm].
      cbn [reason ok] in Hr, Hok. subst o r. eexists; reflexivity.
  - split; [vm_compute; reflexivity|].
    eexists. vm_compute. reflexivity.
Qed.

Lemma C1_witness :
  blocks_with (rt := Reference.runtime) "BLOCK_DAILY_RISK_BUDGET" no_balance None
    (guards_with 100 0) ledger_80 (t_10h + 10 * US_PER_MIN) "FTSE 100" 25.
Proof.
  apply (proj2 (proj1 (proj1 C1_daily_risk_budget Reference.runtime no_balance None
                         (guards_with 100%Q 0) ledger_80 (t_10h + 10 * US_PER_MIN)
                         "FTSE 100" 25%Q [("trading_hours_enabled", JBool false)]
                         eq_refl eq_refl (or_introl eq_refl) (or_introl (Z.le_refl 0))))).
  split; vm_compute; reflexivity.
Defined.

(** The rule as the specification words it fails when no positive budget is
    configured: with budget 0, committed 80 and planned 25 the sum exceeds
    the budget, and the guard allows. *)
Lemma C1_counterexample :
  rg_enabled (guards_with 0 0) = true /\
  fst <$> in_trading_window (rt := Reference.runtime) (guards_with 0 0)
            (t_10h + 10 * US_PER_MIN) = Ret true /\
  cap_passes (guards_with 0 0) ledger_80 (t_10h + 10 * US_PER_MIN) "FTSE 100" /\
  cooldown_passes (rt := Reference.runtime) (guards_with 0 0) ledger_80
    (t_10h + 10 * US_PER_MIN) "FTSE 100" /\
  ~ budget_rule_as_stated (rt := Reference.runtime) no_balance None (guards_with 0 0)
      ledger_80 (t_10h + 10 * US_PER_MIN) "FTSE 100" 25.
Proof.
  split; [reflexivity|]. split; [reflexivity|].
  split; [left; reflexivity|]. split; [left; simpl; lia|].
  intros [_ Hback].
  destruct Hback as [m Hm]; [vm_compute; reflexivity|].
  vm_compute in Hm. discriminate Hm.
Qed.

(** C6 (amended).  With the guards enabled, a positive cooldown and the
    earlier post-size checks passing, [guard_postsize] blocks with
    [BLOCK_COOLDOWN_INSTRUMENT] iff [now < last + cooldown], where [last] is
    the latest timestamp among the order-class rows of the instrument dated
    today (UTC); rows of earlier days are not consulted.  With a 30 minute
    cooldown and an order at T, the guard blocks at T+10min and allows at
    T+31min (same day). *)
Theorem C6_cooldown :
  (forall (rt : PyRuntime) (me : py json) (bf : baseline_file) (cfg : RiskGuardConfig)
          (log : option csv_file) (now : Z) (name : string) (planned : Q)
          (wmeta : list (string * json)),
      rg_enabled cfg = true ->
      0 < rg_cooldown_min cfg ->
      in_trading_window cfg now = Ret (true, wmeta) ->
      cap_passes cfg log now name ->
      (blocks_with "BLOCK_COOLDOWN_INSTRUMENT" me bf cfg log now name planned <->
       exists last, last_order_time_instrument log now name = Ret (Some last) /\
                    now < last + timedelta_minutes (rg_cooldown_min cfg)) /\
      (forall last, last_order_time_instrument log now name = Ret (Some last) ->
         (exists r, In r (order_rows_today log now name) /\
                    _parse_ts (get_or_empty r "ts_utc") = Some last) /\
         (forall r t, In r (order_rows_today log now name) ->
                      _parse_ts (get_or_empty r "ts_utc") = Some t -> t <= last)))
  /\
  (last_order_time_instrument (rt := Reference.runtime) ledger_80
     (t_10h + 10 * US_PER_MIN) "FTSE 100" = Ret (Some t_10h) /\
   blocks_with (rt := Reference.runtime) "BLOCK_COOLDOWN_INSTRUMENT" no_balance None
     (guards_with 0 30) ledger_80 (t_10h + 10 * US_PER_MIN) "FTSE 100" 25 /\
   ok <$> guard_postsize (rt := Reference.runtime) no_balance None
            (guards_with 0 30) ledger_80 (t_10h + 31 * US_PER_MIN) "FTSE 100" 25
     = Ret true).
Proof.
  split.
  - intros rt me bf cfg log now name planned wmeta Hen Hpos Hwin Hcap.
    split; [|intros last; apply last_order_time_is_latest].
    destruct (postsize_reaches_cooldown me bf cfg log now name planned wmeta Hen Hwin Hcap)
      as [m Hm].
    unfold blocks_with. rewrite Hm.
    apply cooldown_blocks_iff. exact Hpos.
  - split; [vm_compute; reflexivity|]. split.
    + eexists. vm_compute. reflexivity.
    + vm_compute. reflexivity.
Qed.

Lemma C6_witness :
  blocks_with (rt := Reference.runtime) "BLOCK_COOLDOWN_INSTRUMENT" no_balance None
    (guards_with 0 30) ledger_80 (t_10h + 10 * US_PER_MIN) "FTSE 100" 25.
Proof.
  apply (proj2 (proj1 (proj1 C6_cooldown Reference.runtime no_balance None
                         (guards_with 0 30) ledger_80 (t_10h + 10 * US_PER_MIN)
                         "FTSE 100" 25%Q [("trading_hours_enabled", JBool false)]
                         eq_refl eq_refl eq_refl (or_introl eq_refl)))).
  exists t_10h. split; vm_compute; reflexivity.
Defined.

(** The rule as the specification words it fails across midnight: an order
    sent at 23:55 UTC is the latest order of the instrument, a 30 minute
    cooldown has not elapsed at 00:05 UTC, and the guard allows. *)
Lemma C6_counterexample :
  rg_enabled (guards_with 0 30) = true /\
  0 < rg_cooldown_min (guards_with 0 30) /\
  fst <$> in_trading_window (rt := Reference.runtime) (guards_with 0 30) t_0005 = Ret true /\
  cap_passes (guards_with 0 30) ledger_late t_0005 "FTSE 100" /\
  latest_order_time_any_day (rt := Reference.runtime) ledger_late "FTSE 100" = Some t_2355 /\
  t_0005 < t_2355 + timedelta_minutes 30 /\
  ok <$> guard_postsize (rt := Reference.runtime) no_balance None (guards_with 0 30)
           ledger_late t_0005 "FTSE 100" 25 = Ret true /\
  ~ cooldown_rule_as_stated (rt := Reference.runtime) no_balance None (guards_with 0 30)
      ledger_late t_0005 "FTSE 100" 25.
Proof.
  split; [reflexivity|]. split; [simpl; lia|]. split; [reflexivity|].
  split; [left; reflexivity|]. split; [vm_compute; reflexivity|].
  split; [vm_compute; reflexivity|]. split; [vm_compute; reflexivity|].
  intros [_ Hback].
  destruct Hback as [m Hm].
  - exists t_2355. split; vm_compute; reflexivity.
  - vm_compute in Hm. discriminate Hm.
Qed.

(** ** Indicators *)

Lemma lookup_map {A B} (f : A -> B) (l : list A) (i : nat) :
  map f l !! i = f <$> (l !! i).
Proof.
  revert i. induction l as [|x l IH]; intros [|i]; simpl; try reflexivity. apply IH.
Qed.

Lemma rolling_mean_lookup (n : nat) (s : series) (i : nat) :
  (i < length s)%nat ->
  rolling_mean n s !! i =
    Some (let obs := observations n i s in
          if Nat.leb n (length obs) && Nat.ltb 0 (length obs)
          then Some (Qsum obs / inject_Z (Z.of_nat (length obs)))%Q
          else None).
Proof.
  intros Hi. unfold rolling_mean. rewrite lookup_map.
  rewrite lookup_seq_lt by exact Hi. reflexivity.
Qed.

Lemma rolling_mean_length (n : nat) (s : series) : length (rolling_mean n s) = length s.
Proof. unfold rolling_mean. rewrite length_map, length_seq. reflexivity. Qed.

Lemma omap_id_map_fmap (g : Q -> Q) (w : series) :
  omap id (map (fmap g) w) = map g (omap id w).
Proof.
  induction w as [|[x|] w IH]; simpl; unfold id; [reflexivity | | exact IH].
  f_equal. exact IH.
Qed.

Lemma observations_map (g : Q -> Q) (n i : nat) (s : series) :
  observations n i (map (fmap g) s) = map g (observations n i s).
Proof.
  unfold observations, window.
  rewrite <- omap_id_map_fmap. f_equal.
  rewrite firstn_map, skipn_map. reflexivity.
Qed.

Lemma Qsum_nonneg (l : list Q) : Forall (fun x => 0 <= x)%Q l -> (0 <= Qsum l)%Q.
Proof.
  induction 1 as [|x l Hx _ IH].
  - unfold Qsum. simpl. lra.
  - rewrite Qsum_cons. lra.
Qed.

Lemma py_max_nonneg (x : Q) : (0 <= py_max 0 x)%Q.
Proof.
  unfold py_max. destruct (Qltb 0 x) eqn:E; [apply Qltb_lt in E; lra | lra].
Qed.

(** The two averages of [rsi] are defined at the same bars, and the average
    of up-moves is never negative. *)
Lemma rsi_up_defined (s : series) (n i : nat) (d : Q) :
  rsi_dn s n !! i = Some (Some d) ->
  exists u, rsi_up s n !! i = Some (Some u) /\ (0 <= u)%Q.
Proof.
  unfold rsi_dn, rsi_up, clip_lower0, neg_clip_upper0. intros Hd.
  assert (Hi : (i < length (diff s))%nat).
  { apply lookup_lt_Some in Hd. rewrite rolling_mean_length, length_map in Hd. exact Hd. }
  rewrite rolling_mean_lookup in Hd by (rewrite length_map; exact Hi).
  rewrite rolling_mean_lookup by (rewrite length_map; exact Hi).
  cbv zeta in *. rewrite observations_map in *. rewrite length_map in *.
  destruct (Nat.leb n (length (observations n i (diff s)))
            && Nat.ltb 0 (length (observations n i (diff s))))%bool eqn:Hc; [|discriminate].
  eexists. split; [reflexivity|].
  apply andb_true_iff in Hc. destruct Hc as [_ Hpos]. apply Nat.ltb_lt in Hpos.
  apply Qle_shift_div_l.
  - change 0%Q with (inject_Z 0). rewrite <- Zlt_Qlt. lia.
  - rewrite Qmult_0_l. apply Qsum_nonneg. apply Forall_forall.
    intros x Hx. apply list_elem_of_In, in_map_iff in Hx.
    destruct Hx as [y [<- _]]. apply py_max_nonneg.
Qed.

Lemma rsi_lookup (s : series) (n i : nat) (u d : option Q) :
  rsi_up s n !! i = Some u -> rsi_dn s n !! i = Some d ->
  rsi s n !! i = Some (rsi_of u d).
Proof.
  intros Hu Hd. unfold rsi. rewrite lookup_zip_with, Hu, Hd. reflexivity.
Qed.

Lemma fl_div_by_zero (u d : Q) :
  (d == 0)%Q ->
  fl_div (Fin u) (Fin d) = if Qltb 0 u then PInf else if Qltb u 0 then NInf else NaN.
Proof.
  intros Hd. unfold fl_div.
  replace (Qnonzero d) with false; [reflexivity|].
  symmetry. unfold Qnonzero. apply negb_false_iff. apply Qeq_bool_iff. exact Hd.
Qed.

Lemma rsi_of_zero_down (u d : Q) :
  (d == 0)%Q ->
  ((0 < u)%Q -> exists q, rsi_of (Some u) (Some d) = Fin q /\ (q == 100)%Q) /\
  ((u == 0)%Q -> rsi_of (Some u) (Some d) = NaN).
Proof.
  intros Hd. unfold rsi_of, fl_of_opt. rewrite (fl_div_by_zero u d Hd). split.
  - intros Hu. replace (Qltb 0 u) with true by (symmetry; apply Qltb_lt; exact Hu).
    cbn. eexists. split; [reflexivity | lra].
  - intros Hu.
    replace (Qltb 0 u) with false by (symmetry; apply Qltb_ge; lra).
    replace (Qltb u 0) with false by (symmetry; apply Qltb_ge; lra).
    reflexivity.
Qed.

(** C7 (amended).  At a bar where the 14-period average of down-moves is
    exactly 0, the average of up-moves is defined and not negative; rsi14 is
    100 when it is positive, and NaN when it is 0 as well (no price change
    over the window), which [simple_signal] answers with HOLD. *)
Theorem C7_zero_average_down (s : series) (i : nat) (d : Q) :
  rsi_dn s 14 !! i = Some (Some d) ->
  (d == 0)%Q ->
  exists u,
    rsi_up s 14 !! i = Some (Some u) /\ (0 <= u)%Q /\
    ((0 < u)%Q -> exists q, rsi s 14 !! i = Some (Fin q) /\ (q == 100)%Q) /\
    ((u == 0)%Q ->
       rsi s 14 !! i = Some NaN /\
       forall c m buy sell warmup df,
         simple_signal (df ++ [Build_BarRow c m NaN]) buy sell warmup = Ret "HOLD").
Proof.
  intros Hd Hz.
  destruct (rsi_up_defined s 14 i d Hd) as [u [Hu Hnn]].
  exists u. split; [exact Hu|]. split; [exact Hnn|].
  pose proof (rsi_lookup s 14 i _ _ Hu Hd) as Hr.
  destruct (rsi_of_zero_down u d Hz) as [Hpos Hflat]. split.
  - intros Hp. destruct (Hpos Hp) as [q [Hq H100]]. exists q. rewrite Hr, Hq. split; trivial.
  - intros H0. rewrite Hr, (Hflat H0). split; [reflexivity|].
    intros c m buy sell warmup df. unfold simple_signal.
    destruct (Z.of_nat (length (df ++ [Build_BarRow c m NaN])) <? warmup); [reflexivity|].
    rewrite last_snoc. cbn [sma20 rsi14 fl_isna]. rewrite orb_true_r. reflexivity.
Qed.

Lemma C7_witness :
  exists u, rsi_up drop_then_rise 14 !! 15%nat = Some (Some u) /\ (0 < u)%Q /\
            exists q, rsi drop_then_rise 14 !! 15%nat = Some (Fin q) /\ (q == 100)%Q.
Proof.
  destruct (C7_zero_average_down drop_then_rise 15 (0 # 14))
    as [u [Hu [_ [Hpos _]]]]; [vm_compute; reflexivity | reflexivity |].
  exists u. split; [exact Hu|].
  assert (Hlt : (0 < u)%Q).
  { vm_compute in Hu. injection Hu as <-. reflexivity. }
  split; [exact Hlt | exact (Hpos Hlt)].
Defined.

(** As the specification words it the rule fails on a flat market: fifteen
    equal closes give a zero average of down-moves at the last bar, and
    rsi14 is NaN there. *)
Lemma C7_counterexample :
  rsi_dn flat15 14 !! 14%nat = Some (Some (0 # 14)) /\
  rsi flat15 14 !! 14%nat = Some NaN /\
  ~ zero_down_rule_as_stated flat15 14.
Proof.
  split; [vm_compute; reflexivity|]. split; [vm_compute; reflexivity|].
  intros Hrule. destruct (Hrule (0 # 14)) as [q [Hq _]]; [vm_compute; reflexivity | reflexivity |].
  vm_compute in Hq. discriminate Hq.
Qed.

Lemma omap_id_length_le {A} (l : list (option A)) : (length (omap id l) <= length l)%nat.
Proof.
  induction l as [|[a|] l IH]; simpl in *; unfold omap in *; lia.
Qed.

(** [rsi] is NaN until [n + 1] closes have been seen. *)
Lemma rsi_null_until (s : series) (n i : nat) :
  (i < n)%nat -> (i < length s)%nat -> rsi s n !! i = Some NaN.
Proof.
  intros Hin Hi.
  assert (Hd : length (diff s) = length s).
  { destruct s as [|c s]; [reflexivity|]. simpl. rewrite length_zip_with. simpl. lia. }
  assert (Hshort : forall g : Q -> Q,
             rolling_mean n (map (fmap g) (diff s)) !! i = Some None).
  { intros g. rewrite rolling_mean_lookup by (rewrite length_map, Hd; exact Hi).
    cbv zeta. rewrite observations_map, length_map.
    replace (Nat.leb n (length (observations n i (diff s)))) with false; [reflexivity|].
    symmetry. apply Nat.leb_gt. unfold observations, window.
    replace (i + 1 - n)%nat with 0%nat by lia. rewrite drop_0.
    destruct s as [|c s]; [simpl in Hi; lia|]. simpl diff.
    replace (i + 1)%nat with (S i) by lia. cbn [take firstn omap list_omap].
    eapply Nat.le_lt_trans; [apply omap_id_length_le|].
    rewrite length_take. lia. }
  apply (rsi_lookup s n i None None); [apply (Hshort (fun x => py_max 0 x)) | apply Hshort].
Qed.

(** C2.  On the closes 100, 50, 51, ..., 70 the rsi14 column of the pipeline
    is 100 at the sixteenth bar, where the last fourteen changes are all
    rises; Wilder smoothing, as [rest_signals.rsi] computes it, still carries
    the first fall and gives a value below 100. *)
Theorem C2_pipeline_rsi_is_not_wilder :
  exists q w,
    rsi drop_then_rise 14 !! 15%nat = Some (Fin q) /\ (q == 100)%Q /\
    rest_signals.rsi drop_then_rise 14 !! 15%nat = Some (Fin w) /\ (3 < w < 4)%Q.
Proof.
  eexists _, _. split; [vm_compute; reflexivity|]. split; [reflexivity|].
  split; [vm_compute; reflexivity|]. split; vm_compute; reflexivity.
Qed.

(** ** Sizing *)

Lemma round_half_even_near (k : Q) :
  (Qabs (k - inject_Z (round_half_even k)) <= 1 # 2)%Q.
Proof.
  unfold round_half_even.
  pose proof (Qfloor_le k) as Hlo. pose proof (Qlt_floor k) as Hhi.
  rewrite inject_Z_plus in Hhi.
  set (f := Qfloor k) in *. change (inject_Z 1) with 1%Q in Hhi. clearbody f.
  destruct (Qltb (k - inject_Z f) (1 # 2)) eqn:E1.
  - apply Qltb_lt in E1. apply Qabs_case; intros; lra.
  - apply Qltb_ge in E1.
    assert (Hup : (Qabs (k - inject_Z (f + 1)) <= 1 # 2)%Q).
    { rewrite inject_Z_plus. change (inject_Z 1) with 1%Q. apply Qabs_case; intros; lra. }
    destruct (Qltb (1 # 2) (k - inject_Z f)) eqn:E2; [exact Hup|].
    apply Qltb_ge in E2. destruct (Z.even f); [|exact Hup].
    apply Qabs_case; intros; lra.
Qed.

(** *** Rounding to binary64 *)

Lemma pow2_pos (e : Z) : (0 < pow2 e)%Q.
Proof. apply Qpower_0_lt. reflexivity. Qed.






Lemma f64_value (q : Q) :
  ~ (q == 0)%Q ->
  (f64 q == inject_Z (round_half_even (q / pow2 (f64_exponent q))) * pow2 (f64_exponent q))%Q.
Proof.
  intros Hq. unfold f64.
  destruct (Qeq_bool q 0) eqn:E; [apply Qeq_bool_iff in E; contradiction|].
  apply Qred_correct.
Qed.

Lemma f64_zero (q : Q) : (q == 0)%Q -> f64 q = 0%Q.
Proof.
  intros Hq. unfold f64. apply Qeq_bool_iff in Hq. rewrite Hq. reflexivity.
Qed.



Lemma round_half_even_nonneg (k : Q) : (0 <= k)%Q -> (0 <= round_half_even k)%Z.
Proof.
  intros Hk. pose proof (round_half_even_near k) as Hn.
  destruct (Z_lt_le_dec (round_half_even k) 0) as [Hlt | Hge]; [|exact Hge].
  exfalso. assert (Hr : (inject_Z (round_half_even k) <= -1)%Q).
  { change (-1)%Q with (inject_Z (-1)). rewrite <- Zle_Qle. lia. }
  revert Hn. apply Qabs_case; intros; lra.
Qed.

Lemma round_half_even_nonpos (k : Q) : (k <= 0)%Q -> (round_half_even k <= 0)%Z.
Proof.
  intros Hk. pose proof (round_half_even_near k) as Hn.
  destruct (Z_lt_le_dec 0 (round_half_even k)) as [Hlt | Hge]; [|exact Hge].
  exfalso. assert (Hr : (1 <= inject_Z (round_half_even k))%Q).
  { change 1%Q with (inject_Z 1). rewrite <- Zle_Qle. lia. }
  revert Hn. apply Qabs_case; intros; lra.
Qed.

(** Rounding keeps the sign. *)
Lemma f64_nonneg (q : Q) : (0 <= q)%Q -> (0 <= f64 q)%Q.
Proof.
  intros Hq. destruct (Qeq_dec q 0) as [H0 | H0]; [rewrite (f64_zero q H0); lra|].
  rewrite (f64_value q H0).
  pose proof (pow2_pos (f64_exponent q)) as Hp.
  assert (Hx : (0 <= q / pow2 (f64_exponent q))%Q).
  { apply Qle_shift_div_l; [exact Hp|]. lra. }
  apply round_half_even_nonneg in Hx.
  assert (Hr : (0 <= inject_Z (round_half_even (q / pow2 (f64_exponent q))))%Q).
  { change 0%Q with (inject_Z 0). rewrite <- Zle_Qle. exact Hx. }
  nra.
Qed.

Lemma f64_nonpos (q : Q) : (q <= 0)%Q -> (f64 q <= 0)%Q.
Proof.
  intros Hq. destruct (Qeq_dec q 0) as [H0 | H0]; [rewrite (f64_zero q H0); lra|].
  rewrite (f64_value q H0).
  pose proof (pow2_pos (f64_exponent q)) as Hp.
  assert (Hx : (q / pow2 (f64_exponent q) <= 0)%Q).
  { apply Qle_shift_div_r; [exact Hp|]. lra. }
  apply round_half_even_nonpos in Hx.
  assert (Hr : (inject_Z (round_half_even (q / pow2 (f64_exponent q))) <= 0)%Q).
  { change 0%Q with (inject_Z 0). rewrite <- Zle_Qle. exact Hx. }
  nra.
Qed.













(** *** [snap] *)


(** The rounding of the quotient decides the number of steps.  The float
    0.1 is 3602879701896397 / 2^55, above 1/10.  The floats 0.3 and 0.1
    have the quotient 2.9999999999999996, so rounding 0.3 down to steps of
    0.1 gives 0.2 although 3/10 is three times 1/10; the quotient of 2 by
    the float 0.1, which is below 20, is rounded to 20.0, so 2 is left
    at 2. *)
Remark snap_binary64 :
  f64 (1 # 10) = (3602879701896397 # 36028797018963968)%Q /\
  snap (3 # 10) (1 # 10) "down" = f64 (2 # 10) /\
  Qfloor ((3 # 10) / (1 # 10)) = 3 /\
  snap 2 (1 # 10) "down" = 2%Q /\
  Qfloor (2 / f64 (1 # 10)) = 19.
Proof. repeat split; vm_compute; reflexivity. Qed.

(** ** The loop body of [run_loop] *)

(** Evaluate the cells of a record whose row is an explicit dict. *)
Ltac cells :=
  cbv [cell csv_get csv_record LOG_FIELDS map fold_left dump_key dict_update dict_set
       assoc_get base_row_of sizing_fields String.eqb Ascii.eqb Bool.eqb default
       from_option id csv_cell is_dict_or_list fst snd app order_payload].

Ltac one_of :=
  first [ reflexivity
        | left; reflexivity
        | right; left; reflexivity
        | right; reflexivity
        | right; right; left; reflexivity
        | right; right; reflexivity
        | right; right; right; reflexivity ].


Ltac sized Hsz :=
  right; unfold sized_record; eexists _, _; split; [exact Hsz|]; cells;
  do 4 (split; [reflexivity|]);
  first [ left; split; reflexivity
        | right; split; [one_of | eexists _, _; reflexivity] ].


Section LoopBody.
Context {rt : PyRuntime}.
Variables (p : RunParams) (cfg : RiskGuardConfig) (w : ItemWorld) (item : Item).
Variables (st : RunState) (mk : json) (vpp stop limit : Q).




End LoopBody.






(** ** The confirmation reconciler *)

Section Reconcile.
Import confirm_and_enrich.
Context {rt : PyRuntime}.

(** Evaluate the cells of a record the reconciler writes. *)
Ltac rcells :=
  cbv [csv_get csv_record confirm_and_enrich.LOG_FIELDS map dict_update fold_left dict_set
       assoc_get String.eqb Ascii.eqb Bool.eqb default from_option id csv_cell
       is_dict_or_list fst snd position_dict json_of_ostr].

Lemma try_confirm_exhausted (confirms : nat -> py json) (attempts k : nat) (last : json) :
  (forall j data, (k <= j < k + attempts)%nat -> confirms j = Ret data ->
                  is_confirmation data = false) ->
  fst (try_confirm_from confirms attempts k last) = false.
Proof.
  revert k last. induction attempts as [|n IH]; intros k last Hnone; [reflexivity|].
  cbn [try_confirm_from].
  destruct (confirms k) as [data|e] eqn:Hk.
  - rewrite (Hnone k data) by (try exact Hk; lia).
    apply IH. intros j d Hj. apply Hnone. lia.
  - apply IH. intros j d Hj. apply Hnone. lia.
Qed.

Lemma pick_match_single (positions : list position) (epic : option string)
    (direction : string) (size_hint : option Q) (p : position) :
  List.filter (fun q => epic_eq (pos_epic q) epic
                        && String.eqb (pos_direction q) direction)%bool positions = [p] ->
  pick_match positions epic direction size_hint = Ret (Some p).
Proof.
  intros Hone. unfold pick_match. rewrite Hone.
  destruct size_hint; reflexivity.
Qed.

(** After polling is exhausted, one matching open position gives a
    CONFIRM_FALLBACK_OK record, in the layout of the reconciler, whose
    payload is the dict of that position. *)
Lemma fallback_record (w : World) (run_id : string) (i : nat) (r : gmap string string)
    (st : LoopState) (cache : list position) (p : position) :
  (forall k data, (k < 6)%nat ->
     e_confirms w i (get_or_empty r "dealReference") k = Ret data ->
     is_confirmation data = false) ->
  positions_cache st = Some cache \/
  (positions_cache st = None /\ load_positions (e_positions w) = Ret cache) ->
  List.filter (fun q => epic_eq (pos_epic q) (r !! "epic")
                        && String.eqb (pos_direction q) (upper (get_or_empty r "signal")))%bool
              cache = [p] ->
  exists rec : list string,
    reconcile_row w run_id i r st
    = Ret {| ls_log := Some (default [] (ls_log st) ++ [rec])%list;
             positions_cache := Some cache |} /\
    csv_get confirm_and_enrich.LOG_FIELDS rec "event" = Some "CONFIRM_FALLBACK_OK" /\
    csv_get confirm_and_enrich.LOG_FIELDS rec "dealReference"
    = Some (get_or_empty r "dealReference") /\
    csv_get confirm_and_enrich.LOG_FIELDS rec "payload_json"
    = Some (rt_json_dumps (position_dict p)) /\
    dget (position_dict p) "dealId" = Ret (pos_dealId p).
Proof.
  intros Hnone Hcache Hone. unfold reconcile_row.
  pose proof (try_confirm_exhausted (e_confirms w i (get_or_empty r "dealReference")) 6 0 JNull)
    as Hex.
  fold (try_confirm (e_confirms w i (get_or_empty r "dealReference")) 6) in Hex.
  destruct (try_confirm _ 6) as [okc data]. cbn [fst] in Hex.
  rewrite Hex by (intros j d Hj; apply Hnone; lia).
  assert (Hload : match positions_cache st with
                  | Some ps => Ret ps
                  | None => load_positions (e_positions w)
                  end = Ret cache).
  { destruct Hcache as [-> | [-> ->]]; reflexivity. }
  rewrite Hload. cbn [mbind py_bind].
  rewrite (pick_match_single _ _ _ _ p Hone). cbn [mbind py_bind].
  eexists. split; [reflexivity|]. unfold write_log_row.
  repeat split; rcells; reflexivity.
Qed.

Lemma reconcile_row_appends (w : World) (run_id : string) (i : nat)
    (r : gmap string string) (st st' : LoopState) :
  reconcile_row w run_id i r st = Ret st' ->
  exists rec : list string, ls_log st' = Some (default [] (ls_log st) ++ [rec])%list.
Proof.
  unfold reconcile_row.
  destruct (try_confirm _ 6) as [[|] data].
  - destruct (dget data "dealStatus"); cbn [mbind py_bind]; [|discriminate].
    destruct (dget data "dealId"); cbn [mbind py_bind]; [|discriminate].
    destruct (dget data "dealReference"); cbn [mbind py_bind]; [|discriminate].
    destruct (dget data "reason"); cbn [mbind py_bind]; [|discriminate].
    destruct (dget data "level"); cbn [mbind py_bind]; [|discriminate].
    destruct (dget data "size"); cbn [mbind py_bind]; [|discriminate].
    destruct (dget data "stopLevel"); cbn [mbind py_bind]; [|discriminate].
    destruct (dget data "limitLevel"); cbn [mbind py_bind]; [|discriminate].
    intros [= <-]. eexists; reflexivity.
  - destruct (match positions_cache st with Some ps => Ret ps | None => _ end) as [cache|e];
      cbn [mbind py_bind]; [|discriminate].
    destruct (pick_match _ _ _ _) as [[p|]|e]; cbn [mbind py_bind]; [| |discriminate].
    + intros [= <-]. eexists; reflexivity.
    + destruct (dget data "error"); cbn [mbind py_bind]; [|discriminate].
      intros [= <-]. eexists; reflexivity.
Qed.

Lemma reconcile_from_appends (w : World) (run_id : string) (sent : list (gmap string string))
    (i : nat) (st st' : LoopState) :
  reconcile_from w run_id i sent st = Ret st' ->
  exists recs : list (list string),
    default [] (ls_log st') = (default [] (ls_log st) ++ recs)%list /\
    length recs = length sent.
Proof.
  revert i st. induction sent as [|r sent IH]; intros i st; cbn [reconcile_from].
  - intros [= <-]. exists []. rewrite app_nil_r. split; reflexivity.
  - destruct (reconcile_row w run_id i r st) as [st1|e] eqn:Hrow; cbn [mbind py_bind];
      [|discriminate].
    intros Hrest. destruct (reconcile_row_appends _ _ _ _ _ _ Hrow) as [rec Hrec].
    destruct (IH _ _ Hrest) as [recs [Hrecs Hlen]].
    exists (rec :: recs). rewrite Hrecs, Hrec. cbn [default from_option id].
    rewrite <- app_assoc. split; [reflexivity | simpl; lia].
Qed.

(** The reconciler only appends: the records the file held are a prefix of
    the records it holds afterwards. *)
Lemma main_only_appends (w : World) (run_id_arg : option string)
    (log log' : option csv_file) :
  main w run_id_arg log = Ret log' ->
  exists recs : list (list string),
    default [] log' = (default [] log ++ recs)%list /\
    forall (j : nat) (rec : list string),
      default [] log !! j = Some rec -> default [] log' !! j = Some rec.
Proof.
  intros Hmain.
  assert (Happ : exists recs : list (list string),
             default [] log' = (default [] log ++ recs)%list).
  { unfold main in Hmain.
    destruct (read_log_rows log); [injection Hmain as <-; exists []; symmetry; apply app_nil_r|].
    destruct (match match run_id_arg with
                    | Some a => if String.eqb a "" then None else Some a
                    | None => None
                    end with
              | Some a => Some a
              | None => latest_run_id _
              end) as [run_id|];
      [|injection Hmain as <-; exists []; symmetry; apply app_nil_r].
    destruct (reconcile_from w run_id 0 _ _) as [st'|e] eqn:Hloop; cbn [mbind py_bind] in Hmain;
      [|discriminate].
    injection Hmain as <-.
    destruct (reconcile_from_appends _ _ _ _ _ _ Hloop) as [recs [Hrecs _]].
    exists recs. exact Hrecs. }
  destruct Happ as [recs Hrecs]. exists recs. split; [exact Hrecs|].
  intros j rec Hj. rewrite Hrecs. apply lookup_app_l_Some. exact Hj.
Qed.

End Reconcile.

(** * Further properties of the code *)

(** ** Dicts and ledger records *)

Lemma assoc_get_dict_set {V} (d : list (string * V)) (k k' : string) (v : V) :
  assoc_get (dict_set d k v) k' = if String.eqb k k' then Some v else assoc_get d k'.
Proof.
  induction d as [|[k0 v0] d IH]; cbn [dict_set assoc_get].
  - destruct (String.eqb k k'); reflexivity.
  - destruct (String.eqb_spec k0 k) as [-> | Hne]; cbn [assoc_get].
    + destruct (String.eqb k k'); reflexivity.
    + destruct (String.eqb_spec k0 k') as [-> | Hne'].
      * replace (String.eqb k k') with false; [reflexivity|].
        symmetry. apply String.eqb_neq. congruence.
      * exact IH.
Qed.

Lemma assoc_get_dump_key {rt : PyRuntime} (d : list (string * json)) (k0 k : string) :
  k0 <> k -> assoc_get (dump_key d k0) k = assoc_get d k.
Proof.
  intros Hne. unfold dump_key. destruct (assoc_get d k0) as [v|]; [|reflexivity].
  destruct (is_dict_or_list v); [|reflexivity].
  rewrite assoc_get_dict_set. apply String.eqb_neq in Hne. rewrite Hne. reflexivity.
Qed.

Lemma csv_get_record {rt : PyRuntime} (fields : list string) (row : list (string * json))
    (k : string) :
  In k fields ->
  csv_get fields (csv_record fields row) k
  = Some (csv_cell (default (JStr "") (assoc_get row k))).
Proof.
  induction fields as [|f fields IH]; [intros []|].
  intros Hin. cbn [csv_record map csv_get].
  destruct (String.eqb_spec f k) as [-> | Hne]; [reflexivity|].
  destruct Hin as [-> | Hin]; [contradiction|]. apply IH. exact Hin.
Qed.

Lemma csv_get_not_in (fields cells : list string) (k : string) :
  ~ In k fields -> csv_get fields cells k = None.
Proof.
  revert cells. induction fields as [|f fields IH]; intros cells Hnot; [reflexivity|].
  destruct cells as [|c cells]; [reflexivity|]. cbn [csv_get].
  destruct (String.eqb_spec f k) as [-> | Hne]; [exfalso; apply Hnot; left; reflexivity|].
  apply IH. intros Hin. apply Hnot. right. exact Hin.
Qed.

(** What [csv.DictReader] makes of a record is what the record holds under
    each header name, when no header name occurs twice. *)
Lemma zip_row_lookup (hdr cells : list string) (d : gmap string string) (k : string) :
  NoDup hdr ->
  zip_row hdr cells d !! k = if bool_decide (k ∈ hdr) then csv_get hdr cells k else d !! k.
Proof.
  revert cells d. induction hdr as [|f hdr IH]; intros cells d Hnd.
  - cbn [zip_row]. rewrite bool_decide_eq_false_2 by apply not_elem_of_nil. reflexivity.
  - apply NoDup_cons in Hnd as [Hnot Hnd].
    destruct cells as [|c cells]; cbn [zip_row csv_get]; rewrite (IH _ _ Hnd).
    + destruct (String.eqb_spec f k) as [-> | Hne].
      * rewrite (bool_decide_eq_false_2 _ Hnot).
        rewrite bool_decide_eq_true_2 by apply list_elem_of_here. apply lookup_delete_eq.
      * destruct (bool_decide (k ∈ hdr)) eqn:E.
        -- apply bool_decide_eq_true_1 in E.
           rewrite bool_decide_eq_true_2 by (apply list_elem_of_further; exact E).
           destruct hdr; reflexivity.
        -- apply bool_decide_eq_false_1 in E.
           rewrite bool_decide_eq_false_2
             by (intros [?|?]%elem_of_cons; [congruence | contradiction]).
           apply lookup_delete_ne. exact Hne.
    + destruct (String.eqb_spec f k) as [-> | Hne].
      * rewrite (bool_decide_eq_false_2 _ Hnot).
        rewrite bool_decide_eq_true_2 by apply list_elem_of_here. apply lookup_insert_eq.
      * destruct (bool_decide (k ∈ hdr)) eqn:E.
        -- apply bool_decide_eq_true_1 in E.
           rewrite bool_decide_eq_true_2 by (apply list_elem_of_further; exact E).
           reflexivity.
        -- apply bool_decide_eq_false_1 in E.
           rewrite bool_decide_eq_false_2
             by (intros [?|?]%elem_of_cons; [congruence | contradiction]).
           apply lookup_insert_ne. exact Hne.
Qed.

Lemma LOG_FIELDS_NoDup : NoDup LOG_FIELDS.
Proof. apply (bool_decide_unpack _). vm_compute. reflexivity. Qed.

Lemma zip_row_cell (cells : list string) (k : string) :
  zip_row LOG_FIELDS cells ∅ !! k = cell cells k.
Proof.
  rewrite (zip_row_lookup _ _ _ _ LOG_FIELDS_NoDup). unfold cell.
  destruct (bool_decide (k ∈ LOG_FIELDS)) eqn:E; [reflexivity|].
  apply bool_decide_eq_false_1 in E. rewrite csv_get_not_in; [apply lookup_empty|].
  intros Hin. apply E, list_elem_of_In. exact Hin.
Qed.

Lemma assoc_get_dump_key_eq {rt : PyRuntime} (d : list (string * json)) (k : string) :
  assoc_get (dump_key d k) k
  = (fun v => if is_dict_or_list v then JStr (rt_json_dumps v) else v) <$> assoc_get d k.
Proof.
  unfold dump_key. destruct (assoc_get d k) as [v|] eqn:E; [|rewrite E; reflexivity].
  destruct (is_dict_or_list v) eqn:Ev.
  - rewrite assoc_get_dict_set, String.eqb_refl. cbn. rewrite Ev. reflexivity.
  - rewrite E. cbn. rewrite Ev. reflexivity.
Qed.

Lemma written_cell {rt : PyRuntime} (row : list (string * json)) (k : string) :
  csv_cell (default (JStr "")
    (assoc_get (fold_left dump_key ["payload_json"; "rg_meta_json"; "rg2_meta_json"] row) k))
  = logged_cell row k.
Proof.
  unfold logged_cell, json_column. cbn [fold_left existsb].
  destruct (String.eqb_spec k "rg2_meta_json") as [-> | H2].
  { rewrite assoc_get_dump_key_eq, !assoc_get_dump_key by discriminate.
    cbn [orb andb]. destruct (assoc_get row "rg2_meta_json") as [v|]; [|reflexivity].
    cbn. destruct (is_dict_or_list v); reflexivity. }
  rewrite assoc_get_dump_key by congruence.
  destruct (String.eqb_spec k "rg_meta_json") as [-> | H1].
  { rewrite assoc_get_dump_key_eq, !assoc_get_dump_key by discriminate.
    cbn [orb andb]. destruct (assoc_get row "rg_meta_json") as [v|]; [|reflexivity].
    cbn. destruct (is_dict_or_list v); reflexivity. }
  rewrite assoc_get_dump_key by congruence.
  destruct (String.eqb_spec k "payload_json") as [-> | H0].
  { rewrite assoc_get_dump_key_eq.
    cbn [orb andb]. destruct (assoc_get row "payload_json") as [v|]; [|reflexivity].
    cbn. destruct (is_dict_or_list v); reflexivity. }
  rewrite assoc_get_dump_key by congruence. reflexivity.
Qed.

Lemma headed_rows (log : option csv_file) (rec : list string) :
  ledger_headed log -> rec <> [] ->
  csv_DictReader (ensure_log log ++ [rec])
  = (_read_csv_rows log ++ [zip_row LOG_FIELDS rec ∅])%list.
Proof.
  intros Hh Hrec. destruct log as [f|]; cbn [ensure_log _read_csv_rows].
  - destruct f as [|hdr recs]; [discriminate|]. cbn in Hh. injection Hh as ->.
    cbn [csv_DictReader app]. rewrite List.filter_app, map_app. cbn [List.filter].
    destruct rec; [congruence|]. reflexivity.
  - cbn [csv_DictReader app List.filter]. destruct rec; [congruence|]. reflexivity.
Qed.

Lemma ledger_rows_after_write {rt : PyRuntime} (log : option csv_file)
    (row : list (string * json)) :
  ledger_headed log ->
  exists r : gmap string string,
    _read_csv_rows (Some (write_log log row)) = (_read_csv_rows log ++ [r])%list /\
    forall k, r !! k = if bool_decide (k ∈ LOG_FIELDS) then Some (logged_cell row k) else None.
Proof.
  intros Hh. eexists. split.
  - cbn [_read_csv_rows]. unfold write_log. apply headed_rows; [exact Hh|].
    unfold csv_record, LOG_FIELDS. discriminate.
  - intros k. rewrite zip_row_cell. unfold cell.
    destruct (bool_decide (k ∈ LOG_FIELDS)) eqn:E.
    + apply bool_decide_eq_true_1, list_elem_of_In in E.
      rewrite csv_get_record by exact E. rewrite written_cell. reflexivity.
    + apply bool_decide_eq_false_1 in E. apply csv_get_not_in.
      intros Hin. apply E, list_elem_of_In. exact Hin.
Qed.

(** X1 (trade_once.write_log, read back by risk_guards._read_csv_rows):
    on a ledger that is missing or starts with the header of [LOG_FIELDS],
    writing a row leaves every earlier row as it reads and adds one row; that
    row holds, under each column of [LOG_FIELDS], the text of the value
    written there ([json.dumps] of a dict or list in the three JSON columns,
    the empty string for a key that is absent or [None]), and nothing under
    any other key. *)
Theorem ledger_read_back {rt : PyRuntime} (log : option csv_file) (row : list (string * json)) :
  ledger_headed log ->
  exists r : gmap string string,
    _read_csv_rows (Some (write_log log row)) = (_read_csv_rows log ++ [r])%list /\
    forall k, r !! k = if bool_decide (k ∈ LOG_FIELDS) then Some (logged_cell row k) else None.
Proof.
  intros Hh. exists (zip_row LOG_FIELDS
                       (csv_record LOG_FIELDS
                          (fold_left dump_key ["payload_json"; "rg_meta_json"; "rg2_meta_json"]
                                     row)) ∅).
  split.
  - cbn [_read_csv_rows]. unfold write_log. apply headed_rows; [exact Hh|].
    unfold csv_record, LOG_FIELDS. discriminate.
  - intros k. rewrite zip_row_cell. unfold cell.
    destruct (bool_decide (k ∈ LOG_FIELDS)) eqn:E.
    + apply bool_decide_eq_true_1, list_elem_of_In in E.
      rewrite csv_get_record by exact E. rewrite written_cell. reflexivity.
    + apply bool_decide_eq_false_1 in E. apply csv_get_not_in.
      intros Hin. apply E, list_elem_of_In. exact Hin.
Qed.

(** ** A logged order and the roll-ups of the guards *)

Lemma prefix_app (a b : string) : String.prefix a (a +:+ b) = true.
Proof.
  induction a as [|c a IH].
  - destruct b; reflexivity.
  - change (String.prefix (String c a) (String c (a +:+ b)) = true). simpl.
    destruct (Ascii.ascii_dec c c); [exact IH | congruence].
Qed.

Lemma prefix_app_l (a s z : string) :
  String.prefix a s = true -> String.prefix a (s +:+ z) = true.
Proof.
  revert s. induction a as [|c a IH]; intros s H.
  - destruct (s +:+ z); reflexivity.
  - destruct s as [|c' s]; [discriminate|].
    change (String.prefix (String c a) (String c' (s +:+ z)) = true). simpl in *.
    destruct (Ascii.ascii_dec c c'); [|discriminate]. apply IH. exact H.
Qed.

(** A timestamp of [now_utc_iso] starts with the UTC date of its instant. *)
Lemma now_utc_iso_today (t : Z) : startswith (now_utc_iso t) (strftime_ymd t) = true.
Proof.
  unfold startswith, now_utc_iso, isoformat_seconds. cbv zeta.
  apply prefix_app_l. rewrite Z.add_0_r. apply prefix_app.
Qed.

Lemma upper_order_event (ev : string) :
  ev = "ORDER_DRY" \/ ev = "ORDER_SENT" ->
  (String.eqb (upper ev) "ORDER_SENT" || String.eqb (upper ev) "ORDER_DRY")%bool = true.
Proof. intros [-> | ->]; vm_compute; reflexivity. Qed.

Section LoggedOrder.
Context {rt : PyRuntime}.
Variables (log : option csv_file) (row : list (string * json)).
Variables (t now : Z) (name ev : string).
Hypothesis Hh : ledger_headed log.
Hypothesis Hts : assoc_get row "ts_utc" = Some (JStr (now_utc_iso t)).
Hypothesis Hname : assoc_get row "name" = Some (JStr name).
Hypothesis Hev : assoc_get row "event" = Some (JStr ev).
Hypothesis Horder : ev = "ORDER_DRY" \/ ev = "ORDER_SENT".
Hypothesis Hday : strftime_ymd now = strftime_ymd t.

Lemma logged_order_rows :
  exists r : gmap string string,
    _read_csv_rows (Some (write_log log row)) = (_read_csv_rows log ++ [r])%list /\
    startswith (get_or_empty r "ts_utc") (_today_yyyy_mm_dd_utc now) = true /\
    get_or_empty r "name" = name /\
    is_order_event r = true /\
    get_or_empty r "eff_risk_gbp" = logged_cell row "eff_risk_gbp".
Proof.
  destruct (ledger_rows_after_write log row Hh) as (r & Hrows & Hr).
  exists r. split; [exact Hrows|].
  assert (Hc : forall k v, bool_decide (k ∈ LOG_FIELDS) = true -> json_column k = false ->
                 assoc_get row k = Some (JStr v) -> get_or_empty r k = v).
  { intros k v Hk Hj Hv. unfold get_or_empty. rewrite Hr, Hk. unfold logged_cell.
    rewrite Hj, Hv. reflexivity. }
  repeat split.
  - rewrite (Hc "ts_utc" _ eq_refl eq_refl Hts). unfold _today_yyyy_mm_dd_utc.
    rewrite Hday. apply now_utc_iso_today.
  - apply (Hc "name" _ eq_refl eq_refl Hname).
  - unfold is_order_event. rewrite (Hc "event" _ eq_refl eq_refl Hev).
    apply upper_order_event. exact Horder.
  - unfold get_or_empty. rewrite Hr. reflexivity.
Qed.

End LoggedOrder.

Lemma orders_today_snoc {rt : PyRuntime} (log log' : option csv_file) (now : Z)
    (r : gmap string string) :
  _read_csv_rows log' = (_read_csv_rows log ++ [r])%list ->
  orders_today log' now
  = (orders_today log now ++
     (if startswith (get_or_empty r "ts_utc") (_today_yyyy_mm_dd_utc now) then [r] else []))%list.
Proof.
  intros H. unfold orders_today. rewrite H, List.filter_app. cbn [List.filter].
  reflexivity.
Qed.

Lemma Qsum_app (l1 l2 : list Q) : (Qsum (l1 ++ l2) == Qsum l1 + Qsum l2)%Q.
Proof.
  induction l1 as [|x l1 IH]; cbn [app].
  - unfold Qsum at 2. cbn. lra.
  - rewrite !Qsum_cons, IH. lra.
Qed.

(** X2 (trade_once.write_log with risk_guards.count_orders_today_instrument,
    count_orders_today_total and today_committed_risk_gbp): once a row with
    the event ORDER_DRY or ORDER_SENT, a timestamp of [now_utc_iso] and an
    instrument name is written to the ledger, the guards evaluated on the
    same UTC day count one more order for that instrument and in total, the
    same number for every other instrument, and a committed risk larger by
    what the row shows as effective risk. *)
Theorem logged_order_is_counted {rt : PyRuntime} (log : option csv_file)
    (row : list (string * json)) (t now : Z) (name ev : string) :
  ledger_headed log ->
  assoc_get row "ts_utc" = Some (JStr (now_utc_iso t)) ->
  assoc_get row "name" = Some (JStr name) ->
  assoc_get row "event" = Some (JStr ev) ->
  ev = "ORDER_DRY" \/ ev = "ORDER_SENT" ->
  strftime_ymd now = strftime_ymd t ->
  let log' := Some (write_log log row) in
  count_orders_today_instrument log' now name
  = count_orders_today_instrument log now name + 1 /\
  count_orders_today_total log' now = count_orders_today_total log now + 1 /\
  (forall other, other <> name ->
     count_orders_today_instrument log' now other
     = count_orders_today_instrument log now other) /\
  (today_committed_risk_gbp log' now
   == today_committed_risk_gbp log now
      + (let s := logged_cell row "eff_risk_gbp" in
         if String.eqb s "" then 0 else default 0 (rt_float s)))%Q.
Proof.
  intros Hh Hts Hname Hev Horder Hday log'.
  destruct (logged_order_rows log row t now name ev Hh Hts Hname Hev Horder Hday)
    as (r & Hrows & Htoday & Hn & Hoe & Hrisk).
  pose proof (orders_today_snoc log log' now r Hrows) as Hot. rewrite Htoday in Hot.
  repeat split.
  - unfold count_orders_today_instrument, orders_today_for_instrument.
    rewrite Hot, !List.filter_app. cbn [List.filter]. rewrite Hn, String.eqb_refl.
    cbn [List.filter]. rewrite Hoe, length_app. cbn [length]. lia.
  - unfold count_orders_today_total. rewrite Hot, List.filter_app. cbn [List.filter].
    rewrite Hoe, length_app. cbn [length]. lia.
  - intros other Hother. unfold count_orders_today_instrument, orders_today_for_instrument.
    rewrite Hot, !List.filter_app. cbn [List.filter]. rewrite Hn.
    replace (String.eqb name other) with false
      by (symmetry; apply String.eqb_neq; congruence).
    cbn [List.filter]. rewrite app_nil_r. reflexivity.
  - rewrite !committed_is_sum, Hot, List.filter_app, map_app, Qsum_app.
    cbn [List.filter]. rewrite Hoe. cbn [map]. rewrite Qsum_cons.
    unfold row_risk. rewrite Hrisk. unfold Qsum. cbn [fold_left]. cbv zeta. lra.
Qed.

(** ** Records of the reconciler under the ledger's header *)

Lemma csv_get_Some (fields cells : list string) (k c : string) :
  csv_get fields cells k = Some c ->
  exists i : nat, fields !! i = Some k /\ cells !! i = Some c.
Proof.
  revert cells. induction fields as [|f fields IH]; intros cells H; [discriminate|].
  destruct cells as [|c0 cells]; [discriminate|]. cbn [csv_get] in H.
  destruct (String.eqb_spec f k) as [-> | Hne].
  - injection H as ->. exists 0%nat. split; reflexivity.
  - destruct (IH _ H) as (i & Hf & Hc). exists (S i). split; assumption.
Qed.

(** A record of at most 28 cells shows nothing in the column "event". *)
Lemma short_record_no_event (cells : list string) :
  (length cells <= 28)%nat -> cell cells "event" = None.
Proof.
  intros Hlen. unfold cell. destruct (csv_get LOG_FIELDS cells "event") as [c|] eqn:E;
    [|reflexivity].
  apply csv_get_Some in E as (i & Hf & Hc).
  assert (i = 28%nat) as ->.
  { apply (NoDup_lookup LOG_FIELDS i 28 "event" LOG_FIELDS_NoDup Hf). reflexivity. }
  apply lookup_lt_Some in Hc. lia.
Qed.

Lemma reconciler_rows {rt : PyRuntime} (log : option csv_file) (row : list (string * json)) :
  ledger_headed log ->
  exists rows : list (gmap string string),
    _read_csv_rows (Some (confirm_and_enrich.write_log_row log row))
    = (_read_csv_rows log ++ rows)%list /\
    Forall (fun r => is_order_event r = false) rows.
Proof.
  intros Hh. unfold confirm_and_enrich.write_log_row.
  set (rec := csv_record confirm_and_enrich.LOG_FIELDS _).
  assert (Hlen : length rec = 26%nat) by (unfold rec, csv_record; rewrite length_map; reflexivity).
  destruct log as [f|]; cbn [default from_option id _read_csv_rows].
  - destruct f as [|hdr recs]; [discriminate|]. cbn in Hh. injection Hh as ->.
    exists [zip_row LOG_FIELDS rec ∅]. split.
    + cbn [csv_DictReader app]. rewrite List.filter_app, map_app. cbn [List.filter].
      destruct rec; [discriminate|]. reflexivity.
    + constructor; [|constructor]. unfold is_order_event, get_or_empty.
      rewrite zip_row_cell, short_record_no_event by lia. reflexivity.
  - exists []. split; [reflexivity | constructor].
Qed.

Lemma filter_none {A} (f : A -> bool) (l : list A) :
  Forall (fun x => f x = false) l -> List.filter f l = [].
Proof.
  induction 1 as [|x l Hx _ IH]; [reflexivity|]. cbn [List.filter]. rewrite Hx. exact IH.
Qed.

Lemma Forall_filter_keep {A} (P : A -> Prop) (f : A -> bool) (l : list A) :
  Forall P l -> Forall P (List.filter f l).
Proof.
  induction 1 as [|x l Hx _ IH]; [constructor|]. cbn [List.filter].
  destruct (f x); [constructor; assumption | assumption].
Qed.

(** X3 (confirm_and_enrich.write_log_row with the roll-ups of risk_guards):
    a record the reconciler appends to the ledger has 26 cells, so under the
    33-column header it shows nothing in the column "event"; the order
    counts, the committed risk and the last order time the guards compute
    are what they were before the record was appended. *)
Theorem reconciler_record_is_no_order {rt : PyRuntime} (log : option csv_file)
    (row : list (string * json)) (now : Z) (name : string) :
  ledger_headed log ->
  let log' := Some (confirm_and_enrich.write_log_row log row) in
  count_orders_today_instrument log' now name = count_orders_today_instrument log now name /\
  count_orders_today_total log' now = count_orders_today_total log now /\
  today_committed_risk_gbp log' now = today_committed_risk_gbp log now /\
  last_order_time_instrument log' now name = last_order_time_instrument log now name.
Proof.
  intros Hh log'. destruct (reconciler_rows log row Hh) as (rows & Hrows & Hno).
  assert (Hall : List.filter is_order_event (orders_today log' now)
                 = List.filter is_order_event (orders_today log now)).
  { unfold orders_today. fold log' in Hrows. rewrite Hrows, !List.filter_app.
    rewrite (filter_none is_order_event (List.filter _ rows)), app_nil_r; [reflexivity|].
    apply Forall_filter_keep. exact Hno. }
  assert (Hi : List.filter is_order_event (orders_today_for_instrument log' now name)
               = List.filter is_order_event (orders_today_for_instrument log now name)).
  { unfold orders_today_for_instrument, orders_today. fold log' in Hrows.
    rewrite Hrows, !List.filter_app.
    rewrite (filter_none is_order_event (List.filter _ (List.filter _ rows))), app_nil_r;
      [reflexivity|].
    apply Forall_filter_keep, Forall_filter_keep. exact Hno. }
  repeat split.
  - unfold count_orders_today_instrument. rewrite Hi. reflexivity.
  - unfold count_orders_today_total. rewrite Hall. reflexivity.
  - unfold today_committed_risk_gbp, orders_today. fold log' in Hrows.
    rewrite Hrows, List.filter_app, fold_left_app. clear Hrows Hall Hi.
    generalize (fold_left add_risk
                  (List.filter (fun r => startswith (get_or_empty r "ts_utc")
                                           (_today_yyyy_mm_dd_utc now)) (_read_csv_rows log)) 0%Q).
    induction Hno as [|r rows Hr _ IH]; intros acc; [reflexivity|].
    cbn [List.filter]. destruct (startswith _ _); [|apply IH].
    cbn [fold_left]. unfold add_risk at 2. rewrite Hr. apply IH.
  - unfold last_order_time_instrument. rewrite Hi. reflexivity.
Qed.

(** ** The verdicts of the post-size guard *)

Section Verdicts.
Context {rt : PyRuntime}.
Variables (me : py json) (bf : baseline_file) (cfg : RiskGuardConfig).
Variables (log : option csv_file) (now : Z) (name : string) (planned : Q).

Lemma loss_limit_cause (m : list (string * json)) :
  let g := guard_loss_limit me bf cfg m in
  (ok g = false /\ reason g = "BLOCK_DAILY_LOSS_LIMIT" /\ loss_limit_hit me bf cfg) \/
  (ok g = true /\ reason g = "RG2_OK" /\ ~ loss_limit_hit me bf cfg).
Proof.
  unfold guard_loss_limit, loss_limit_hit. cbv zeta.
  destruct (Qltb 0 (rg_daily_loss_limit_gbp cfg)) eqn:Hd.
  - apply Qltb_lt in Hd. unfold ensure_daily_baseline_and_loss.
    destruct (_current_balance_gbp me) as [cur|].
    + cbv zeta. cbv beta iota.
      match goal with |- context [Qle_bool ?a ?b] => destruct (Qle_bool a b) eqn:Hle end.
      * left. cbn [ok reason]. repeat split; [exact Hd|].
        apply Qle_bool_iff in Hle. eexists _, _, _. split; [reflexivity | exact Hle].
      * right. cbn [ok reason]. repeat split. intros (_ & b & c & l & Heq & Hl).
        injection Heq as <- <- <-. apply Qle_bool_iff in Hl. congruence.
    + right. cbn [ok reason]. repeat split. intros (_ & b & c & l & Heq & _). discriminate.
  - apply Qltb_ge in Hd. right. cbn [ok reason]. repeat split.
    intros (Hpos & _). apply (Qlt_not_le _ _ Hpos Hd).
Qed.

Lemma risk_budget_cause (m : list (string * json)) :
  let g := guard_risk_budget me bf cfg log now planned m in
  (ok g = false /\ reason g = "BLOCK_DAILY_RISK_BUDGET" /\
   (0 < rg_daily_risk_budget_gbp cfg)%Q /\
   (rg_daily_risk_budget_gbp cfg + tolerance
    < today_committed_risk_gbp log now + py_max 0 planned)%Q) \/
  (budget_passes cfg log now planned /\
   ((ok g = false /\ reason g = "BLOCK_DAILY_LOSS_LIMIT" /\ loss_limit_hit me bf cfg) \/
    (ok g = true /\ reason g = "RG2_OK" /\ ~ loss_limit_hit me bf cfg))).
Proof.
  unfold guard_risk_budget, budget_passes. cbv zeta.
  destruct (Qltb 0 (rg_daily_risk_budget_gbp cfg)) eqn:Hb.
  - apply Qltb_lt in Hb.
    destruct (Qltb (rg_daily_risk_budget_gbp cfg + tolerance) _) eqn:Hover.
    + apply Qltb_lt in Hover. left. cbn [ok reason]. repeat split; assumption.
    + apply Qltb_ge in Hover. right. split; [right; exact Hover|]. apply loss_limit_cause.
  - apply Qltb_ge in Hb. right. split; [left; exact Hb|]. apply loss_limit_cause.
Qed.

Lemma cooldown_cause (m : list (string * json)) (g : GuardResult) :
  guard_cooldown me bf cfg log now name planned m = Ret g ->
  (ok g = false /\ reason g = "BLOCK_COOLDOWN_INSTRUMENT" /\
   0 < rg_cooldown_min cfg /\
   exists t, last_order_time_instrument log now name = Ret (Some t) /\
             now < t + timedelta_minutes (rg_cooldown_min cfg)) \/
  (cooldown_passes cfg log now name /\
   exists m', g = guard_risk_budget me bf cfg log now planned m').
Proof.
  unfold guard_cooldown, cooldown_passes. cbv zeta.
  destruct (0 <? rg_cooldown_min cfg) eqn:Hc.
  - apply Z.ltb_lt in Hc.
    destruct (last_order_time_instrument log now name) as [[t|]|e]; cbn [mbind py_bind];
      [| |discriminate].
    + destruct (now <? t + timedelta_minutes (rg_cooldown_min cfg)) eqn:Hlt.
      * apply Z.ltb_lt in Hlt. intros [= <-]. left. cbn [ok reason].
        repeat split; [exact Hc|]. exists t. split; [reflexivity | exact Hlt].
      * apply Z.ltb_ge in Hlt. intros [= <-]. right. split.
        -- right; right. exists t. split; [reflexivity | exact Hlt].
        -- eexists; reflexivity.
    + intros [= <-]. right. split; [right; left; reflexivity | eexists; reflexivity].
  - apply Z.ltb_ge in Hc. intros [= <-]. right. split; [left; exact Hc | eexists; reflexivity].
Qed.

Lemma postsize_cause (g : GuardResult) :
  guard_postsize me bf cfg log now name planned = Ret g ->
  verdict_cause me bf cfg log now name planned g.
Proof.
  unfold guard_postsize, verdict_cause, cap_passes. cbv zeta.
  destruct (rg_enabled cfg); cbn [negb].
  2:{ intros [= <-]. left. repeat split. }
  destruct (in_trading_window cfg now) as [[inside wmeta]|e]; cbn [mbind py_bind fmap py_fmap];
    [|discriminate].
  destruct inside; cbn [negb].
  2:{ intros [= <-]. right. split; [reflexivity|]. left. repeat split. }
  intros H. right. split; [reflexivity|]. right. split; [reflexivity|].
  assert (Hrest : forall m, guard_cooldown me bf cfg log now name planned m = Ret g ->
    (ok g = false /\ reason g = "BLOCK_COOLDOWN_INSTRUMENT" /\ 0 < rg_cooldown_min cfg /\
     exists t, last_order_time_instrument log now name = Ret (Some t) /\
               now < t + timedelta_minutes (rg_cooldown_min cfg)) \/
    (cooldown_passes cfg log now name /\
     ((ok g = false /\ reason g = "BLOCK_DAILY_RISK_BUDGET" /\
       (0 < rg_daily_risk_budget_gbp cfg)%Q /\
       (rg_daily_risk_budget_gbp cfg + tolerance
        < today_committed_risk_gbp log now + py_max 0 planned)%Q) \/
      (budget_passes cfg log now planned /\
       ((ok g = false /\ reason g = "BLOCK_DAILY_LOSS_LIMIT" /\ loss_limit_hit me bf cfg) \/
        (ok g = true /\ reason g = "RG2_OK" /\ ~ loss_limit_hit me bf cfg)))))).
  { intros m Hm. destruct (cooldown_cause m g Hm) as [Hblock | [Hpass [m' ->]]].
    - left. exact Hblock.
    - right. split; [exact Hpass|]. apply risk_budget_cause. }
  destruct (rg_max_trades_per_day cfg =? 0) eqn:Hz; cbn [negb] in H.
  - apply Z.eqb_eq in Hz. right. split; [left; exact Hz|]. exact (Hrest _ H).
  - apply Z.eqb_neq in Hz.
    destruct (rg_max_trades_per_day cfg <=? count_orders_today_instrument log now name) eqn:Hle.
    + apply Z.leb_le in Hle. injection H as <-. left. cbn [ok reason]. repeat split; assumption.
    + apply Z.leb_gt in Hle. right. split; [right; exact Hle|]. exact (Hrest _ H).
Qed.

End Verdicts.

(** X4 (risk_guards.guard_postsize): whenever the post-size guard answers,
    the answer is explained by the checks in the order the code makes them:
    RG_DISABLED with the guards off; otherwise the first check that fails
    gives the block reason (trading window, per-instrument daily cap,
    cooldown, daily risk budget, daily loss limit), each with the condition
    that caused it and with every earlier check passing, and RG2_OK when
    none fails.  The answer allows iff its reason is RG_DISABLED or RG2_OK. *)
Theorem postsize_verdict_explained {rt : PyRuntime} (me : py json) (bf : baseline_file)
    (cfg : RiskGuardConfig) (log : option csv_file) (now : Z) (name : string) (planned : Q)
    (g : GuardResult) :
  guard_postsize me bf cfg log now name planned = Ret g ->
  verdict_cause me bf cfg log now name planned g /\
  (ok g = true <-> reason g = "RG_DISABLED" \/ reason g = "RG2_OK").
Proof.
  intros H. pose proof (postsize_cause me bf cfg log now name planned g H) as Hc.
  split; [exact Hc|]. unfold verdict_cause in Hc.
  repeat match goal with
         | H : _ \/ _ |- _ => destruct H as [H | H]
         | H : _ /\ _ |- _ => destruct H as [? H]
         end;
    match goal with
    | Ho : ok g = _, Hr : reason g = _ |- _ => rewrite Ho, Hr
    end;
    (split; [intros E; first [discriminate E | left; reflexivity | right; reflexivity]
            | intros [E | E]; first [discriminate E | reflexivity]]).
Qed.

(** X5 (risk_guards._current_balance_gbp, ensure_daily_baseline_and_loss,
    guard_postsize): when the account balance cannot be read (the session
    query raises, or it shows no balance), the daily loss limit never
    blocks, whatever the limit and the baseline file. *)
Theorem loss_limit_needs_balance {rt : PyRuntime} (me : py json) (bf : baseline_file)
    (cfg : RiskGuardConfig) (log : option csv_file) (now : Z) (name : string) (planned : Q)
    (g : GuardResult) :
  _current_balance_gbp me = None ->
  guard_postsize me bf cfg log now name planned = Ret g ->
  reason g <> "BLOCK_DAILY_LOSS_LIMIT".
Proof.
  intros Hbal H. pose proof (postsize_cause me bf cfg log now name planned g H) as Hc.
  unfold verdict_cause in Hc.
  assert (Hno : ~ loss_limit_hit me bf cfg).
  { intros (_ & b & c & l & Heq & _). unfold ensure_daily_baseline_and_loss in Heq.
    rewrite Hbal in Heq. discriminate. }
  repeat match goal with
         | H : _ \/ _ |- _ => destruct H as [H | H]
         | H : _ /\ _ |- _ => destruct H as [? H]
         end;
    try contradiction;
    match goal with
    | Hr : reason g = _ |- _ => rewrite Hr; discriminate
    end.
Qed.

(** The balance is unknown when the session query raises and when the
    session shows no account balance. *)
Lemma balance_unknown {rt : PyRuntime} :
  (forall e, _current_balance_gbp (Raise e) = None) /\
  _current_balance_gbp (Ret (JObj [])) = None /\
  _current_balance_gbp (Ret (JObj [("accountInfo", JObj [("balance", JNull)])])) = None.
Proof. repeat split. Qed.

Lemma postsize_reaches_loss_limit {rt : PyRuntime} (me : py json) (bf : baseline_file)
    (cfg : RiskGuardConfig) (log : option csv_file) (now : Z) (name : string) (planned : Q)
    (wmeta : list (string * json)) :
  rg_enabled cfg = true ->
  in_trading_window cfg now = Ret (true, wmeta) ->
  cap_passes cfg log now name ->
  cooldown_passes cfg log now name ->
  budget_passes cfg log now planned ->
  exists m, guard_postsize me bf cfg log now name planned
            = Ret (guard_loss_limit me bf cfg m).
Proof.
  intros Hen Hwin Hcap Hcool Hbud.
  destruct (postsize_reaches_cooldown me bf cfg log now name planned wmeta Hen Hwin Hcap)
    as [m Hm].
  destruct (cooldown_passed me bf cfg log now name planned m Hcool) as [m' Hm'].
  rewrite Hm' in Hm. rewrite Hm. unfold guard_risk_budget. cbv zeta.
  destruct (Qltb 0 (rg_daily_risk_budget_gbp cfg)) eqn:Hb; [|eexists; reflexivity].
  apply Qltb_lt in Hb.
  destruct (Qltb (rg_daily_risk_budget_gbp cfg + tolerance) _) eqn:Hover;
    [|eexists; reflexivity].
  apply Qltb_lt in Hover. exfalso. destruct Hbud as [H0 | Hle].
  - apply (Qlt_not_le _ _ Hb H0).
  - apply (Qlt_not_le _ _ Hover Hle).
Qed.

(** X6 (risk_guards.guard_postsize, check D, with
    ensure_daily_baseline_and_loss): with the guards enabled and the
    trading-window, daily-cap, cooldown and risk-budget checks passing, the
    guard blocks with BLOCK_DAILY_LOSS_LIMIT iff the limit is positive, the
    balance is known and the realized loss is at least the limit less 1e-9;
    otherwise it allows with RG2_OK.  The realized loss is
    max(0, baseline - current). *)
Theorem daily_loss_limit_iff {rt : PyRuntime} (me : py json) (bf : baseline_file)
    (cfg : RiskGuardConfig) (log : option csv_file) (now : Z) (name : string) (planned : Q)
    (wmeta : list (string * json)) :
  rg_enabled cfg = true ->
  in_trading_window cfg now = Ret (true, wmeta) ->
  cap_passes cfg log now name ->
  cooldown_passes cfg log now name ->
  budget_passes cfg log now planned ->
  (blocks_with "BLOCK_DAILY_LOSS_LIMIT" me bf cfg log now name planned
   <-> loss_limit_hit me bf cfg) /\
  (~ loss_limit_hit me bf cfg ->
   exists m, guard_postsize me bf cfg log now name planned
             = Ret {| ok := true; reason := "RG2_OK"; meta := m |}) /\
  (forall b c l, ensure_daily_baseline_and_loss me bf = (Some b, Some c, Some l) ->
                 l = py_max 0 (b - c)).
Proof.
  intros Hen Hwin Hcap Hcool Hbud.
  destruct (postsize_reaches_loss_limit me bf cfg log now name planned wmeta
              Hen Hwin Hcap Hcool Hbud) as [m Hm].
  pose proof (loss_limit_cause me bf cfg m) as Hc. cbv zeta in Hc.
  unfold blocks_with. rewrite Hm.
  destruct (guard_loss_limit me bf cfg m) as [o r mm]. cbn [ok reason] in Hc.
  split; [split|split].
  - intros [m' E]. injection E as -> -> ->.
    destruct Hc as [(_ & _ & Hhit) | (_ & Hr & _)]; [exact Hhit | discriminate].
  - intros Hhit. destruct Hc as [(-> & -> & _) | (_ & _ & Hno)]; [|contradiction].
    eexists; reflexivity.
  - intros Hno. destruct Hc as [(_ & _ & Hhit) | (-> & -> & _)]; [contradiction|].
    eexists; reflexivity.
  - intros b c l. unfold ensure_daily_baseline_and_loss.
    destruct (_current_balance_gbp me); [|discriminate]. intros [= <- <- <-]. reflexivity.
Qed.

(** X7 (risk_guards.guard_postsize, check B, with
    count_orders_today_instrument): with the guards enabled and the instant
    inside the trading window, the guard blocks with
    BLOCK_MAX_TRADES_PER_DAY_INSTRUMENT iff a cap is configured (not 0) and
    today's ORDER_SENT and ORDER_DRY rows of the instrument number at
    least the cap; a negative cap blocks every order. *)
Theorem instrument_cap_iff {rt : PyRuntime} (me : py json) (bf : baseline_file)
    (cfg : RiskGuardConfig) (log : option csv_file) (now : Z) (name : string) (planned : Q)
    (wmeta : list (string * json)) :
  rg_enabled cfg = true ->
  in_trading_window cfg now = Ret (true, wmeta) ->
  (blocks_with "BLOCK_MAX_TRADES_PER_DAY_INSTRUMENT" me bf cfg log now name planned
   <-> rg_max_trades_per_day cfg <> 0 /\
       rg_max_trades_per_day cfg <= count_orders_today_instrument log now name) /\
  (rg_max_trades_per_day cfg < 0 ->
   blocks_with "BLOCK_MAX_TRADES_PER_DAY_INSTRUMENT" me bf cfg log now name planned).
Proof.
  intros Hen Hwin.
  assert (Hback : rg_max_trades_per_day cfg <> 0 /\
                  rg_max_trades_per_day cfg <= count_orders_today_instrument log now name ->
                  blocks_with "BLOCK_MAX_TRADES_PER_DAY_INSTRUMENT" me bf cfg log now name
                              planned).
  { intros [Hnz Hle]. unfold blocks_with, guard_postsize.
    rewrite Hen, Hwin. cbn [negb mbind py_bind].
    apply Z.eqb_neq in Hnz. rewrite Hnz. cbn [negb].
    apply Z.leb_le in Hle. rewrite Hle. eexists; reflexivity. }
  split; [split; [|exact Hback]|].
  - intros [m H]. pose proof (postsize_cause me bf cfg log now name planned _ H) as Hc.
    unfold verdict_cause in Hc. cbn [ok reason] in Hc.
    repeat match goal with
           | H : _ \/ _ |- _ => destruct H as [H | H]
           | H : _ /\ _ |- _ => destruct H as [? H]
           end; try discriminate.
    split; assumption.
  - intros Hneg. apply Hback. split; [lia|].
    unfold count_orders_today_instrument. lia.
Qed.

(** ** The pre-flight guard, in full *)

Lemma py_len_nonneg (v : json) (n : Z) : py_len v = Ret n -> 0 <= n.
Proof.
  destruct v; cbn; intros H; try discriminate; injection H as <-; lia.
Qed.

Lemma open_positions_count_nonneg (positions : py json) :
  0 <= open_positions_count positions.
Proof.
  unfold open_positions_count, try_except.
  match goal with |- 0 <= match ?c with _ => _ end => destruct c as [n|e] eqn:E end; [|lia].
  destruct positions as [data|e']; cbn [mbind py_bind] in E; [|discriminate].
  destruct (dget data "positions") as [a|e']; cbn [mbind py_bind] in E; [|discriminate].
  destruct (dget data "response") as [b|e']; cbn [mbind py_bind] in E; [|discriminate].
  apply py_len_nonneg in E. exact E.
Qed.

(** X8 (risk_guards.guard_preflight): with the guards enabled the
    pre-flight guard allows, with reason RG_OK, iff the per-run cap is 0 or
    above the trades of this run and the cap on concurrent positions is 0
    or above the number of open positions; it names the per-run cap when
    that one fails and the positions cap only when the per-run cap passes.
    The number of open positions is never negative, so a negative cap on
    positions blocks every turn. *)
Theorem preflight_verdict (positions : py json) (cfg : RiskGuardConfig) (n : Z) :
  rg_enabled cfg = true ->
  let g := guard_preflight positions cfg n in
  let run_ok := rg_max_trades_per_run cfg = 0 \/ n < rg_max_trades_per_run cfg in
  let pos_ok := rg_max_concurrent_positions cfg = 0 \/
                open_positions_count positions < rg_max_concurrent_positions cfg in
  (ok g = true <-> run_ok /\ pos_ok) /\
  (ok g = true <-> reason g = "RG_OK") /\
  (reason g = "BLOCK_MAX_TRADES_PER_RUN" <-> ~ run_ok) /\
  (reason g = "BLOCK_MAX_CONCURRENT_POSITIONS" <-> run_ok /\ ~ pos_ok) /\
  (rg_max_concurrent_positions cfg < 0 -> ok g = false).
Proof.
  intros Hen. cbv zeta. unfold guard_preflight. rewrite Hen. cbn [negb]. cbv zeta.
  pose proof (open_positions_count_nonneg positions) as Hnn.
  destruct (Z.eqb_spec (rg_max_trades_per_run cfg) 0) as [Hz | Hz];
    destruct (Z.leb_spec (rg_max_trades_per_run cfg) n) as [Hr | Hr];
    destruct (Z.eqb_spec (rg_max_concurrent_positions cfg) 0) as [Hp | Hp];
    destruct (Z.leb_spec (rg_max_concurrent_positions cfg) (open_positions_count positions))
      as [Hq | Hq];
    cbn [negb andb ok reason];
    repeat split; intros; first [discriminate | reflexivity | lia].
Qed.

(** ** The trading window within one day *)

(** X9 (risk_guards.in_trading_window, branch [end_dt >= start_dt]): with
    the trading-hours check enabled and the end time not earlier than the
    start time, the instant is inside the window iff the local time of day
    is at or after the start and at or before the end; the seconds of the
    end minute past its first instant are outside. *)
Theorem trading_window_same_day {rt : PyRuntime} (cfg : RiskGuardConfig) (th : TradingHours)
    (now sh sm eh em : Z) :
  rg_trading_hours cfg = Some th ->
  th_enabled th = true ->
  parse_hhmm (th_start th) = Ret (sh, sm) ->
  parse_hhmm (th_end th) = Ret (eh, em) ->
  0 <= sh < 24 -> 0 <= sm < 60 -> 0 <= eh < 24 -> 0 <= em < 60 ->
  clock_time sh sm <= clock_time eh em ->
  exists (inside : bool) (wmeta : list (string * json)),
    in_trading_window cfg now = Ret (inside, wmeta) /\
    (inside = true <->
       clock_time sh sm <= time_of_day (local_wall (th_timezone th) now) <= clock_time eh em) /\
    (clock_time eh em < time_of_day (local_wall (th_timezone th) now) -> inside = false).
Proof.
  intros Hth Hen Hs He Hsh Hsm Heh Hem Hord.
  unfold in_trading_window. rewrite Hth, Hen. cbn [negb].
  rewrite Hs. cbn [mbind py_bind]. rewrite He. cbn [mbind py_bind].
  rewrite (datetime_on_valid _ sh sm Hsh Hsm). cbn [mbind py_bind].
  rewrite (datetime_on_valid _ eh em Heh Hem). cbn [mbind py_bind].
  fold (local_wall (th_timezone th) now).
  set (local := local_wall (th_timezone th) now).
  set (day := local / US_PER_DAY).
  assert (Hlocal : local = day * US_PER_DAY + time_of_day local).
  { unfold day, time_of_day. rewrite Z.mul_comm. apply Z.div_mod. discriminate. }
  replace (day * US_PER_DAY + clock_time sh sm <=? day * US_PER_DAY + clock_time eh em)
    with true by (symmetry; apply Z.leb_le; lia).
  eexists _, _. split; [reflexivity|].
  rewrite Hlocal at 1 2. rewrite !leb_shift. split.
  - rewrite andb_true_iff, !Z.leb_le. reflexivity.
  - intros Hlate. apply andb_false_iff. right. apply Z.leb_gt.
    fold local in Hlate. lia.
Qed.

(** X10 (risk_guards.in_trading_window, guard_postsize): a start or end
    whose hour or minute is out of range makes [datetime(...)] raise
    ValueError; neither [in_trading_window] nor [guard_postsize] catches
    it, so with the guards enabled the post-size guard raises instead of
    answering. *)
Theorem window_out_of_range_raises {rt : PyRuntime} (cfg : RiskGuardConfig)
    (th : TradingHours) (now sh sm eh em : Z) :
  rg_enabled cfg = true ->
  rg_trading_hours cfg = Some th ->
  th_enabled th = true ->
  parse_hhmm (th_start th) = Ret (sh, sm) ->
  parse_hhmm (th_end th) = Ret (eh, em) ->
  ~ (0 <= sh < 24 /\ 0 <= sm < 60 /\ 0 <= eh < 24 /\ 0 <= em < 60) ->
  in_trading_window cfg now = Raise ValueError /\
  forall me bf log name planned,
    guard_postsize me bf cfg log now name planned = Raise ValueError.
Proof.
  intros Hrg Hth Hen Hs He Hbad.
  assert (Hw : in_trading_window cfg now = Raise ValueError).
  { unfold in_trading_window. rewrite Hth, Hen. cbn [negb].
    rewrite Hs. cbn [mbind py_bind]. rewrite He. cbn [mbind py_bind].
    unfold datetime_on.
    destruct ((0 <=? sh) && (sh <? 24) && (0 <=? sm) && (sm <? 60))%bool eqn:E1;
      cbn [mbind py_bind]; [|reflexivity].
    destruct ((0 <=? eh) && (eh <? 24) && (0 <=? em) && (em <? 60))%bool eqn:E2;
      cbn [mbind py_bind]; [|reflexivity].
    exfalso. apply Hbad.
    rewrite !andb_true_iff, !Z.leb_le, !Z.ltb_lt in E1, E2. lia. }
  split; [exact Hw|]. intros me bf log name planned.
  unfold guard_postsize. rewrite Hrg, Hw. reflexivity.
Qed.

(** ** The balance baseline of the day *)

Lemma py_max_0_self (x : Q) : py_max 0 (x - x) = 0%Q.
Proof.
  unfold py_max. destruct (Qltb 0 (x - x)) eqn:E; [|reflexivity].
  apply Qltb_lt in E. exfalso. lra.
Qed.

(** X11 (risk_guards.ensure_daily_baseline_and_loss): on the first
    evaluation of the day the baseline is the current balance and the loss
    is 0; the file written then gives that balance back as the baseline of
    every later evaluation, whose loss is max(0, baseline - current),
    and is not written again; the loss is never negative; a baseline file
    that cannot be read counts as the current balance, loss 0. *)
Theorem baseline_round_trip {rt : PyRuntime} (me me' : py json) (cur cur' : Q)
    (created created' : string) :
  _current_balance_gbp me = Some cur ->
  _current_balance_gbp me' = Some cur' ->
  ensure_daily_baseline_and_loss me None = (Some cur, Some cur, Some 0%Q) /\
  ensure_daily_baseline_and_loss me' (baseline_after me None created)
  = (Some cur, Some cur', Some (py_max 0 (cur - cur'))) /\
  baseline_after me' (baseline_after me None created) created'
  = baseline_after me None created /\
  (0 <= py_max 0 (cur - cur'))%Q /\
  ensure_daily_baseline_and_loss me' (Some None) = (Some cur', Some cur', Some 0%Q).
Proof.
  intros Hc Hc'. unfold ensure_daily_baseline_and_loss, baseline_after.
  rewrite Hc, Hc'. cbn. rewrite !py_max_0_self. repeat split.
  unfold py_max. destruct (Qltb 0 (cur - cur')) eqn:E; [|lra].
  apply Qltb_lt in E. lra.
Qed.

(** ** One turn of the watchlist loop *)

Lemma simple_signal_range (df : list BarRow) (b s : Q) (wu : Z) (sig : string) :
  simple_signal df b s wu = Ret sig -> sig = "HOLD" \/ sig = "BUY" \/ sig = "SELL".
Proof.
  unfold simple_signal. destruct (Z.of_nat (length df) <? wu); [intros [= <-]; tauto|].
  destruct (last df) as [row|]; [|discriminate].
  repeat match goal with
         | |- (if ?c then _ else _) = _ -> _ => destruct c
         end; intros [= <-]; tauto.
Qed.

Ltac turn_class :=
  first [ left; split; [auto 4 | reflexivity]
        | right; left; split; [reflexivity | split; [assumption | reflexivity]]
        | right; right; split; [reflexivity | split; [assumption | reflexivity]] ].

Ltac turn_done :=
  match goal with
  | H : Ret _ = Ret ?st' |- _ => injection H as <-
  end;
  eexists _, _; unfold turn_effect, reached_placement, write_log;
  cbn [outcomes run_trade_count st_log];
  split;
  [ split; [reflexivity | cbn [action]; turn_class]
  | cbn [action instrument signal];
    split; [reflexivity | split; [reflexivity | split; [reflexivity|]]];
    first [ intros [E | [E | E]]; discriminate E
          | intros _; assumption ] ].

Ltac turn_early :=
  match goal with
  | H : Ret _ = Ret _ |- _ => injection H as <-
  end;
  eexists _, [_]; unfold turn_effect, reached_placement, write_log;
  cbn [outcomes run_trade_count st_log]; split;
  [ split; [reflexivity | cbn [action]; turn_class]
  | cbn [action instrument];
    split; [reflexivity|]; split; [left; reflexivity|]; split; [reflexivity|];
    intros [E | [E | E]]; discriminate E ].

Section Turn.
Context {rt : PyRuntime}.
Variables (p : RunParams) (cfg : RiskGuardConfig) (w : ItemWorld) (item : Item).
Variable st : RunState.

Lemma size_and_place_inv (log : option csv_file) (row : list (string * json))
    (sig sent : string) (mk curr : json) (vpp stop limit : Q) (st' : RunState) :
  size_and_place p cfg w st log row (item_name item) (item_epic item) sig sent
                 mk curr vpp stop limit = Ret st' ->
  exists (o : Outcome) (rec : list string),
    turn_effect p cfg st st' o /\
    st_log st' = Some (ensure_log log ++ [rec])%list /\
    instrument o = item_name item /\
    signal o = sig /\
    (reached_placement o ->
     exists size raw,
       sized_order mk (risk_gbp p) stop "down" = Ret (size, raw) /\
       postsize_allowed cfg w (item_name item) log (size * vpp * stop)).
Proof.
  intros Hrun. unfold size_and_place in Hrun. cbv zeta in Hrun.
  destruct (sized_order mk (risk_gbp p) stop "down") as [[size raw]|err] eqn:Hsz.
  2:{ destruct err; try discriminate. turn_done. }
  cbn [mbind py_bind] in Hrun.
  destruct (guard_postsize _ _ _ _ _ _ _) as [rg2|err] eqn:Hg; cbn [mbind py_bind] in Hrun;
    [|discriminate].
  destruct (ok rg2) eqn:Hok; cbn [negb] in Hrun.
  2:{ turn_done. }
  assert (Hallowed : exists size0 raw0,
             Ret (size, raw) = Ret (size0, raw0) /\
             postsize_allowed cfg w (item_name item) log (size0 * vpp * stop)).
  { exists size, raw. split; [reflexivity|]. exists rg2. split; [exact Hg | exact Hok]. }
  unfold place_order in Hrun.
  destruct (live_flag p) eqn:Hlive; cbn [negb mbind py_bind] in Hrun.
  - destruct (w_place_position w _) as [resp|err]; cbn [mbind py_bind] in Hrun.
    + destruct (dget_d resp "dealReference" (JStr "")) as [ref|err];
        cbn [mbind py_bind] in Hrun; [|discriminate].
      turn_done.
    + destruct err; cbn [mbind py_bind] in Hrun; try discriminate.
      turn_done.
  - turn_done.
Qed.

Lemma sentiment_gate_inv (log : option csv_file) (row : list (string * json))
    (sig : string) (mk curr : json) (vpp stop limit : Q) (st' : RunState) :
  sentiment_gate p cfg w st log row (item_name item) (item_epic item) sig
                 mk curr vpp stop limit = Ret st' ->
  sig = "BUY" \/ sig = "SELL" ->
  exists (o : Outcome) (rec : list string),
    turn_effect p cfg st st' o /\
    st_log st' = Some (ensure_log log ++ [rec])%list /\
    instrument o = item_name item /\
    signal o = sig /\
    (reached_placement o ->
     (exists size raw,
        sized_order mk (risk_gbp p) stop "down" = Ret (size, raw) /\
        postsize_allowed cfg w (item_name item) log (size * vpp * stop)) /\
     (s_enabled p = true -> sentiment_passes p w)).
Proof.
  intros Hrun Hsig. unfold sentiment_gate in Hrun. cbv zeta in Hrun.
  assert (Hbs : (String.eqb sig "BUY" || String.eqb sig "SELL")%bool = true)
    by (destruct Hsig as [-> | ->]; reflexivity).
  rewrite Hbs, andb_true_r in Hrun.
  destruct (s_enabled p) eqn:Hen.
  - destruct (truthy (w_sentiment w)) eqn:Htr; cbn [negb] in Hrun.
    2:{ turn_done. }
    destruct (dget_d (w_sentiment w) "label" (JStr "")) as [l|err];
      cbn [mbind py_bind] in Hrun; [|discriminate].
    destruct (dget_d (w_sentiment w) "score" (JNum 0)) as [sc|err] eqn:Hsc;
      cbn [mbind py_bind] in Hrun; [|discriminate].
    destruct (py_float sc) as [score|err] eqn:Hfl; cbn [mbind py_bind] in Hrun;
      [|discriminate].
    destruct (if s_logexp p then dget_d (w_sentiment w) "explanation" (JStr "") else Ret (JStr ""))
      as [expl|err]; cbn [mbind py_bind] in Hrun; [|discriminate].
    destruct (Qltb score (s_thr p)) eqn:Hthr.
    { turn_done. }
    apply Qltb_ge in Hthr.
    destruct (size_and_place_inv _ _ _ _ _ _ _ _ _ _ Hrun) as (o & rec & He & Hl & Hi & Hs & Hp).
    exists o, rec. split; [exact He|]. split; [exact Hl|]. split; [exact Hi|].
    split; [exact Hs|]. intros Hr. split; [apply Hp; exact Hr|].
    intros _. split; [exact Htr|]. exists sc, score. repeat split; assumption.
  - destruct (size_and_place_inv _ _ _ _ _ _ _ _ _ _ Hrun) as (o & rec & He & Hl & Hi & Hs & Hp).
    exists o, rec. split; [exact He|]. split; [exact Hl|]. split; [exact Hi|].
    split; [exact Hs|]. intros Hr. split; [apply Hp; exact Hr | discriminate].
Qed.

Lemma run_item_inv (st' : RunState) :
  run_item p cfg w item st = Ret st' ->
  exists (o : Outcome) (recs : list (list string)),
    turn_effect p cfg st st' o /\
    st_log st' = Some (ensure_log (st_log st) ++ recs)%list /\
    (length recs = 1 \/ length recs = 2)%nat /\
    instrument o = item_name item /\
    (reached_placement o -> gates_passed p cfg w item st st' o).
Proof.
  intros Hrun. unfold run_item in Hrun. cbv zeta in Hrun.
  destruct (ok (guard_preflight (w_positions w) cfg (run_trade_count st))) eqn:Hpre;
    cbn [negb] in Hrun.
  2:{ turn_early. }
  destruct (w_market w) as [mk|err] eqn:Hmk.
  2:{ destruct err; try discriminate. turn_early. }
  destruct (value_per_point mk) as [vpp|err] eqn:Hvpp; cbn [mbind py_bind] in Hrun;
    [|discriminate].
  destruct (min_stop_points mk) as [ms|err] eqn:Hms; cbn [mbind py_bind] in Hrun;
    [|discriminate].
  destruct (min_size_and_step mk) as [mss|err]; cbn [mbind py_bind] in Hrun; [|discriminate].
  destruct (currency_code mk) as [curr|err]; cbn [mbind py_bind] in Hrun; [|discriminate].
  destruct (effective_stop (rr p) (item_stop_points item) ms) as [stop limit] eqn:Heff.
  destruct (w_closes w) as [closes|err].
  2:{ destruct err; try discriminate. turn_early. }
  destruct (last (with_indicators closes)) as [bar|].
  2:{ turn_early. }
  destruct (simple_signal _ _ _ _) as [sig|err] eqn:Hsig; cbn [mbind py_bind] in Hrun;
    [|discriminate].
  apply simple_signal_range in Hsig.
  destruct (String.eqb_spec sig "HOLD") as [-> | Hnh].
  { injection Hrun as <-. eexists _, [_; _]. unfold turn_effect, reached_placement, write_log.
    cbn [outcomes run_trade_count st_log ensure_log]. split.
    - split; [reflexivity | cbn [action]; turn_class].
    - cbn [action instrument]. split; [rewrite <- app_assoc; reflexivity|].
      split; [right; reflexivity|]. split; [reflexivity|].
      intros [E | [E | E]]; discriminate E. }
  assert (Hbs : sig = "BUY" \/ sig = "SELL") by (destruct Hsig as [? | ?]; tauto).
  destruct (sentiment_gate_inv _ _ _ _ _ _ _ _ _ Hrun Hbs)
    as (o & rec & He & Hl & Hi & Hs & Hp).
  unfold write_log in Hl, Hp. cbn [ensure_log] in Hl, Hp. rewrite <- app_assoc in Hl.
  eexists o, [_; rec]. split; [exact He|]. split; [exact Hl|].
  split; [right; reflexivity|]. split; [exact Hi|].
  intros Hr. destruct (Hp Hr) as ((size & raw & Hsz & Hpost) & Hsent).
  split; [exact Hpre|]. split; [rewrite Hs; exact Hbs|]. split; [exact Hsent|].
  eexists vpp, stop, size, _, rec.
  split; [exists mk, ms, limit, raw; repeat split; assumption|].
  split; [exact Hl|]. split; [|exact Hpost].
  cells. reflexivity.
Qed.

End Turn.

(** X12 (trade_once.run_loop, one turn of the watchlist loop): a turn that
    returns adds exactly one outcome, for its instrument, and one or two
    ledger records after the ones already there.  The count of trades of
    the run goes up by one when the outcome is ORDER_SENT, or ORDER_DRY
    with dry runs counted as trades, and is unchanged otherwise;
    ORDER_SENT occurs only in a live run and ORDER_DRY only in a dry run. *)
Theorem run_item_turn {rt : PyRuntime} (p : RunParams) (cfg : RiskGuardConfig)
    (w : ItemWorld) (item : Item) (st st' : RunState) :
  run_item p cfg w item st = Ret st' ->
  exists (o : Outcome) (recs : list (list string)),
    outcomes st' = (outcomes st ++ [o])%list /\
    instrument o = item_name item /\
    st_log st' = Some (ensure_log (st_log st) ++ recs)%list /\
    (length recs = 1 \/ length recs = 2)%nat /\
    run_trade_count st'
    = run_trade_count st
      + (if (String.eqb (action o) "ORDER_SENT"
             || String.eqb (action o) "ORDER_DRY" && rg_count_dry_as_trade cfg)%bool
         then 1 else 0) /\
    (action o = "ORDER_SENT" -> live_flag p = true) /\
    (action o = "ORDER_DRY" -> live_flag p = false).
Proof.
  intros Hrun.
  destruct (run_item_inv p cfg w item st st' Hrun) as (o & recs & [Ho Hc] & Hl & Hn & Hi & _).
  exists o, recs. split; [exact Ho|]. split; [exact Hi|]. split; [exact Hl|].
  split; [exact Hn|].
  destruct Hc as [[Ha Hcount] | [(Ha & Hlive & Hcount) | (Ha & Hlive & Hcount)]].
  - split; [|split; intros E; rewrite E in Ha; destruct Ha as [F | [F | F]]; discriminate F].
    rewrite Hcount. destruct Ha as [-> | [-> | ->]]; cbn; lia.
  - rewrite Ha, Hcount. cbn. split; [destruct (rg_count_dry_as_trade cfg); lia|].
    split; [discriminate | intros _; exact Hlive].
  - rewrite Ha, Hcount. cbn. split; [reflexivity|].
    split; [intros _; exact Hlive | discriminate].
Qed.

(** X13 (trade_once.run_loop, the gates before place_order): when a turn
    ends with ORDER_DRY, ORDER_SENT or ORDER_FAIL, every gate was passed:
    the pre-flight guard allowed, the signal is BUY or SELL, the market
    was fetched and sized_order gave a size for the stop distance of the
    item raised to the minimum of the market, and the post-size guard
    allowed when asked about the risk size * pointValue * stop of that
    sizing, with the ledger as the turn left it after its SIGNAL record
    and before the record of the order; with sentiment gating enabled, a
    sentiment result was there with a score not below the threshold.  So
    with gating enabled and no sentiment result no order is placed. *)
Theorem orders_pass_every_gate {rt : PyRuntime} (p : RunParams) (cfg : RiskGuardConfig)
    (w : ItemWorld) (item : Item) (st st' : RunState) (o : Outcome) :
  run_item p cfg w item st = Ret st' ->
  last (outcomes st') = Some o ->
  (reached_placement o -> gates_passed p cfg w item st st' o) /\
  (s_enabled p = true -> truthy (w_sentiment w) = false -> ~ reached_placement o).
Proof.
  intros Hrun Hlast.
  destruct (run_item_inv p cfg w item st st' Hrun) as (o' & recs & [Ho _] & _ & _ & _ & Hg).
  rewrite Ho, last_snoc in Hlast. injection Hlast as <-.
  split; [exact Hg|].
  intros Hen Hfalsy Hr. destruct (Hg Hr) as (_ & _ & Hsent & _).
  destruct (Hsent Hen) as [Htr _]. congruence.
Qed.

Lemma preflight_ok_below_cap (positions : py json) (cfg : RiskGuardConfig) (n : Z) :
  rg_enabled cfg = true ->
  0 < rg_max_trades_per_run cfg ->
  ok (guard_preflight positions cfg n) = true ->
  n < rg_max_trades_per_run cfg.
Proof.
  intros Hen Hcap. unfold guard_preflight. rewrite Hen. cbn [negb]. cbv zeta.
  replace (rg_max_trades_per_run cfg =? 0) with false by (symmetry; apply Z.eqb_neq; lia).
  cbn [negb andb].
  destruct (rg_max_trades_per_run cfg <=? n) eqn:Hle; [discriminate|].
  intros _. apply Z.leb_gt in Hle. exact Hle.
Qed.

(** X14 (trade_once.run_loop with risk_guards.guard_preflight): with the
    guards enabled and a positive max_trades_per_run, the count of trades
    of a run that starts at or below the cap never exceeds it, whatever
    the watchlist and whatever the broker answers. *)
Theorem per_run_cap_holds {rt : PyRuntime} (p : RunParams) (cfg : RiskGuardConfig)
    (items : list (Item * ItemWorld)) (st st' : RunState) :
  rg_enabled cfg = true ->
  0 < rg_max_trades_per_run cfg ->
  run_trade_count st <= rg_max_trades_per_run cfg ->
  run_items p cfg items st = Ret st' ->
  run_trade_count st' <= rg_max_trades_per_run cfg.
Proof.
  intros Hen Hcap. revert st. induction items as [|[item w] items IH]; intros st Hle Hrun.
  - injection Hrun as <-. exact Hle.
  - cbn [run_items] in Hrun.
    destruct (run_item p cfg w item st) as [st1|e] eqn:H1; cbn [mbind py_bind] in Hrun;
      [|discriminate].
    apply (IH st1); [|exact Hrun].
    destruct (run_item_inv p cfg w item st st1 H1) as (o & recs & [_ Hc] & _ & _ & _ & Hg).
    assert (Hbelow : reached_placement o ->
                     run_trade_count st < rg_max_trades_per_run cfg).
    { intros Hr. destruct (Hg Hr) as (Hpre & _).
      exact (preflight_ok_below_cap _ _ _ Hen Hcap Hpre). }
    unfold reached_placement in Hbelow.
    destruct Hc as [[_ Hcount] | [(Ha & _ & Hcount) | (Ha & _ & Hcount)]].
    + lia.
    + specialize (Hbelow (or_introl Ha)).
      destruct (rg_count_dry_as_trade cfg); lia.
    + specialize (Hbelow (or_intror (or_introl Ha))). lia.
Qed.

(** X15 (trade_once.run_loop, the watchlist loop as a whole): a run that
    returns has one outcome an item, in watchlist order and named after
    the items, after the outcomes it started with; the ledger keeps what
    it held and gains between one and two records an item. *)
Theorem run_items_summary {rt : PyRuntime} (p : RunParams) (cfg : RiskGuardConfig)
    (items : list (Item * ItemWorld)) (st st' : RunState) :
  run_items p cfg items st = Ret st' ->
  exists (os : list Outcome) (recs : list (list string)),
    outcomes st' = (outcomes st ++ os)%list /\
    map instrument os = map (fun iw => item_name (fst iw)) items /\
    ensure_log (st_log st') = (ensure_log (st_log st) ++ recs)%list /\
    (length items <= length recs <= 2 * length items)%nat.
Proof.
  revert st. induction items as [|[item w] items IH]; intros st Hrun.
  - injection Hrun as <-. exists [], []. rewrite !app_nil_r. repeat split; cbn; lia.
  - cbn [run_items] in Hrun.
    destruct (run_item p cfg w item st) as [st1|e] eqn:H1; cbn [mbind py_bind] in Hrun;
      [|discriminate].
    destruct (run_item_inv p cfg w item st st1 H1) as (o & r1 & [Ho _] & Hl & Hn & Hi & _).
    destruct (IH st1 Hrun) as (os & recs & Hos & Hnames & Hlog & Hlen).
    exists (o :: os), (r1 ++ recs)%list. split; [|split; [|split]].
    + rewrite Hos, Ho, <- app_assoc. reflexivity.
    + cbn [map fst]. rewrite Hi, Hnames. reflexivity.
    + rewrite Hlog, Hl. cbn [ensure_log]. rewrite <- app_assoc. reflexivity.
    + rewrite length_app. cbn [length]. lia.
Qed.

Section DryRun.
Context {rt : PyRuntime}.
Variables (p : RunParams) (cfg : RiskGuardConfig) (w : ItemWorld).
Variable broker : json -> py json.
Hypothesis Hdry : live_flag p = false.

Lemma size_and_place_dry (st : RunState) (log : option csv_file)
    (row : list (string * json)) (name epic sig sent : string) (mk curr : json)
    (vpp stop limit : Q) :
  size_and_place p cfg (with_broker w broker) st log row name epic sig sent mk curr
                 vpp stop limit
  = size_and_place p cfg w st log row name epic sig sent mk curr vpp stop limit.
Proof.
  unfold size_and_place, place_order. rewrite Hdry. reflexivity.
Qed.

Lemma sentiment_gate_dry (st : RunState) (log : option csv_file)
    (row : list (string * json)) (name epic sig : string) (mk curr : json)
    (vpp stop limit : Q) :
  sentiment_gate p cfg (with_broker w broker) st log row name epic sig mk curr
                 vpp stop limit
  = sentiment_gate p cfg w st log row name epic sig mk curr vpp stop limit.
Proof.
  unfold sentiment_gate. cbv zeta. cbn [with_broker w_sentiment].
  destruct (s_enabled p && (String.eqb sig "BUY" || String.eqb sig "SELL"))%bool;
    [|apply size_and_place_dry].
  destruct (negb (truthy (w_sentiment w))); [reflexivity|].
  destruct (dget_d (w_sentiment w) "label" (JStr "")); cbn [mbind py_bind]; [|reflexivity].
  destruct (dget_d (w_sentiment w) "score" (JNum 0)); cbn [mbind py_bind]; [|reflexivity].
  destruct (py_float _); cbn [mbind py_bind]; [|reflexivity].
  destruct (if s_logexp p then _ else _); cbn [mbind py_bind]; [|reflexivity].
  destruct (Qltb _ _); [reflexivity|]. apply size_and_place_dry.
Qed.

Lemma run_item_dry (item : Item) (st : RunState) :
  run_item p cfg (with_broker w broker) item st = run_item p cfg w item st.
Proof.
  unfold run_item. cbv zeta.
  change (base_row_of p (with_broker w broker) item) with (base_row_of p w item).
  cbn [with_broker w_positions w_market w_closes].
  destruct (negb (ok (guard_preflight (w_positions w) cfg (run_trade_count st))));
    [reflexivity|].
  destruct (w_market w) as [mk|e]; [|reflexivity].
  destruct (value_per_point mk); cbn [mbind py_bind]; [|reflexivity].
  destruct (min_stop_points mk); cbn [mbind py_bind]; [|reflexivity].
  destruct (min_size_and_step mk); cbn [mbind py_bind]; [|reflexivity].
  destruct (currency_code mk); cbn [mbind py_bind]; [|reflexivity].
  destruct (effective_stop _ _ _).
  destruct (w_closes w); [|reflexivity].
  destruct (last _); [|reflexivity].
  destruct (simple_signal _ _ _ _); cbn [mbind py_bind]; [|reflexivity].
  destruct (String.eqb _ "HOLD"); [reflexivity|].
  apply sentiment_gate_dry.
Qed.

End DryRun.

(** X16 (trade_once.place_order and run_loop in a dry run): with the live
    flag off, a turn of the loop does not depend on what the broker would
    answer to an order: its ledger, outcomes and count are the same for
    every [ig.place_position], also one that always raises. *)
Theorem dry_run_ignores_broker {rt : PyRuntime} (p : RunParams) (cfg : RiskGuardConfig)
    (w : ItemWorld) (item : Item) (st : RunState) (broker broker' : json -> py json) :
  live_flag p = false ->
  run_item p cfg (with_broker w broker) item st
  = run_item p cfg (with_broker w broker') item st.
Proof.
  intros Hdry. rewrite !(run_item_dry p cfg w _ Hdry). reflexivity.
Qed.

(** ** The range of the indicators *)

Lemma rolling_mean_nonneg (g : Q -> Q) (n : nat) (s : series) (i : nat) (m : Q) :
  (forall x, 0 <= g x)%Q ->
  rolling_mean n (map (fmap g) s) !! i = Some (Some m) -> (0 <= m)%Q.
Proof.
  intros Hg Hm.
  assert (Hi : (i < length s)%nat).
  { apply lookup_lt_Some in Hm. rewrite rolling_mean_length, length_map in Hm. exact Hm. }
  rewrite rolling_mean_lookup in Hm by (rewrite length_map; exact Hi).
  cbv zeta in Hm. rewrite observations_map, length_map in Hm.
  destruct (Nat.leb n (length (observations n i s))
            && Nat.ltb 0 (length (observations n i s)))%bool eqn:Hc; [|discriminate].
  injection Hm as <-.
  apply andb_true_iff in Hc as [_ Hpos]. apply Nat.ltb_lt in Hpos.
  apply Qle_shift_div_l.
  - change 0%Q with (inject_Z 0). rewrite <- Zlt_Qlt. lia.
  - rewrite Qmult_0_l. apply Qsum_nonneg. apply Forall_forall.
    intros x Hx. apply list_elem_of_In, in_map_iff in Hx as (y & <- & _). apply Hg.
Qed.

Lemma clip_lower0_nonneg (x : Q) : (0 <= py_max 0 x)%Q.
Proof. apply py_max_nonneg. Qed.

Lemma neg_clip_upper0_nonneg (x : Q) : (0 <= - (if Qltb 0 x then 0 else x))%Q.
Proof.
  destruct (Qltb 0 x) eqn:E; [lra|]. apply Qltb_ge in E. lra.
Qed.

(** The value of [100 - 100 / (1 + up / dn)] for averages that are not
    negative: NaN, or a number from 0 to 100. *)
Lemma rsi_of_range (u d : Q) :
  (0 <= u)%Q -> (0 <= d)%Q ->
  rsi_of (Some u) (Some d) = NaN \/
  exists q, rsi_of (Some u) (Some d) = Fin q /\ (0 <= q <= 100)%Q.
Proof.
  intros Hu Hd. unfold rsi_of, fl_of_opt.
  destruct (Qeq_dec d 0) as [Hz | Hnz].
  - rewrite (fl_div_by_zero u d Hz).
    destruct (Qltb 0 u) eqn:E.
    + right. cbn. eexists. split; [reflexivity | lra].
    + apply Qltb_ge in E.
      replace (Qltb u 0) with false by (symmetry; apply Qltb_ge; exact Hu).
      left. reflexivity.
  - right. unfold fl_div at 2.
    replace (Qnonzero d) with true
      by (symmetry; unfold Qnonzero; apply negb_true_iff, not_true_iff_false;
          rewrite Qeq_bool_iff; exact Hnz).
    cbn [fl_add].
    assert (Hx : (0 <= u / d)%Q).
    { apply Qle_shift_div_l; [lra | rewrite Qmult_0_l; exact Hu]. }
    set (x := (u / d)%Q) in *. clearbody x.
    assert (Hpos : (0 < 1 + x)%Q) by lra.
    unfold fl_div.
    replace (Qnonzero (1 + x)) with true
      by (symmetry; unfold Qnonzero; apply negb_true_iff, not_true_iff_false;
          rewrite Qeq_bool_iff; lra).
    cbn [fl_sub fl_neg fl_add]. eexists. split; [reflexivity|].
    assert (Hy : (0 <= 100 / (1 + x) <= 100)%Q).
    { split.
      - apply Qle_shift_div_l; [exact Hpos | lra].
      - apply Qle_shift_div_r; [exact Hpos | lra]. }
    lra.
Qed.

Lemma rsi_range_at (up dn : series) (i : nat) (v : fl) :
  (forall u, up !! i = Some (Some u) -> 0 <= u)%Q ->
  (forall d, dn !! i = Some (Some d) -> 0 <= d)%Q ->
  zip_with rsi_of up dn !! i = Some v ->
  v = NaN \/ exists q, v = Fin q /\ (0 <= q <= 100)%Q.
Proof.
  intros Hup Hdn Hv. rewrite lookup_zip_with in Hv.
  destruct (up !! i) as [u|]; [|discriminate].
  destruct (dn !! i) as [d|]; [|discriminate]. cbn in Hv. injection Hv as <-.
  destruct u as [u|]; [|left; destruct d; reflexivity].
  destruct d as [d|]; [|left; reflexivity].
  apply rsi_of_range; [apply Hup | apply Hdn]; reflexivity.
Qed.

Lemma ewm_step_nonneg (alpha : Q) (st : rest_signals.ewm_state) (cur : option Q) :
  (0 < alpha <= 1)%Q -> ewm_nonneg st -> obs_nonneg cur ->
  ewm_nonneg (rest_signals.ewm_step alpha st cur).
Proof.
  intros Ha [Hw Ho] Hc. unfold rest_signals.ewm_step. cbv zeta.
  destruct (rest_signals.weighted st) as [w|].
  - specialize (Hw w eq_refl).
    assert (How : (0 <= rest_signals.old_wt st * (1 - alpha))%Q) by nra.
    destruct cur as [c|]; split; cbn; try lra; try exact How.
    + specialize (Hc c eq_refl). intros w' [= <-].
      destruct (Qeq_bool w c); [exact Hw|].
      apply Qle_shift_div_l; [lra|]. rewrite Qmult_0_l. nra.
    + intros w' [= <-]. exact Hw.
  - split; cbn; [exact Hc | exact Ho].
Qed.

Lemma ewm_go_nonneg (alpha : Q) (minp : nat) (s : series) :
  (0 < alpha <= 1)%Q -> Forall obs_nonneg s ->
  forall (st : rest_signals.ewm_state) (i : nat) (m : Q),
    ewm_nonneg st ->
    rest_signals.ewm_go alpha minp st s !! i = Some (Some m) -> (0 <= m)%Q.
Proof.
  intros Ha Hs. induction Hs as [|cur s Hcur _ IH]; intros st i m Hst Hm; [discriminate|].
  cbn [rest_signals.ewm_go] in Hm.
  pose proof (ewm_step_nonneg alpha st cur Ha Hst Hcur) as Hst'.
  destruct i as [|i].
  - cbn in Hm. injection Hm as Hm. unfold rest_signals.ewm_out in Hm.
    destruct (Nat.leb minp _); [|discriminate]. apply (proj1 Hst'). exact Hm.
  - apply (IH _ i m Hst'). exact Hm.
Qed.

Lemma ewm_mean_nonneg (alpha : Q) (minp : nat) (s : series) (i : nat) (m : Q) :
  (0 < alpha <= 1)%Q -> Forall obs_nonneg s ->
  rest_signals.ewm_mean alpha minp s !! i = Some (Some m) -> (0 <= m)%Q.
Proof.
  intros Ha Hs Hm. destruct s as [|x s]; [discriminate|].
  apply Forall_cons in Hs as [Hx Hs]. cbn [rest_signals.ewm_mean] in Hm.
  assert (Hst : ewm_nonneg {| rest_signals.weighted := x; rest_signals.old_wt := 1;
                              rest_signals.nobs := if is_some x then 1 else 0 |}).
  { split; cbn; [exact Hx | lra]. }
  destruct i as [|i].
  - cbn in Hm. injection Hm as Hm. unfold rest_signals.ewm_out in Hm.
    destruct (Nat.leb _ _); [|discriminate]. apply (proj1 Hst). exact Hm.
  - eapply (ewm_go_nonneg alpha _ s Ha Hs _ i m Hst). exact Hm.
Qed.

Lemma map_obs_nonneg (g : Q -> Q) (s : series) :
  (forall x, 0 <= g x)%Q -> Forall obs_nonneg (map (fmap g) s).
Proof.
  intros Hg. apply Forall_forall. intros o Ho.
  apply list_elem_of_In, in_map_iff in Ho as (y & <- & _).
  intros c Hc. destruct y as [y|]; [|discriminate]. injection Hc as <-. apply Hg.
Qed.

Lemma diff_length (s : series) : length (diff s) = length s.
Proof.
  destruct s as [|c s]; [reflexivity|]. simpl. rewrite length_zip_with. simpl. lia.
Qed.

(** X17 (trade_once.rsi and rest_signals.rsi): both RSI columns have one
    value a bar, and every value is NaN or a number from 0 to 100; for the
    Wilder form of rest_signals this holds for every period of at least
    one bar. *)
Theorem rsi_in_range (s : series) (n i : nat) (v : fl) :
  (length (rsi s n) = length s /\
   (rsi s n !! i = Some v ->
    v = NaN \/ exists q, v = Fin q /\ (0 <= q <= 100)%Q)) /\
  ((1 <= n)%nat -> rest_signals.rsi s n !! i = Some v ->
   v = NaN \/ exists q, v = Fin q /\ (0 <= q <= 100)%Q).
Proof.
  split; [split|].
  - unfold rsi, rsi_up, rsi_dn, clip_lower0, neg_clip_upper0.
    rewrite length_zip_with, !rolling_mean_length, !length_map, diff_length. lia.
  - unfold rsi. apply rsi_range_at.
    + intros u. unfold rsi_up, clip_lower0. apply rolling_mean_nonneg.
      intros x. apply py_max_nonneg.
    + intros d. unfold rsi_dn, neg_clip_upper0. apply rolling_mean_nonneg.
      intros x. apply neg_clip_upper0_nonneg.
  - intros Hn. unfold rest_signals.rsi. cbv zeta.
    assert (Ha : (0 < 1 / inject_Z (Z.of_nat n) <= 1)%Q).
    { assert (Hp : (1 <= inject_Z (Z.of_nat n))%Q).
      { change 1%Q with (inject_Z 1). rewrite <- Zle_Qle. lia. }
      split.
      - apply Qlt_shift_div_l; lra.
      - apply Qle_shift_div_r; lra. }
    apply rsi_range_at.
    + intros u. apply ewm_mean_nonneg; [exact Ha|].
      apply map_obs_nonneg. intros x. apply py_max_nonneg.
    + intros d. apply ewm_mean_nonneg; [exact Ha|].
      apply map_obs_nonneg. intros x. apply neg_clip_upper0_nonneg.
Qed.

(** ** The simple moving average *)

Lemma window_length {A} (n i : nat) (s : list A) :
  (i < length s)%nat -> length (window n i s) = Nat.min n (i + 1).
Proof.
  intros Hi. unfold window. rewrite length_drop, length_take. lia.
Qed.

Lemma omap_id_full {A} (l : list (option A)) :
  length (omap id l) = length l -> l = map Some (omap id l).
Proof.
  induction l as [|[a|] l IH]; intros Hlen; [reflexivity| |].
  - change (omap id (Some a :: l)) with (a :: omap id l) in *.
    cbn [map length] in *. f_equal. apply IH. lia.
  - exfalso. pose proof (omap_id_length_le l) as Hle.
    change (omap id (None :: l)) with (omap id l) in Hlen. cbn [length] in Hlen. lia.
Qed.

Lemma omap_id_map_Some {A} (xs : list A) : omap id (map Some xs) = xs.
Proof.
  induction xs as [|x xs IH]; [reflexivity|].
  change (omap id (map Some (x :: xs))) with (x :: omap id (map Some xs)).
  f_equal. exact IH.
Qed.

(** X18 (trade_once.sma, rest_signals.sma: [rolling(n, min_periods=n).mean()]):
    for a window of n >= 1 bars the average at a bar is defined iff at
    least n bars have been seen and none of the last n closes is missing;
    it is then their sum divided by n. *)
Theorem sma_defined_iff (s : series) (n i : nat) (m : Q) :
  (0 < n)%nat -> (i < length s)%nat ->
  (sma s n !! i = Some (Some m) <->
   (n <= i + 1)%nat /\
   exists xs : list Q,
     window n i s = map Some xs /\ length xs = n /\
     m = (Qsum xs / inject_Z (Z.of_nat n))%Q).
Proof.
  intros Hn Hi. unfold sma. rewrite rolling_mean_lookup by exact Hi. cbv zeta.
  unfold observations. pose proof (window_length n i s Hi) as Hwl.
  pose proof (omap_id_length_le (window n i s)) as Hle.
  split.
  - destruct (Nat.leb n (length (omap id (window n i s)))) eqn:Hc; [|discriminate].
    apply Nat.leb_le in Hc.
    replace (Nat.ltb 0 (length (omap id (window n i s)))) with true
      by (symmetry; apply Nat.ltb_lt; lia).
    cbn [andb]. intros [= <-].
    assert (Hfull : length (omap id (window n i s)) = length (window n i s)) by lia.
    split; [lia|]. exists (omap id (window n i s)).
    split; [apply omap_id_full; exact Hfull|].
    split; [lia|]. f_equal. f_equal. f_equal. lia.
  - intros (Hge & xs & Hw & Hlen & ->). rewrite Hw, omap_id_map_Some, Hlen.
    rewrite Nat.leb_refl.
    replace (Nat.ltb 0 n) with true by (symmetry; apply Nat.ltb_lt; exact Hn).
    reflexivity.
Qed.

(** ** A market without a usable point value *)

Lemma sized_order_needs_point_value {rt : PyRuntime} (mk : json) (risk stop vpp : Q)
    (mode : string) :
  value_per_point mk = Ret vpp -> (vpp <= 0)%Q ->
  sized_order mk risk stop mode
  = Raise (RuntimeError "Cannot determine value-per-point from market.contractSize").
Proof.
  intros Hv Hle. unfold sized_order. rewrite Hv. cbn [mbind py_bind].
  apply f64_nonpos, Qle_bool_iff in Hle. rewrite Hle. reflexivity.
Qed.

(** X19 (trade_once.value_per_point, sized_order and run_loop): a market
    dict that shows no contract size, or one that is not a number, has the
    point value 0; with a point value of 0 or less [sized_order] raises
    RuntimeError, and the turn of the loop places no order and leaves the
    count of trades as it was. *)
Theorem no_point_value_no_order {rt : PyRuntime} (p : RunParams) (cfg : RiskGuardConfig)
    (w : ItemWorld) (item : Item) (st st' : RunState) (mk : json) (vpp : Q) (o : Outcome) :
  w_market w = Ret mk ->
  value_per_point mk = Ret vpp ->
  (vpp <= 0)%Q ->
  run_item p cfg w item st = Ret st' ->
  last (outcomes st') = Some o ->
  (forall risk stop mode, exists msg, sized_order mk risk stop mode = Raise (RuntimeError msg)) /\
  ~ reached_placement o /\
  run_trade_count st' = run_trade_count st /\
  (forall kv, assoc_get kv "instrument" = None -> value_per_point (JObj kv) = Ret 0%Q) /\
  (forall kv cs, assoc_get kv "contractSize" = Some (JStr cs) -> rt_float cs = None ->
                 value_per_point (JObj [("instrument", JObj kv)]) = Ret 0%Q).
Proof.
  intros Hmk Hv Hle Hrun Hlast.
  destruct (run_item_inv p cfg w item st st' Hrun) as (o' & recs & [Ho Hc] & _ & _ & _ & Hg).
  rewrite Ho, last_snoc in Hlast. injection Hlast as <-.
  assert (Hno : ~ reached_placement o').
  { intros Hr.
    destruct (Hg Hr)
      as (_ & _ & _ & _ & stop & size & _ & _ & (mk' & _ & _ & raw & Hmk' & _ & _ & _ & Hsz) & _).
    rewrite Hmk in Hmk'. injection Hmk' as <-.
    rewrite (sized_order_needs_point_value mk _ _ vpp _ Hv Hle) in Hsz. discriminate. }
  split; [|split; [exact Hno|split; [|split]]].
  - intros risk stop mode. eexists.
    apply (sized_order_needs_point_value mk risk stop vpp mode Hv Hle).
  - unfold reached_placement in Hno.
    destruct Hc as [[_ Hcount] | [(Ha & _) | (Ha & _)]]; [exact Hcount | |];
      exfalso; apply Hno; tauto.
  - intros kv Hk. unfold value_per_point, dget, dlookup. rewrite Hk. reflexivity.
  - intros kv cs Hk Hf.
    assert (Ht : truthy (JObj kv) = true) by (destruct kv; [discriminate | reflexivity]).
    unfold value_per_point, dget.
    cbn [dlookup mbind py_bind assoc_get String.eqb Ascii.eqb Bool.eqb default from_option id].
    unfold jor. rewrite Ht. cbn [dlookup mbind py_bind]. rewrite Hk.
    cbn [default from_option id py_float]. rewrite Hf. reflexivity.
Qed.

(** ** The reconciler: polling, matching, and the run it reconciles *)

Section Polling.
Import confirm_and_enrich.
Context {rt : PyRuntime}.

(** What a failed attempt leaves in [last]. *)
Lemma try_confirm_from_first (confirms : nat -> py json) (attempts k : nat) (last : json)
    (j : nat) (data : json) :
  (k <= j < k + attempts)%nat ->
  confirms j = Ret data -> is_confirmation data = true ->
  (forall i d, (k <= i < j)%nat -> confirms i = Ret d -> is_confirmation d = false) ->
  try_confirm_from confirms attempts k last = (true, data).
Proof.
  revert k last. induction attempts as [|n IH]; intros k last Hj Hd Hc Hbefore; [lia|].
  cbn [try_confirm_from].
  destruct (Nat.eq_dec k j) as [-> | Hne].
  - rewrite Hd, Hc. reflexivity.
  - destruct (confirms k) as [d|e] eqn:Hk.
    + rewrite (Hbefore k d) by (try exact Hk; lia).
      apply IH; try assumption; [lia|]. intros i d' Hi. apply Hbefore. lia.
    + apply IH; try assumption; [lia|]. intros i d' Hi. apply Hbefore. lia.
Qed.

Lemma try_confirm_from_true (confirms : nat -> py json) (attempts k : nat) (last data : json) :
  try_confirm_from confirms attempts k last = (true, data) ->
  exists j, (k <= j < k + attempts)%nat /\ confirms j = Ret data /\
            is_confirmation data = true /\
            forall i d, (k <= i < j)%nat -> confirms i = Ret d -> is_confirmation d = false.
Proof.
  revert k last. induction attempts as [|n IH]; intros k last H; [discriminate|].
  cbn [try_confirm_from] in H.
  destruct (confirms k) as [d|e] eqn:Hk.
  - destruct (is_confirmation d) eqn:Hc.
    + injection H as <-. exists k. repeat split; try assumption; try lia.
    + destruct (IH _ _ H) as (j & Hj & Hd & Hcj & Hbefore).
      exists j. repeat split; try assumption; try lia.
      intros i d' Hi Hid. destruct (Nat.eq_dec i k) as [-> | Hne].
      * rewrite Hk in Hid. injection Hid as <-. exact Hc.
      * apply (Hbefore i d'); [lia | exact Hid].
  - destruct (IH _ _ H) as (j & Hj & Hd & Hcj & Hbefore).
    exists j. repeat split; try assumption; try lia.
    intros i d' Hi Hid. destruct (Nat.eq_dec i k) as [-> | Hne].
    * rewrite Hk in Hid. discriminate.
    * apply (Hbefore i d'); [lia | exact Hid].
Qed.

Lemma try_confirm_from_false (confirms : nat -> py json) (attempts k : nat) (last out : json) :
  try_confirm_from confirms attempts k last = (false, out) ->
  out = match attempts with
        | O => jor last (JObj [("error", JStr "confirm_failed")])
        | S n =>
            match confirms (k + n)%nat with
            | Ret data => JObj [("error", JStr "unexpected_response"); ("raw", data)]
            | Raise e => JObj [("error", JStr (rt_exn_str e))]
            end
        end.
Proof.
  revert k last. induction attempts as [|n IH]; intros k last H.
  - injection H as <-. reflexivity.
  - cbn [try_confirm_from] in H.
    destruct (confirms k) as [d|e] eqn:Hk.
    + destruct (is_confirmation d); [discriminate|].
      apply IH in H. destruct n as [|m].
      * rewrite Nat.add_0_r, Hk. exact H.
      * rewrite H. replace (k + S m)%nat with (S k + m)%nat by lia. reflexivity.
    + apply IH in H. destruct n as [|m].
      * rewrite Nat.add_0_r, Hk. exact H.
      * rewrite H. replace (k + S m)%nat with (S k + m)%nat by lia. reflexivity.
Qed.

End Polling.

(** X20 (confirm_and_enrich.try_confirm): polling succeeds iff one of the
    [attempts] answers is a dict with a dealId or a dealStatus, and then
    returns the first such answer; when none is, it returns False with the
    error of the last attempt (the exception text, or unexpected_response
    with the raw answer), and with no attempt at all the error
    confirm_failed. *)
Theorem try_confirm_first_confirmation {rt : PyRuntime} (confirms : nat -> py json)
    (attempts : nat) (data : json) :
  (confirm_and_enrich.try_confirm confirms attempts = (true, data) <->
   exists j, (j < attempts)%nat /\ confirms j = Ret data /\
             confirm_and_enrich.is_confirmation data = true /\
             forall i d, (i < j)%nat -> confirms i = Ret d ->
                         confirm_and_enrich.is_confirmation d = false) /\
  (confirm_and_enrich.try_confirm confirms attempts = (false, data) ->
   data = match attempts with
          | O => JObj [("error", JStr "confirm_failed")]
          | S n =>
              match confirms n with
              | Ret raw => JObj [("error", JStr "unexpected_response"); ("raw", raw)]
              | Raise e => JObj [("error", JStr (rt_exn_str e))]
              end
          end).
Proof.
  unfold confirm_and_enrich.try_confirm. split; [split|].
  - intros H. destruct (try_confirm_from_true _ _ _ _ _ H) as (j & Hj & Hd & Hc & Hb).
    exists j. repeat split; try assumption; [lia|]. intros i d Hi. apply Hb. lia.
  - intros (j & Hj & Hd & Hc & Hb).
    apply (try_confirm_from_first confirms attempts 0 JNull j data); try assumption; [lia|].
    intros i d Hi. apply Hb. lia.
  - intros H. apply try_confirm_from_false in H. exact H.
Qed.

Lemma head_insert_by {A} (before : A -> A -> bool) (x : A) (l : list A) :
  head (confirm_and_enrich.insert_by before x l)
  = Some (match head l with
          | Some y => if before y x then y else x
          | None => x
          end).
Proof.
  destruct l as [|y l]; [reflexivity|]. cbn [confirm_and_enrich.insert_by head].
  destruct (before y x); reflexivity.
Qed.

(** The head of the stable sort by a rational key is a least element. *)
Lemma head_sort_least {A} (key : A -> Q) (l : list A) (p : A) :
  head (confirm_and_enrich.stable_sort (fun y x => Qltb (key y) (key x)) l) = Some p ->
  In p l /\ forall q, In q l -> (key p <= key q)%Q.
Proof.
  revert p. induction l as [|x l IH]; intros p H; [discriminate|].
  cbn [confirm_and_enrich.stable_sort foldr] in H. rewrite head_insert_by in H.
  fold (confirm_and_enrich.stable_sort (fun y x => Qltb (key y) (key x)) l) in H.
  destruct (head (confirm_and_enrich.stable_sort _ l)) as [y|] eqn:Hy.
  - destruct (IH y eq_refl) as [Hin Hleast].
    destruct (Qltb (key y) (key x)) eqn:E; injection H as <-.
    + apply Qltb_lt in E. split; [right; exact Hin|].
      intros q [<- | Hq]; [lra | apply Hleast; exact Hq].
    + apply Qltb_ge in E. split; [left; reflexivity|].
      intros q [<- | Hq]; [lra|]. specialize (Hleast q Hq). lra.
  - injection H as <-. split; [left; reflexivity|].
    intros q [<- | Hq]; [lra|].
    destruct l as [|z l]; [destruct Hq|].
    cbn [confirm_and_enrich.stable_sort foldr] in Hy. rewrite head_insert_by in Hy.
    discriminate.
Qed.

(** The head of the stable sort by a descending integer key is a greatest
    element. *)
Lemma head_sort_greatest {A} (key : A -> Z) (l : list A) (p : A) :
  head (confirm_and_enrich.stable_sort (fun y x => key x <? key y) l) = Some p ->
  In p l /\ forall q, In q l -> key q <= key p.
Proof.
  revert p. induction l as [|x l IH]; intros p H; [discriminate|].
  cbn [confirm_and_enrich.stable_sort foldr] in H. rewrite head_insert_by in H.
  fold (confirm_and_enrich.stable_sort (fun y x => key x <? key y) l) in H.
  destruct (head (confirm_and_enrich.stable_sort _ l)) as [y|] eqn:Hy.
  - destruct (IH y eq_refl) as [Hin Hgreatest].
    destruct (key x <? key y) eqn:E; injection H as <-.
    + apply Z.ltb_lt in E. split; [right; exact Hin|].
      intros q [<- | Hq]; [lia | apply Hgreatest; exact Hq].
    + apply Z.ltb_ge in E. split; [left; reflexivity|].
      intros q [<- | Hq]; [lia|]. specialize (Hgreatest q Hq). lia.
  - injection H as <-. split; [left; reflexivity|].
    intros q [<- | Hq]; [lia|].
    destruct l as [|z l]; [destruct Hq|].
    cbn [confirm_and_enrich.stable_sort foldr] in Hy. rewrite head_insert_by in Hy.
    discriminate.
Qed.

(** X21 (confirm_and_enrich.pick_match): the position picked is one of the
    open positions with the epic and direction of the order; none is picked
    iff there is no such position.  With a size hint the pick is a
    candidate whose size is closest to the hint; without one it is a
    candidate created latest, and candidates whose creation times mix
    zone-aware and naive values raise TypeError. *)
Theorem pick_match_sound {rt : PyRuntime} (positions : list confirm_and_enrich.position)
    (epic : option string) (direction : string) (size_hint : option Q) :
  (forall p, confirm_and_enrich.pick_match positions epic direction size_hint = Ret (Some p) ->
     In p positions /\ is_candidate epic direction p = true /\
     (forall h q, size_hint = Some h -> In q positions -> is_candidate epic direction q = true ->
        (Qabs (confirm_and_enrich.size_or0 p - h)
         <= Qabs (confirm_and_enrich.size_or0 q - h))%Q) /\
     (forall q, size_hint = None -> In q positions -> is_candidate epic direction q = true ->
        confirm_and_enrich.dt_value (confirm_and_enrich.ts q)
        <= confirm_and_enrich.dt_value (confirm_and_enrich.ts p))) /\
  (confirm_and_enrich.pick_match positions epic direction size_hint = Ret None <->
   forall q, In q positions -> is_candidate epic direction q = false) /\
  (forall a n, size_hint = None ->
     In a positions -> is_candidate epic direction a = true ->
     In n positions -> is_candidate epic direction n = true ->
     confirm_and_enrich.is_aware (confirm_and_enrich.ts a) = true ->
     confirm_and_enrich.is_aware (confirm_and_enrich.ts n) = false ->
     confirm_and_enrich.pick_match positions epic direction size_hint = Raise TypeError).
Proof.
  unfold confirm_and_enrich.pick_match. cbv zeta.
  fold (is_candidate epic direction).
  set (cands := List.filter (is_candidate epic direction) positions).
  assert (Hc : forall q, In q cands <-> In q positions /\ is_candidate epic direction q = true)
    by (intros q; apply filter_In).
  split; [|split].
  - intros p H. destruct cands as [|c0 cs] eqn:Hcs; [discriminate|]. rewrite <- Hcs in *.
    destruct size_hint as [h|].
    + injection H as H. apply head_sort_least in H as [Hin Hleast].
      apply Hc in Hin as [Hin Hcand]. repeat split; try assumption; [|discriminate].
      intros h' q [= <-] Hq Hqc. apply Hleast. apply Hc. split; assumption.
    + destruct (_ && _)%bool; [discriminate|]. injection H as H.
      apply head_sort_greatest in H as [Hin Hgreatest].
      apply Hc in Hin as [Hin Hcand]. repeat split; try assumption; [discriminate|].
      intros q _ Hq Hqc. apply Hgreatest. apply Hc. split; assumption.
  - destruct cands as [|c0 cs] eqn:Hcs.
    + split; [|reflexivity]. intros _ q Hq.
      destruct (is_candidate epic direction q) eqn:E; [|reflexivity].
      exfalso. apply (proj2 (Hc q)). split; assumption.
    + split.
      * intros H. exfalso. destruct size_hint as [h|].
        -- injection H as H. cbn [confirm_and_enrich.stable_sort foldr] in H.
           rewrite head_insert_by in H. discriminate.
        -- destruct (_ && _)%bool; [discriminate|]. injection H as H.
           cbn [confirm_and_enrich.stable_sort foldr] in H.
           rewrite head_insert_by in H. discriminate.
      * intros Hnone. exfalso.
        assert (Hin : In c0 (c0 :: cs)) by (left; reflexivity).
        apply Hc in Hin as [Hin Hcand]. rewrite (Hnone c0 Hin) in Hcand. discriminate.
  - intros a n -> Ha Hac Hn Hnc Haw Hnv.
    assert (Hain : In a cands) by (apply Hc; split; assumption).
    assert (Hnin : In n cands) by (apply Hc; split; assumption).
    destruct cands as [|c0 cs] eqn:Hcs; [destruct Hain|]. rewrite <- Hcs in *.
    assert (Hlen : Nat.ltb 1 (length cands) = true).
    { apply Nat.ltb_lt. rewrite Hcs in *. destruct cs as [|c1 cs]; cbn [length]; [|lia].
      exfalso. destruct Hain as [<- | []]. destruct Hnin as [<- | []]. congruence. }
    assert (Hall : forallb (fun p => confirm_and_enrich.is_aware (confirm_and_enrich.ts p))
                     cands = false).
    { apply not_true_iff_false. intros Hall. rewrite forallb_forall in Hall.
      specialize (Hall n Hnin). congruence. }
    assert (Hnone : forallb (fun p => negb (confirm_and_enrich.is_aware
                                            (confirm_and_enrich.ts p))) cands = false).
    { apply not_true_iff_false. intros Hall'. rewrite forallb_forall in Hall'.
      specialize (Hall' a Hain). rewrite Haw in Hall'. discriminate. }
    rewrite Hlen, Hall, Hnone. reflexivity.
Qed.

Section Reconciled.
Import confirm_and_enrich.
Context {rt : PyRuntime}.

Lemma write_log_row_record (log : option csv_file) (row : list (string * json)) :
  exists rec : list string,
    write_log_row log row = (default [] log ++ [rec])%list /\ length rec = 26%nat.
Proof.
  unfold write_log_row. eexists. split; [reflexivity|].
  unfold csv_record. rewrite length_map. reflexivity.
Qed.

Lemma reconcile_row_record (w : World) (run_id : string) (i : nat)
    (r : gmap string string) (st st' : LoopState) :
  reconcile_row w run_id i r st = Ret st' ->
  exists rec : list string,
    ls_log st' = Some (default [] (ls_log st) ++ [rec])%list /\ length rec = 26%nat.
Proof.
  unfold reconcile_row.
  destruct (try_confirm _ 6) as [[|] data].
  - destruct (dget data "dealStatus"); cbn [mbind py_bind]; [|discriminate].
    destruct (dget data "dealId"); cbn [mbind py_bind]; [|discriminate].
    destruct (dget data "dealReference"); cbn [mbind py_bind]; [|discriminate].
    destruct (dget data "reason"); cbn [mbind py_bind]; [|discriminate].
    destruct (dget data "level"); cbn [mbind py_bind]; [|discriminate].
    destruct (dget data "size"); cbn [mbind py_bind]; [|discriminate].
    destruct (dget data "stopLevel"); cbn [mbind py_bind]; [|discriminate].
    destruct (dget data "limitLevel"); cbn [mbind py_bind]; [|discriminate].
    intros [= <-]. cbn [ls_log].
    match goal with
    | |- context [write_log_row ?l ?row] =>
        destruct (write_log_row_record l row) as (rec & -> & Hlen)
    end.
    exists rec. split; [reflexivity | exact Hlen].
  - destruct (match positions_cache st with Some ps => Ret ps | None => _ end) as [cache|e];
      cbn [mbind py_bind]; [|discriminate].
    destruct (pick_match _ _ _ _) as [[p|]|e]; cbn [mbind py_bind]; [| |discriminate].
    + intros [= <-]. cbn [ls_log].
      match goal with
      | |- context [write_log_row ?l ?row] =>
          destruct (write_log_row_record l row) as (rec & -> & Hlen)
      end.
      exists rec. split; [reflexivity | exact Hlen].
    + destruct (dget data "error"); cbn [mbind py_bind]; [|discriminate].
      intros [= <-]. cbn [ls_log].
      match goal with
      | |- context [write_log_row ?l ?row] =>
          destruct (write_log_row_record l row) as (rec & -> & Hlen)
      end.
      exists rec. split; [reflexivity | exact Hlen].
Qed.

Lemma reconcile_from_records (w : World) (run_id : string) (sent : list (gmap string string))
    (i : nat) (st st' : LoopState) :
  reconcile_from w run_id i sent st = Ret st' ->
  exists recs : list (list string),
    default [] (ls_log st') = (default [] (ls_log st) ++ recs)%list /\
    length recs = length sent /\
    Forall (fun rec => length rec = 26%nat) recs.
Proof.
  revert i st. induction sent as [|r sent IH]; intros i st; cbn [reconcile_from].
  - intros [= <-]. exists []. rewrite app_nil_r. repeat split. constructor.
  - destruct (reconcile_row w run_id i r st) as [st1|e] eqn:Hrow; cbn [mbind py_bind];
      [|discriminate].
    intros Hrest. destruct (reconcile_row_record _ _ _ _ _ _ Hrow) as (rec & Hrec & H26).
    destruct (IH _ _ Hrest) as (recs & Hrecs & Hlen & Hall).
    exists (rec :: recs). rewrite Hrecs, Hrec. cbn [default from_option id].
    rewrite <- app_assoc. split; [reflexivity|]. split; [simpl; lia|].
    constructor; assumption.
Qed.

End Reconciled.

(** ** The fallback record, read back *)

(** The cell of a column is the cell at the position of the column. *)
Lemma csv_get_lookup (fields cells : list string) (k : string) (i : nat) :
  NoDup fields -> fields !! i = Some k -> csv_get fields cells k = cells !! i.
Proof.
  revert cells i. induction fields as [|f fields IH]; intros cells i Hnd Hi; [discriminate|].
  apply NoDup_cons in Hnd as [Hnot Hnd].
  destruct i as [|i]; cbn in Hi.
  - injection Hi as ->. destruct cells as [|c cells]; [reflexivity|].
    cbn [csv_get]. rewrite String.eqb_refl. reflexivity.
  - assert (Hne : f <> k).
    { intros ->. apply Hnot. apply list_elem_of_lookup. exists i. exact Hi. }
    destruct cells as [|c cells]; cbn [csv_get].
    + destruct fields; reflexivity.
    + apply String.eqb_neq in Hne. rewrite Hne. exact (IH cells i Hnd Hi).
Qed.

Lemma reconciler_LOG_FIELDS_NoDup : NoDup confirm_and_enrich.LOG_FIELDS.
Proof. apply (bool_decide_unpack _). vm_compute. reflexivity. Qed.

(** A record laid out by the 26 columns of the reconciler, read under the
    33-column header of the ledger: the columns "event" and "payload_json"
    of the header lie beyond its last cell, and what the reconciler wrote as
    event, status and payload stands under "stop_points", "limit_points"
    and "size_final". *)
Lemma misfiled_record (rec : list string) :
  length rec = 26%nat ->
  let row := zip_row LOG_FIELDS rec ∅ in
  row !! "event" = None /\ row !! "payload_json" = None /\
  row !! "stop_points" = csv_get confirm_and_enrich.LOG_FIELDS rec "event" /\
  row !! "limit_points" = csv_get confirm_and_enrich.LOG_FIELDS rec "status" /\
  row !! "size_final" = csv_get confirm_and_enrich.LOG_FIELDS rec "payload_json".
Proof.
  intros Hlen row. unfold row. rewrite !zip_row_cell. unfold cell.
  rewrite (csv_get_lookup LOG_FIELDS rec "event" 28 LOG_FIELDS_NoDup eq_refl).
  rewrite (csv_get_lookup LOG_FIELDS rec "payload_json" 32 LOG_FIELDS_NoDup eq_refl).
  rewrite (csv_get_lookup LOG_FIELDS rec "stop_points" 21 LOG_FIELDS_NoDup eq_refl).
  rewrite (csv_get_lookup LOG_FIELDS rec "limit_points" 22 LOG_FIELDS_NoDup eq_refl).
  rewrite (csv_get_lookup LOG_FIELDS rec "size_final" 25 LOG_FIELDS_NoDup eq_refl).
  rewrite (csv_get_lookup confirm_and_enrich.LOG_FIELDS rec "event" 21
             reconciler_LOG_FIELDS_NoDup eq_refl).
  rewrite (csv_get_lookup confirm_and_enrich.LOG_FIELDS rec "status" 22
             reconciler_LOG_FIELDS_NoDup eq_refl).
  rewrite (csv_get_lookup confirm_and_enrich.LOG_FIELDS rec "payload_json" 25
             reconciler_LOG_FIELDS_NoDup eq_refl).
  repeat split; apply lookup_ge_None; lia.
Qed.

(** The last row [csv.DictReader] yields is the last record, under the
    header. *)
Lemma last_row_read_back (hdr : list string) (recs : list (list string)) (rec : list string) :
  rec <> [] -> last (csv_DictReader (hdr :: recs ++ [rec])) = Some (zip_row hdr rec ∅).
Proof.
  intros Hrec. cbn [csv_DictReader]. rewrite List.filter_app, map_app. cbn [List.filter].
  destruct rec; [contradiction|]. cbn [is_blank negb map]. apply last_snoc.
Qed.

(** C3.  When none of the six confirmation attempts for the deal reference
    succeeds and exactly one open position has the epic and direction of
    the ORDER_SENT row, the reconciler appends one record and leaves the
    records the ledger held where they were.  The record is laid out by
    the 26 columns of [confirm_and_enrich.LOG_FIELDS]; counted by those
    columns its event is CONFIRM_FALLBACK_OK and its payload the dict of
    the position, deal id included.  The ledger is headed by the 33 columns
    [trade_once.ensure_log] writes, and every reader, the reconciler's own
    [read_log_rows] included, names the cells by that header: the row read
    back has no event and no payload_json, CONFIRM_FALLBACK_OK stands
    under stop_points and the position under size_final.  In the example
    no row of the reconciled ledger has the event CONFIRM_FALLBACK_OK. *)
Theorem C3_fallback_record_misfiled :
  (forall (rt : PyRuntime) (w : confirm_and_enrich.World) (run_id : string) (i : nat)
          (r : gmap string string) (recs : list (list string))
          (pc : option (list confirm_and_enrich.position))
          (cache : list confirm_and_enrich.position) (p : confirm_and_enrich.position),
      let st := {| confirm_and_enrich.ls_log := Some (LOG_FIELDS :: recs);
                   confirm_and_enrich.positions_cache := pc |} in
      (forall k data, (k < 6)%nat ->
         confirm_and_enrich.e_confirms w i (get_or_empty r "dealReference") k = Ret data ->
         confirm_and_enrich.is_confirmation data = false) ->
      pc = Some cache \/
      (pc = None /\
       confirm_and_enrich.load_positions (confirm_and_enrich.e_positions w) = Ret cache) ->
      List.filter
        (fun q => confirm_and_enrich.epic_eq (confirm_and_enrich.pos_epic q) (r !! "epic")
                  && String.eqb (confirm_and_enrich.pos_direction q)
                                (upper (get_or_empty r "signal")))%bool
        cache = [p] ->
      exists (rec : list string) (row : gmap string string),
        confirm_and_enrich.reconcile_row w run_id i r st
        = Ret {| confirm_and_enrich.ls_log := Some (LOG_FIELDS :: recs ++ [rec])%list;
                 confirm_and_enrich.positions_cache := Some cache |} /\
        csv_get confirm_and_enrich.LOG_FIELDS rec "event" = Some "CONFIRM_FALLBACK_OK" /\
        csv_get confirm_and_enrich.LOG_FIELDS rec "payload_json"
        = Some (rt_json_dumps (confirm_and_enrich.position_dict p)) /\
        dget (confirm_and_enrich.position_dict p) "dealId"
        = Ret (confirm_and_enrich.pos_dealId p) /\
        last (confirm_and_enrich.read_log_rows (Some (LOG_FIELDS :: recs ++ [rec])%list))
        = Some row /\
        row !! "event" = None /\
        row !! "payload_json" = None /\
        row !! "stop_points" = Some "CONFIRM_FALLBACK_OK" /\
        row !! "size_final" = Some (rt_json_dumps (confirm_and_enrich.position_dict p)))
  /\
  (forall (rt : PyRuntime) (w : confirm_and_enrich.World) (run_id_arg : option string)
          (log log' : option csv_file),
      confirm_and_enrich.main w run_id_arg log = Ret log' ->
      exists recs : list (list string),
        default [] log' = (default [] log ++ recs)%list /\
        forall (j : nat) (rec : list string),
          default [] log !! j = Some rec -> default [] log' !! j = Some rec)
  /\
  (exists final : csv_file,
      confirm_and_enrich.main (rt := Reference.runtime) unconfirmed None ledger_sent
      = Ret (Some final) /\
      length final = 3%nat /\
      (r ← last (confirm_and_enrich.read_log_rows (Some final));
       Some (r !! "event", r !! "payload_json", r !! "stop_points"))
      = Some (None, None, Some "CONFIRM_FALLBACK_OK") /\
      List.filter (fun r => String.eqb (get_or_empty r "event") "CONFIRM_FALLBACK_OK")
                  (confirm_and_enrich.read_log_rows (Some final)) = []).
Proof.
  split; [|split].
  - intros rt w run_id i r recs pc cache p st Hnone Hcache Hone.
    destruct (fallback_record w run_id i r st cache p Hnone Hcache Hone)
      as (rec & Hrow & Hev & _ & Hpay & Hid).
    assert (Hlen : length rec = 26%nat).
    { destruct (reconcile_row_record w run_id i r st _ Hrow) as (rec' & Hrec' & H26).
      cbn [confirm_and_enrich.ls_log st default from_option id] in Hrec'.
      injection Hrec' as Hrec'. apply app_inj_tail in Hrec' as [_ <-]. exact H26. }
    destruct (misfiled_record rec Hlen) as (Hnoev & Hnopay & Hstop & _ & Hsize).
    exists rec, (zip_row LOG_FIELDS rec ∅).
    split; [exact Hrow|]. split; [exact Hev|]. split; [exact Hpay|]. split; [exact Hid|].
    split.
    { cbn [confirm_and_enrich.read_log_rows]. apply last_row_read_back.
      intros ->. discriminate Hlen. }
    split; [exact Hnoev|]. split; [exact Hnopay|].
    split; [rewrite Hstop; exact Hev | rewrite Hsize; exact Hpay].
  - intros rt. apply main_only_appends.
  - eexists. split; [vm_compute; reflexivity|].
    split; [reflexivity|]. split; vm_compute; reflexivity.
Qed.

(** X22 (confirm_and_enrich.main): the reconciler leaves the ledger as it
    is when it holds no row or no run id can be chosen; otherwise it keeps
    what the ledger held and appends exactly one record of 26 cells for
    each ORDER_SENT row of the chosen run: the run of [--run-id] when that
    is given, else the latest run with an ORDER_SENT row. *)
Theorem reconciler_one_record_per_order {rt : PyRuntime} (w : confirm_and_enrich.World)
    (run_id_arg : option string) (log log' : option csv_file) :
  confirm_and_enrich.main w run_id_arg log = Ret log' ->
  let rows := confirm_and_enrich.read_log_rows log in
  let chosen :=
    match run_id_arg with
    | Some a => if String.eqb a "" then confirm_and_enrich.latest_run_id rows else Some a
    | None => confirm_and_enrich.latest_run_id rows
    end in
  (rows = [] \/ chosen = None -> log' = log) /\
  (forall run_id, rows <> [] -> chosen = Some run_id ->
     exists recs : list (list string),
       default [] log' = (default [] log ++ recs)%list /\
       length recs
       = length (List.filter
                   (fun r => confirm_and_enrich.is_sent_row r &&
                             bool_decide (r !! "run_id" = Some run_id))%bool rows) /\
       Forall (fun rec => length rec = 26%nat) recs).
Proof.
  intros Hmain rows chosen. unfold confirm_and_enrich.main in Hmain. cbv zeta in Hmain.
  fold rows in Hmain.
  assert (Hchosen :
    match match run_id_arg with
          | Some a => if String.eqb a "" then None else Some a
          | None => None
          end with
    | Some a => Some a
    | None => confirm_and_enrich.latest_run_id rows
    end = chosen).
  { unfold chosen. destruct run_id_arg as [a|]; [|reflexivity].
    destruct (String.eqb a ""); reflexivity. }
  rewrite Hchosen in Hmain. clearbody chosen. clear Hchosen.
  destruct rows as [|r0 rows'] eqn:Hrows.
  { injection Hmain as <-. split; [reflexivity|]. intros run_id Hne. congruence. }
  rewrite <- Hrows in *.
  destruct chosen as [run_id|].
  2:{ injection Hmain as <-. split; [reflexivity|]. intros run_id _ H. discriminate. }
  split.
  { intros [H | H]; [rewrite Hrows in H|]; discriminate. }
  intros run_id' _ [= <-].
  destruct (confirm_and_enrich.reconcile_from w run_id 0 _ _) as [st'|e] eqn:Hloop;
    cbn [mbind py_bind] in Hmain; [|discriminate].
  injection Hmain as <-.
  destruct (reconcile_from_records _ _ _ _ _ _ Hloop) as (recs & Hrecs & Hlen & Hall).
  exists recs. split; [exact Hrecs|]. split; [|exact Hall].
  rewrite Hlen. f_equal. apply filter_ext. intros r. f_equal.
  destruct (r !! "run_id") as [i|].
  - destruct (String.eqb_spec i run_id) as [-> | Hne].
    + rewrite bool_decide_eq_true_2; reflexivity.
    + rewrite bool_decide_eq_false_2; [reflexivity | congruence].
  - rewrite bool_decide_eq_false_2; [reflexivity | discriminate].
Qed.

(** ** The latest run *)

Lemma str_le_refl (a : string) : str_le a a.
Proof.
  unfold str_le. replace (String.compare a a) with Eq; [discriminate|].
  symmetry. apply String_as_OT.cmp_eq. reflexivity.
Qed.

Lemma str_le_cases (a b : string) : str_le a b <-> a = b \/ String_as_OT.lt a b.
Proof.
  unfold str_le. rewrite <- String_as_OT.cmp_eq, <- String_as_OT.cmp_lt.
  unfold String_as_OT.cmp. destruct (String.compare a b); split.
  - intros _. left. reflexivity.
  - discriminate.
  - intros _. right. reflexivity.
  - discriminate.
  - intros H. exfalso. apply H. reflexivity.
  - intros [H | H]; discriminate H.
Qed.

Lemma str_le_trans (a b c : string) : str_le a b -> str_le b c -> str_le a c.
Proof.
  rewrite !str_le_cases. intros [-> | Hab] [-> | Hbc]; try tauto.
  right. exact (String_as_OT.lt_trans _ _ _ Hab Hbc).
Qed.

Lemma str_max_upper (a b : string) :
  str_le a (confirm_and_enrich.str_max a b) /\ str_le b (confirm_and_enrich.str_max a b) /\
  (confirm_and_enrich.str_max a b = a \/ confirm_and_enrich.str_max a b = b).
Proof.
  unfold confirm_and_enrich.str_max, str_le.
  pose proof (String.compare_antisym a b) as Hanti.
  pose proof (str_le_refl a) as Ha. pose proof (str_le_refl b) as Hb. unfold str_le in *.
  destruct (String.compare a b) eqn:E.
  - repeat split; [exact Ha | | left; reflexivity].
    rewrite String.compare_antisym, E. discriminate.
  - repeat split; [rewrite E; discriminate | exact Hb | right; reflexivity].
  - repeat split; [exact Ha | | left; reflexivity].
    rewrite String.compare_antisym, E. discriminate.
Qed.

Lemma fold_str_max (rest : list string) (i : string) :
  let m := fold_left confirm_and_enrich.str_max rest i in
  In m (i :: rest) /\ forall x, In x (i :: rest) -> str_le x m.
Proof.
  revert i. induction rest as [|y rest IH]; intros i; cbn [fold_left].
  - split; [left; reflexivity|]. intros x [<- | []]. apply str_le_refl.
  - destruct (IH (confirm_and_enrich.str_max i y)) as [Hin Hle]. cbv zeta in Hin, Hle.
    destruct (str_max_upper i y) as (Hi & Hy & Hor).
    split.
    + destruct Hin as [Hm | Hm]; [|right; right; exact Hm].
      rewrite <- Hm. destruct Hor as [-> | ->]; [left | right; left]; reflexivity.
    + intros x [<- | [<- | Hx]].
      * eapply str_le_trans; [exact Hi|]. apply Hle. left; reflexivity.
      * eapply str_le_trans; [exact Hy|]. apply Hle. left; reflexivity.
      * apply Hle. right. exact Hx.
Qed.

(** X23 (confirm_and_enrich.latest_run_id): the run the reconciler picks
    by default is the run id of an ORDER_SENT row of the ledger and no
    ORDER_SENT row has a later one in string order; there is none iff no
    ORDER_SENT row has a run id. *)
Theorem latest_run_id_is_latest (rows : list (gmap string string)) :
  (forall id, confirm_and_enrich.latest_run_id rows = Some id ->
     (exists r, In r rows /\ sent_run_id r = Some id) /\
     (forall r i, In r rows -> sent_run_id r = Some i -> str_le i id)) /\
  (confirm_and_enrich.latest_run_id rows = None <->
   forall r, In r rows -> sent_run_id r = None).
Proof.
  unfold confirm_and_enrich.latest_run_id. cbv zeta.
  fold sent_run_id. change (omap (fun r => sent_run_id r) rows) with (omap sent_run_id rows).
  assert (Hids : forall x, In x (omap sent_run_id rows)
                           <-> exists r, In r rows /\ sent_run_id r = Some x).
  { intros x. rewrite <- list_elem_of_In, list_elem_of_omap.
    split; intros (r & Hr & Hx); exists r; (split; [apply list_elem_of_In; exact Hr | exact Hx]). }
  destruct (omap sent_run_id rows) as [|i rest] eqn:Hid.
  - split; [intros id H; discriminate|]. split; [|reflexivity].
    intros _ r Hr. destruct (sent_run_id r) as [x|] eqn:Hx; [|reflexivity].
    exfalso. apply (proj2 (Hids x)). exists r. split; assumption.
  - split.
    + intros id [= <-]. destruct (fold_str_max rest i) as [Hin Hle]. cbv zeta in Hin, Hle.
      split; [apply Hids; exact Hin|].
      intros r x Hr Hx. apply Hle. apply Hids. exists r. split; assumption.
    + split; [discriminate|]. intros Hnone. exfalso.
      assert (Hin : In i (i :: rest)) by (left; reflexivity).
      apply Hids in Hin as (r & Hr & Hx). rewrite (Hnone r Hr) in Hx. discriminate.
Qed.

(** ** The sentiment result *)

Lemma substring_length_le (n : nat) (s : string) :
  (String.length (String.substring 0 n s) <= n)%nat.
Proof.
  revert s. induction n as [|n IH]; intros s.
  - destruct s; cbn; lia.
  - destruct s as [|c s]; cbn; [lia|]. specialize (IH s). lia.
Qed.

Lemma clamp_unit (x : Q) : (0 <= py_max 0 (py_min 1 x) <= 1)%Q.
Proof.
  unfold py_max, py_min.
  destruct (Qltb x 1) eqn:E1; [apply Qltb_lt in E1 | apply Qltb_ge in E1].
  - destruct (Qltb 0 x) eqn:E2; [apply Qltb_lt in E2 | apply Qltb_ge in E2]; lra.
  - destruct (Qltb 0 1) eqn:E2; [apply Qltb_lt in E2 | apply Qltb_ge in E2]; lra.
Qed.

Lemma sentiment_of_data_shape {rt : PyRuntime} (data r : json) :
  sentiment_of_data data = Ret r -> sentiment_result r.
Proof.
  unfold sentiment_of_data. cbv zeta.
  destruct (dget_d data "label" (JStr "neutral")) as [l|e]; cbn [mbind py_bind];
    [|discriminate].
  destruct (dget_d data "score" (JNum 0)) as [s|e]; cbn [mbind py_bind]; [|discriminate].
  destruct (py_float s) as [score|e]; cbn [mbind py_bind]; [|discriminate].
  destruct (dget_d data "explanation" (JStr "")) as [ex|e]; cbn [mbind py_bind];
    [|discriminate].
  intros [= <-]. eexists _, _, _. split; [reflexivity|].
  split; [|split; [apply clamp_unit | apply substring_length_le]].
  destruct (String.eqb_spec (lower (py_str l)) "bullish") as [-> | _]; [left; reflexivity|].
  destruct (String.eqb_spec (lower (py_str l)) "bearish") as [-> | _];
    [right; left; reflexivity|].
  destruct (String.eqb_spec (lower (py_str l)) "neutral") as [-> | _];
    right; right; reflexivity.
Qed.

(** X24 (sentiment_client.get_sentiment_for_price_action): the result is
    None, or a dict whose label is bullish, bearish or neutral, whose score
    lies from 0 to 1 and whose explanation has at most 400 characters.  It
    is None when the API key is missing or empty and when the request or
    the parsing raises; a result that is not None is never taken for a
    missing one by the gate of the loop, which reads a score from it. *)
Theorem sentiment_result_shape {rt : PyRuntime} (api_key : option string) (reply : py json) :
  let r := get_sentiment_for_price_action api_key reply in
  (r = JNull \/ sentiment_result r) /\
  (api_key = None \/ api_key = Some "" \/ (exists e, reply = Raise e) -> r = JNull) /\
  (sentiment_result r ->
   truthy r = true /\
   exists score, (dget_d r "score" (JNum 0) ≫= py_float) = Ret score /\ (0 <= score <= 1)%Q).
Proof.
  cbv zeta. split; [|split].
  - unfold get_sentiment_for_price_action.
    destruct api_key as [key|]; [|left; reflexivity].
    destruct (String.eqb key ""); [left; reflexivity|].
    destruct reply as [data|e]; cbn [mbind py_bind try_except]; [|left; reflexivity].
    destruct (sentiment_of_data data) as [r|e] eqn:Hr; [|left; reflexivity].
    right. exact (sentiment_of_data_shape data r Hr).
  - unfold get_sentiment_for_price_action.
    intros [-> | [-> | [e ->]]]; [reflexivity | reflexivity |].
    destruct api_key as [key|]; [|reflexivity].
    destruct (String.eqb key ""); reflexivity.
  - intros (label & expl & score & -> & _ & Hscore & _).
    split; [reflexivity|]. exists score. split; [reflexivity | exact Hscore].
Qed.

(** * Worked instances *)

Lemma ledger_read_back_witness :
  exists r : gmap string string,
    _read_csv_rows (Some (write_log (rt := Reference.runtime) ledger_80
                            (order_row (t_10h + 10 * US_PER_MIN) "FTSE 100" "ORDER_DRY" "20.00")))
    = (_read_csv_rows ledger_80 ++ [r])%list /\
    forall k, r !! k
              = if bool_decide (k ∈ LOG_FIELDS)
                then Some (logged_cell (rt := Reference.runtime)
                             (order_row (t_10h + 10 * US_PER_MIN) "FTSE 100" "ORDER_DRY" "20.00") k)
                else None.
Proof.
  apply (ledger_read_back (rt := Reference.runtime) ledger_80). reflexivity.
Defined.

Lemma logged_order_is_counted_witness :
  count_orders_today_instrument
    (Some (write_log (rt := Reference.runtime) ledger_80
             (order_row (t_10h + 10 * US_PER_MIN) "FTSE 100" "ORDER_DRY" "20.00")))
    (t_10h + 20 * US_PER_MIN) "FTSE 100"
  = count_orders_today_instrument ledger_80 (t_10h + 20 * US_PER_MIN) "FTSE 100" + 1.
Proof.
  apply (logged_order_is_counted (rt := Reference.runtime) ledger_80
           (order_row (t_10h + 10 * US_PER_MIN) "FTSE 100" "ORDER_DRY" "20.00")
           (t_10h + 10 * US_PER_MIN) (t_10h + 20 * US_PER_MIN) "FTSE 100" "ORDER_DRY");
    first [reflexivity | left; reflexivity | vm_compute; reflexivity].
Defined.

Lemma reconciler_record_is_no_order_witness :
  count_orders_today_total
    (Some (confirm_and_enrich.write_log_row (rt := Reference.runtime) ledger_80
             [("ts_utc", JStr (now_utc_iso (t_10h + US_PER_MIN))); ("name", JStr "FTSE 100");
              ("event", JStr "CONFIRM_OK")]))
    (t_10h + 20 * US_PER_MIN)
  = count_orders_today_total ledger_80 (t_10h + 20 * US_PER_MIN).
Proof.
  apply (reconciler_record_is_no_order (rt := Reference.runtime) ledger_80 _
           (t_10h + 20 * US_PER_MIN) "FTSE 100"). reflexivity.
Defined.

Lemma postsize_verdict_explained_witness :
  exists g : GuardResult,
    guard_postsize (rt := Reference.runtime) no_balance None (guards_with 100 0) ledger_80
                   (t_10h + 10 * US_PER_MIN) "FTSE 100" 25 = Ret g /\
    (ok g = true <-> reason g = "RG_DISABLED" \/ reason g = "RG2_OK").
Proof.
  eexists. split; [vm_compute; reflexivity|].
  apply (postsize_verdict_explained (rt := Reference.runtime) no_balance None
           (guards_with 100%Q 0) ledger_80 (t_10h + 10 * US_PER_MIN) "FTSE 100" 25%Q).
  vm_compute. reflexivity.
Defined.

Lemma loss_limit_needs_balance_witness :
  exists g : GuardResult,
    guard_postsize (rt := Reference.runtime) no_balance (Some None) (guards_day 0 50)
                   ledger_80 (t_10h + 10 * US_PER_MIN) "FTSE 100" 25 = Ret g /\
    reason g <> "BLOCK_DAILY_LOSS_LIMIT".
Proof.
  eexists. split; [vm_compute; reflexivity|].
  apply (loss_limit_needs_balance (rt := Reference.runtime) no_balance (Some None)
           (guards_day 0 50%Q) ledger_80 (t_10h + 10 * US_PER_MIN) "FTSE 100" 25%Q);
    [reflexivity | vm_compute; reflexivity].
Defined.

Lemma daily_loss_limit_iff_witness :
  blocks_with (rt := Reference.runtime) "BLOCK_DAILY_LOSS_LIMIT" (account 9940)
    (Some (Some (JObj [("baseline_balance_gbp", JNum 10000)])))
    (guards_day 0 50) ledger_80 (t_10h + 10 * US_PER_MIN) "FTSE 100" 25.
Proof.
  apply (proj1 (daily_loss_limit_iff (rt := Reference.runtime) (account 9940)
                  (Some (Some (JObj [("baseline_balance_gbp", JNum 10000)])))
                  (guards_day 0 50%Q) ledger_80 (t_10h + 10 * US_PER_MIN) "FTSE 100" 25%Q
                  [("trading_hours_enabled", JBool false)]
                  eq_refl eq_refl (or_introl eq_refl) (or_introl (Z.le_refl 0))
                  (or_introl (Qle_refl 0)))).
  split; [reflexivity|]. exists 10000%Q, 9940%Q, 60%Q.
  split; vm_compute; [reflexivity | discriminate].
Defined.

Lemma instrument_cap_iff_witness :
  blocks_with (rt := Reference.runtime) "BLOCK_MAX_TRADES_PER_DAY_INSTRUMENT" no_balance None
    (guards_day 1 0) ledger_80 (t_10h + 10 * US_PER_MIN) "FTSE 100" 25.
Proof.
  apply (proj1 (instrument_cap_iff (rt := Reference.runtime) no_balance None
                  (guards_day 1 0%Q) ledger_80 (t_10h + 10 * US_PER_MIN) "FTSE 100" 25%Q
                  [("trading_hours_enabled", JBool false)] eq_refl eq_refl)).
  split; vm_compute; discriminate.
Defined.

Lemma preflight_verdict_witness :
  ok (guard_preflight (Ret (JObj [("positions", JArr [])])) cfg_cap3 2) = true.
Proof.
  apply (proj2 (proj1 (preflight_verdict (Ret (JObj [("positions", JArr [])])) cfg_cap3 2
                         eq_refl))).
  split; right; vm_compute; reflexivity.
Defined.

Lemma trading_window_same_day_witness :
  exists (inside : bool) (wmeta : list (string * json)),
    in_trading_window (rt := Reference.runtime) (utc_window "08:00" "16:30") t_10h
    = Ret (inside, wmeta) /\
    (inside = true <->
       clock_time 8 0
       <= time_of_day (local_wall (rt := Reference.runtime) "UTC" t_10h)
       <= clock_time 16 30) /\
    (clock_time 16 30 < time_of_day (local_wall (rt := Reference.runtime) "UTC" t_10h) ->
     inside = false).
Proof.
  apply (trading_window_same_day (rt := Reference.runtime) (utc_window "08:00" "16:30")
           {| th_enabled := true; th_timezone := "UTC";
              th_start := "08:00"; th_end := "16:30" |} t_10h 8 0 16 30);
    first [reflexivity | lia | vm_compute; discriminate].
Defined.

Lemma window_out_of_range_raises_witness :
  in_trading_window (rt := Reference.runtime) (utc_window "08:00" "24:00") t_10h
  = Raise ValueError.
Proof.
  apply (window_out_of_range_raises (rt := Reference.runtime) (utc_window "08:00" "24:00")
           {| th_enabled := true; th_timezone := "UTC";
              th_start := "08:00"; th_end := "24:00" |} t_10h 8 0 24 0);
    first [reflexivity | lia].
Defined.

Lemma baseline_round_trip_witness :
  ensure_daily_baseline_and_loss (rt := Reference.runtime) (account 9940)
    (baseline_after (rt := Reference.runtime) (account 10000) None "2025-08-12T08:00:00+00:00")
  = (Some 10000%Q, Some 9940%Q, Some (py_max 0 (10000 - 9940))).
Proof.
  apply (baseline_round_trip (rt := Reference.runtime) (account 10000) (account 9940)
           10000%Q 9940%Q "2025-08-12T08:00:00+00:00" ""); reflexivity.
Defined.

Lemma run_item_turn_witness :
  exists (o : Outcome) (recs : list (list string)),
    outcomes dry_turn = (outcomes fresh ++ [o])%list /\
    instrument o = item_name ftse_item /\
    st_log dry_turn = Some (ensure_log (st_log fresh) ++ recs)%list /\
    (length recs = 1 \/ length recs = 2)%nat /\
    run_trade_count dry_turn
    = run_trade_count fresh
      + (if (String.eqb (action o) "ORDER_SENT"
             || String.eqb (action o) "ORDER_DRY"
                && rg_count_dry_as_trade (guards_with 0 0))%bool
         then 1 else 0) /\
    (action o = "ORDER_SENT" -> live_flag params = true) /\
    (action o = "ORDER_DRY" -> live_flag params = false).
Proof.
  apply (run_item_turn (rt := Reference.runtime) params (guards_with 0 0) (world (JNum 0))
           ftse_item fresh dry_turn).
  vm_compute. reflexivity.
Defined.

Lemma orders_pass_every_gate_witness :
  action dry_outcome = "ORDER_DRY" /\
  gates_passed (rt := Reference.runtime) params (guards_with 0 0) (world (JNum 0))
               ftse_item fresh dry_turn dry_outcome.
Proof.
  split; [reflexivity|].
  apply (proj1 (orders_pass_every_gate (rt := Reference.runtime) params (guards_with 0 0)
                  (world (JNum 0)) ftse_item fresh dry_turn dry_outcome
                  ltac:(vm_compute; reflexivity) ltac:(vm_compute; reflexivity))).
  left. reflexivity.
Defined.

Lemma per_run_cap_holds_witness :
  run_trade_count capped_run <= rg_max_trades_per_run guards_run1.
Proof.
  apply (per_run_cap_holds (rt := Reference.runtime) params guards_run1 watch_twice
           fresh capped_run);
    first [reflexivity | vm_compute; reflexivity | vm_compute; discriminate].
Defined.

Lemma run_items_summary_witness :
  exists (os : list Outcome) (recs : list (list string)),
    outcomes capped_run = (outcomes fresh ++ os)%list /\
    map instrument os = map (fun iw => item_name (fst iw)) watch_twice /\
    ensure_log (st_log capped_run) = (ensure_log (st_log fresh) ++ recs)%list /\
    (length watch_twice <= length recs <= 2 * length watch_twice)%nat.
Proof.
  apply (run_items_summary (rt := Reference.runtime) params guards_run1 watch_twice
           fresh capped_run).
  vm_compute. reflexivity.
Defined.

Lemma dry_run_ignores_broker_witness :
  run_item (rt := Reference.runtime) params (guards_with 0 0)
           (with_broker (world (JNum 0)) (fun _ => Ret (JObj [("dealReference", JStr "R1")])))
           ftse_item fresh
  = run_item (rt := Reference.runtime) params (guards_with 0 0)
             (with_broker (world (JNum 0)) (fun _ => Raise (HTTPError 500 "")))
             ftse_item fresh.
Proof.
  apply (dry_run_ignores_broker (rt := Reference.runtime) params (guards_with 0 0)
           (world (JNum 0)) ftse_item fresh). reflexivity.
Defined.

Lemma rsi_in_range_witness :
  rsi_at_15 = NaN \/ exists q, rsi_at_15 = Fin q /\ (0 <= q <= 100)%Q.
Proof.
  apply (proj2 (proj1 (rsi_in_range drop_then_rise 14 15 rsi_at_15))).
  vm_compute. reflexivity.
Defined.

Lemma sma_defined_iff_witness :
  (20 <= 24 + 1)%nat /\
  exists xs : list Q,
    window 20 24 rising = map Some xs /\ length xs = 20%nat /\
    rising_sma20 = (Qsum xs / inject_Z (Z.of_nat 20))%Q.
Proof.
  apply (proj1 (sma_defined_iff rising 20 24 rising_sma20
                  ltac:(lia) ltac:(vm_compute; lia))).
  vm_compute. reflexivity.
Defined.

Lemma no_point_value_no_order_witness :
  run_trade_count bare_turn = run_trade_count fresh.
Proof.
  apply (no_point_value_no_order (rt := Reference.runtime) params (guards_with 0 0)
           bare_world ftse_item fresh bare_turn
           (JObj [("instrument", JObj [("name", JStr "FTSE 100")])]) 0%Q bare_outcome);
    first [reflexivity | vm_compute; reflexivity | vm_compute; discriminate].
Defined.

Lemma try_confirm_first_confirmation_witness :
  confirm_and_enrich.try_confirm (rt := Reference.runtime) confirms_third 6
  = (true, JObj [("dealId", JStr "DIAAAAB1"); ("dealStatus", JStr "ACCEPTED")]).
Proof.
  apply (proj1 (try_confirm_first_confirmation (rt := Reference.runtime) confirms_third 6 _)).
  exists 2%nat. split; [lia|]. split; [reflexivity|]. split; [reflexivity|].
  intros i d Hi. destruct i as [|[|i]]; [discriminate | discriminate | lia].
Defined.

Lemma pick_match_sound_witness :
  In ftse_position [ftse_position] /\
  is_candidate (Some "IX.D.FTSE.CFD.IP") "BUY" ftse_position = true.
Proof.
  split;
    apply (proj1 (pick_match_sound (rt := Reference.runtime) [ftse_position]
                    (Some "IX.D.FTSE.CFD.IP") "BUY" (Some (1 # 2))) ftse_position eq_refl).
Defined.

Lemma reconciler_one_record_per_order_witness :
  exists recs : list (list string),
    default [] reconciled = (default [] ledger_sent ++ recs)%list /\
    length recs
    = length (List.filter
                (fun r => confirm_and_enrich.is_sent_row r &&
                          bool_decide (r !! "run_id" = Some "20250812T100000Z"))%bool
                (confirm_and_enrich.read_log_rows ledger_sent)) /\
    Forall (fun rec => length rec = 26%nat) recs.
Proof.
  apply (proj2 (reconciler_one_record_per_order (rt := Reference.runtime) unconfirmed None
                  ledger_sent reconciled ltac:(vm_compute; reflexivity))
               "20250812T100000Z").
  - intros H. apply (f_equal length) in H. vm_compute in H. discriminate H.
  - vm_compute. reflexivity.
Defined.

Lemma latest_run_id_is_latest_witness :
  exists r, In r (confirm_and_enrich.read_log_rows ledger_sent) /\
            sent_run_id r = Some "20250812T100000Z".
Proof.
  apply (proj1 (proj1 (latest_run_id_is_latest (confirm_and_enrich.read_log_rows ledger_sent))
                      "20250812T100000Z" ltac:(vm_compute; reflexivity))).
Defined.

Lemma sentiment_result_shape_witness :
  sentiment_result (get_sentiment_for_price_action (rt := Reference.runtime)
                      (Some "sk-test") loud_reply) /\
  get_sentiment_for_price_action (rt := Reference.runtime) (Some "sk-test") loud_reply
  = JObj [("label", JStr "bullish"); ("score", JNum 1);
          ("explanation", JStr "Price above SMA20.")].
Proof.
  split; [|vm_compute; reflexivity].
  destruct (proj1 (sentiment_result_shape (rt := Reference.runtime) (Some "sk-test")
                     loud_reply)) as [H | H]; [discriminate H | exact H].
Defined.

Lemma C3_fallback_record_misfiled_witness :
  exists (rec : list string) (row : gmap string string),
    confirm_and_enrich.reconcile_row (rt := Reference.runtime) unconfirmed
      "20250812T100000Z" 0 sent_row
      {| confirm_and_enrich.ls_log := ledger_sent;
         confirm_and_enrich.positions_cache := None |}
    = Ret {| confirm_and_enrich.ls_log := Some (default [] ledger_sent ++ [rec])%list;
             confirm_and_enrich.positions_cache := Some [ftse_position] |} /\
    csv_get confirm_and_enrich.LOG_FIELDS rec "event" = Some "CONFIRM_FALLBACK_OK" /\
    last (confirm_and_enrich.read_log_rows (Some (default [] ledger_sent ++ [rec])%list))
    = Some row /\
    row !! "event" = None /\
    row !! "payload_json" = None /\
    row !! "stop_points" = Some "CONFIRM_FALLBACK_OK".
Proof.
  destruct (proj1 C3_fallback_record_misfiled Reference.runtime unconfirmed
              "20250812T100000Z" 0%nat sent_row (tail (default [] ledger_sent)) None
              [ftse_position] ftse_position)
    as (rec & row & Hrow & Hev & _ & _ & Hlast & Hnoev & Hnopay & Hstop & _).
  - intros k data _ Hk. discriminate Hk.
  - right. split; [reflexivity | vm_compute; reflexivity].
  - vm_compute. reflexivity.
  - exists rec, row. repeat split; assumption.
Defined.
